(** * node-monitor: a shallow embedding of the metrics bridge

    The development follows the layout of the repository.

    - [JS]: the fragment of JavaScript the services compute with, that is
      IEEE-754 binary64 numbers, [undefined], object literals,
      [Math.round], truthiness and [||].
    - [Stats], [DockerCommon], [DockerMonitor], [DockerMonitorStrict]:
      [services/docker-monitor.js], in the revision guarded by
      [dockerAvailable] and in the revision that rethrows.
    - [Disk], [SystemMonitor]: [services/system-monitor.js].
    - [NodeCache], [CacheService]: [services/cache-service.js].
    - [JSON], [WebSocketService]: [services/websocket-service.js].
    - [Routes]: [routes/system.js] and [routes/docker.js].
    - [Auth]: [middleware/auth.js].

    Effects (logging, third-party calls, socket sends, the registry of
    subscribers, the cache) are threaded through one state-and-exception
    monad [M] over a [World]; a thrown JavaScript exception keeps the
    effects that happened before it.  The second half of the file states
    and proves the properties. *)

From Stdlib Require Import ZArith String Ascii List Lia Bool.
From Stdlib Require Import SpecFloat.
From stdpp Require Import gmap strings list.
Import ListNotations.

Open Scope string_scope.
Open Scope Z_scope.

(* ===================================================================== *)
(** * JavaScript values *)
(* ===================================================================== *)

Module JS.

(** A JavaScript number is an IEEE-754 binary64 value.  [spec_float] with
    precision 53 and maximal exponent 1024 is the Standard Library's
    executable reference model of that format. *)
Definition num : Type := spec_float.

Definition prec : Z := 53.
Definition emax : Z := 1024.

(** The number denoted by an integer literal. *)
Definition num_of_Z (z : Z) : num := binary_normalize prec emax z 0 false.

Definition zero : num := S754_zero false.
Definition hundred : num := Eval cbv in num_of_Z 100.
Definition NaN : num := S754_nan.

Definition add : num -> num -> num := SFadd prec emax.
Definition sub : num -> num -> num := SFsub prec emax.
Definition mul : num -> num -> num := SFmul prec emax.
Definition div : num -> num -> num := SFdiv prec emax.

(** [x > y] and [x <= y]; both are false as soon as one side is NaN. *)
Definition num_gt (x y : num) : bool := SFltb y x.
Definition num_le (x y : num) : bool := SFleb x y.

(** ToBoolean on a number: [0], [-0] and [NaN] are falsy. *)
Definition truthy (x : num) : bool :=
  match x with
  | S754_zero _ | S754_nan => false
  | _ => true
  end.

(** [Math.round]: the integer nearest to [x], ties towards [+Infinity];
    the sign of a zero result is the sign of [x].  A finite binary64 value
    is [(-1)^s * m * 2^e], so [floor (x + 1/2)] is computed exactly on
    integers. *)
Definition Math_round (x : num) : num :=
  match x with
  | S754_finite s m e =>
      if 0 <=? e then x
      else
        let n := (2 * cond_Zopp s (Zpos m) + 2 ^ (- e)) / 2 ^ (1 - e) in
        if n =? 0 then S754_zero s else num_of_Z n
  | _ => x
  end.

(** A property that holds a number or is absent ([undefined]). *)
Definition optnum : Type := option num.

(** ToNumber: [undefined] becomes [NaN]. *)
Definition to_number (o : optnum) : num :=
  match o with
  | Some x => x
  | None => NaN
  end.

(** [o || d] where [o] is a number or [undefined]. *)
Definition or_num (o : optnum) (d : num) : num :=
  match o with
  | Some x => if truthy x then x else d
  | None => d
  end.

(** Values that end up in response bodies and push messages. *)
#[warnings="-register-all"]
Inductive value : Type :=
| Undefined
| Null
| Bool (b : bool)
| Num (n : num)
| Str (s : string)
| Arr (items : list value)
| Obj (fields : list (string * value)).

Fixpoint assoc (k : string) (fields : list (string * value)) : option value :=
  match fields with
  | [] => None
  | (k', v) :: rest => if String.eqb k k' then Some v else assoc k rest
  end.

(** Property read [v.k]; reading a missing property gives [undefined]. *)
Definition prop (k : string) (v : value) : value :=
  match v with
  | Obj fields => match assoc k fields with Some x => x | None => Undefined end
  | _ => Undefined
  end.

(** ToBoolean on a value, as used by [!data]. *)
Definition truthy_value (v : value) : bool :=
  match v with
  | Undefined | Null => false
  | Bool b => b
  | Num n => truthy n
  | Str s => negb (String.eqb s EmptyString)
  | Arr _ | Obj _ => true
  end.

(** [JSON.stringify] drops the properties whose value is [undefined]: a
    key is present in the serialised object when it is bound to anything
    else. *)
Definition has_key (k : string) (v : value) : bool :=
  match v with
  | Obj fields =>
      match assoc k fields with
      | Some Undefined | None => false
      | Some _ => true
      end
  | _ => false
  end.

(** [Array.prototype.find]. *)
Fixpoint find {A : Type} (p : A -> bool) (l : list A) : option A :=
  match l with
  | [] => None
  | x :: rest => if p x then Some x else find p rest
  end.

End JS.

Import JS.

(* ===================================================================== *)
(** * services/docker-monitor.js: container statistics *)
(* ===================================================================== *)

(** The sample returned by dockerode's [container.stats({stream: false})].
    Counters that the daemon may leave out are [optnum]. *)
Record CpuUsage := { total_usage : optnum }.
Record CpuStats := {
  cpu_usage : CpuUsage;
  system_cpu_usage : optnum;
  online_cpus : optnum
}.
Record MemoryStats := { mem_usage : optnum; mem_limit : optnum }.
Record Network := { rx_bytes : optnum; tx_bytes : optnum }.
Record BlkioEntry := { op : string; value_ : optnum }.
Record BlkioStats := { io_service_bytes_recursive : option (list BlkioEntry) }.
Record RawStats := {
  cpu_stats : CpuStats;
  precpu_stats : CpuStats;
  memory_stats : MemoryStats;
  networks : option (list (string * Network));
  blkio_stats : BlkioStats
}.

Module Stats.

(** [const cpuDelta = stats.cpu_stats.cpu_usage.total_usage -
                      stats.precpu_stats.cpu_usage.total_usage] *)
Definition cpuDelta (stats : RawStats) : num :=
  sub (to_number (total_usage (cpu_usage (cpu_stats stats))))
      (to_number (total_usage (cpu_usage (precpu_stats stats)))).

(** [const systemDelta = stats.cpu_stats.system_cpu_usage -
                         stats.precpu_stats.system_cpu_usage] *)
Definition systemDelta (stats : RawStats) : num :=
  sub (to_number (system_cpu_usage (cpu_stats stats)))
      (to_number (system_cpu_usage (precpu_stats stats))).

(** [const cpuUsage = systemDelta > 0 ?
       (cpuDelta / systemDelta) * stats.cpu_stats.online_cpus * 100 : 0] *)
Definition cpuUsage (stats : RawStats) : num :=
  if num_gt (systemDelta stats) zero
  then mul (mul (div (cpuDelta stats) (systemDelta stats))
                (to_number (online_cpus (cpu_stats stats))))
           hundred
  else zero.

(** [calculateNetworkStats]: a left-to-right [reduce] over
    [Object.values(networks)], starting from [{rx: 0, tx: 0}]. *)
Definition network_step (acc : num * num) (network : Network) : num * num :=
  (add (fst acc) (or_num (rx_bytes network) zero),
   add (snd acc) (or_num (tx_bytes network) zero)).

Definition calculateNetworkStats
    (networks : option (list (string * Network))) : value :=
  match networks with
  | None => Obj [("rx", Num zero); ("tx", Num zero)]
  | Some nets =>
      let totalStats := fold_left network_step (map snd nets) (zero, zero) in
      Obj [("rx", Num (fst totalStats)); ("tx", Num (snd totalStats))]
  end.

(** [io_service_bytes_recursive?.find(item => item.op === o)?.value || 0] *)
Definition blkio_bytes (o : string) (b : BlkioStats) : num :=
  match io_service_bytes_recursive b with
  | None => zero
  | Some items =>
      match JS.find (fun item => String.eqb (op item) o) items with
      | None => zero
      | Some item => or_num (value_ item) zero
      end
  end.

Definition formatContainerStats (stats : RawStats) : value :=
  Obj [
    ("cpu", Obj [
       ("usage", Num (div (Math_round (mul (cpuUsage stats) hundred)) hundred));
       ("system", Num (div (Math_round (mul (systemDelta stats) hundred)) hundred))
     ]);
    ("memory", Obj [
       ("usage", Num (or_num (mem_usage (memory_stats stats)) zero));
       ("limit", Num (or_num (mem_limit (memory_stats stats)) zero));
       ("percentage",
        Num (if truthy (to_number (mem_limit (memory_stats stats)))
             then div (Math_round
                         (mul (mul (div (to_number (mem_usage (memory_stats stats)))
                                        (to_number (mem_limit (memory_stats stats))))
                                   hundred)
                              hundred))
                      hundred
             else zero))
     ]);
    ("network", calculateNetworkStats (networks stats));
    ("io", Obj [
       ("read", Num (blkio_bytes "Read" (blkio_stats stats)));
       ("write", Num (blkio_bytes "Write" (blkio_stats stats)))
     ])
  ].

End Stats.

(* ===================================================================== *)
(** * services/system-monitor.js: disk aggregation *)
(* ===================================================================== *)

(** One entry of systeminformation's [fsSize()]. *)
Record FsEntry := {
  fs : string;
  mount : string;
  fstype : string;
  size : num;
  used : num;
  available : num
}.

Module Disk.

(** [disks.find(d => d.mount === '/') || disks[0]]; an entry is an object,
    hence truthy, so [||] falls through only when [find] gave [undefined]. *)
Definition root_of (disks : list FsEntry) : option FsEntry :=
  match JS.find (fun d => String.eqb (mount d) "/") disks with
  | Some d => Some d
  | None => head disks
  end.

(** [Math.round((root?.used / root?.size) * 100 * 100) / 100] *)
Definition usage_ratio (root : option FsEntry) : num :=
  div (Math_round
         (mul (mul (div (to_number (option_map used root))
                        (to_number (option_map size root)))
                   hundred)
              hundred))
      hundred.

Definition aggregateDiskStats (disks : list FsEntry) : value :=
  let root := root_of disks in
  Obj [
    ("total", Num (or_num (option_map size root) zero));
    ("used", Num (or_num (option_map used root) zero));
    ("free", Num (or_num (option_map available root) zero));
    ("usage", Num (or_num (Some (usage_ratio root)) zero))
  ].

End Disk.

(* ===================================================================== *)
(** * Date *)
(* ===================================================================== *)

Module Date.

(** [w] decimal digits of [z], most significant first. *)
Fixpoint pad (w : nat) (z : Z) : string :=
  match w with
  | O => EmptyString
  | S w' => pad w' (z / 10) ++ String (Ascii.ascii_of_nat (48 + Z.to_nat (z mod 10))) EmptyString
  end.

(** Civil date of a day number counted from 1970-01-01 in the proleptic
    Gregorian calendar. *)
Definition civil (days : Z) : Z * Z * Z :=
  let z := days + 719468 in
  let era := z / 146097 in
  let doe := z - era * 146097 in
  let yoe := (doe - doe / 1460 + doe / 36524 - doe / 146096) / 365 in
  let doy := doe - (365 * yoe + yoe / 4 - yoe / 100) in
  let mp := (5 * doy + 2) / 153 in
  let d := doy - (153 * mp + 2) / 5 + 1 in
  let m := if mp <? 10 then mp + 3 else mp - 9 in
  let y := yoe + era * 400 + (if m <=? 2 then 1 else 0) in
  (y, m, d).

Definition year_string (y : Z) : string :=
  if (0 <=? y) && (y <=? 9999) then pad 4 y
  else (if y <? 0 then "-" else "+") ++ pad 6 (Z.abs y).

(** The ISO-8601 rendering of a time value in milliseconds since the
    epoch. *)
Definition iso (t : Z) : string :=
  let days := t / 86400000 in
  let ms := t mod 86400000 in
  let '(y, m, d) := civil days in
  year_string y ++ "-" ++ pad 2 m ++ "-" ++ pad 2 d ++ "T" ++
  pad 2 (ms / 3600000) ++ ":" ++ pad 2 (ms / 60000 mod 60) ++ ":" ++
  pad 2 (ms / 1000 mod 60) ++ "." ++ pad 3 (ms mod 1000) ++ "Z".

(** The largest magnitude of a valid time value. *)
Definition maxTime : Z := 8640000000000000.

(** The time value of [new Date(x)] for a number [x]: the integral part of
    [x], or nothing (an invalid date) when [x] is not finite or out of
    range. *)
Definition time_value (x : num) : option Z :=
  match x with
  | S754_zero _ => Some 0
  | S754_finite s m e =>
      let t := cond_Zopp s (if 0 <=? e then Zpos m * 2 ^ e else Zpos m / 2 ^ (- e)) in
      if Z.abs t <=? maxTime then Some t else None
  | _ => None
  end.

End Date.

(* ===================================================================== *)
(** * Effects *)
(* ===================================================================== *)

(** A JavaScript exception. *)
Record Error := { err_name : string; err_message : string }.

Inductive Result (A : Type) : Type :=
| Ok (a : A)
| Throw (e : Error).
Arguments Ok {A} a.
Arguments Throw {A} e.

Definition RangeError_invalid_time : Error :=
  {| err_name := "RangeError"; err_message := "Invalid time value" |}.

Definition TypeError_undefined : Error :=
  {| err_name := "TypeError"; err_message := "Cannot read properties of undefined" |}.

(** ** Data handed over by systeminformation *)

Record CoreLoad := { load : num }.
Record CurrentLoadData := {
  currentLoad : num;
  cpus : list CoreLoad;
  cl_avgLoad1 : value;
  cl_avgLoad5 : value;
  cl_avgLoad15 : value
}.
Record MemData := {
  total : num;
  mem_used : num;
  free : num;
  mem_available : value;
  swaptotal : value;
  swapused : value;
  swapfree : value;
  buffers : value;
  cached : value
}.
Record OsInfoData := {
  hostname : value;
  uptime : value;
  avgLoad1 : value;
  avgLoad5 : value;
  avgLoad15 : value
}.
Record TempData := { main : optnum }.
Record SpeedData := { avg : value }.
Record DisksIOData := { rIO : value; rIO_sec : value; wIO : value; wIO_sec : value }.
Record IfaceData := {
  iface : value;
  operstate : string;
  speed : optnum;
  if_rx_bytes : value; rx_sec : value; rx_errors : value; rx_dropped : value;
  if_tx_bytes : value; tx_sec : value; tx_errors : value; tx_dropped : value
}.
Record ConnectionData := { state : string }.

(** ** Data handed over by dockerode *)

(** One entry of [docker.listContainers({all: true})]. *)
Record RawContainer := {
  Id : string;
  Names : list string;
  Image : value;
  State : string;
  Status : value;
  Ports : value;
  Created : num;
  StartedAt : optnum
}.

Inductive SiCall :=
| si_currentLoad | si_mem | si_fsSize | si_osInfo | si_cpuTemperature
| si_cpuCurrentSpeed | si_disksIO | si_networkStats | si_networkConnections.

Inductive DockerCall :=
| docker_listContainers
| docker_stats (containerId : string)
| docker_logs (containerId : string) (tail : num).

(** What the third-party libraries answer when they are called: each call
    either resolves with data or rejects. *)
Record Sources := {
  currentLoad_ : Result CurrentLoadData;
  mem_ : Result MemData;
  fsSize_ : Result (list FsEntry);
  osInfo_ : Result OsInfoData;
  cpuTemperature_ : Result TempData;
  cpuCurrentSpeed_ : Result SpeedData;
  disksIO_ : Result DisksIOData;
  networkStats_ : Result (list IfaceData);
  networkConnections_ : Result (list ConnectionData);
  listContainers_ : Result (list RawContainer);
  stats_ : string -> Result RawStats;
  logs_ : string -> Result string
}.

Inductive LogLevel := Info | Warn | Err.

(** [readyState] of a [ws] socket. *)
Inductive ReadyState := CONNECTING | OPEN | CLOSING | CLOSED.

(** Observable effects, in the order they happen. *)
Inductive Event :=
| Log (level : LogLevel) (text : string)
| SiCalled (c : SiCall)
| DockerCalled (c : DockerCall)
| Sent (ws : nat) (message : value).

(** An entry of the cache: the value and the instant it expires. *)
Record CacheEntry := { entry_value : value; expiry : Z }.

(** The process and what it observes: the clock ([Date.now()], in
    milliseconds), the answers of the third-party libraries, the
    [dockerAvailable] flag of the Docker monitor, the sockets' states, the
    fields [clients] and [metricsInterval] of the WebSocket service, the
    cache with its default ttl, and the effects so far.  Sockets are
    identified by a number; [clients] is a [Set], kept in insertion order
    without duplicates. *)
Record World := {
  clock : Z;
  sources : Sources;
  dockerAvailable : bool;
  readyState : nat -> ReadyState;
  clients : list nat;
  metricsInterval : option Z;
  stdTTL : N;
  store : gmap string CacheEntry;
  trace : list Event
}.

Definition with_trace (t : list Event) (w : World) : World :=
  {| clock := clock w; sources := sources w; dockerAvailable := dockerAvailable w;
     readyState := readyState w; clients := clients w;
     metricsInterval := metricsInterval w; stdTTL := stdTTL w; store := store w; trace := t |}.

Definition with_clients (c : list nat) (w : World) : World :=
  {| clock := clock w; sources := sources w; dockerAvailable := dockerAvailable w;
     readyState := readyState w; clients := c;
     metricsInterval := metricsInterval w; stdTTL := stdTTL w; store := store w; trace := trace w |}.

Definition with_store (s : gmap string CacheEntry) (w : World) : World :=
  {| clock := clock w; sources := sources w; dockerAvailable := dockerAvailable w;
     readyState := readyState w; clients := clients w;
     metricsInterval := metricsInterval w; stdTTL := stdTTL w; store := s; trace := trace w |}.

Definition with_clock (t : Z) (w : World) : World :=
  {| clock := t; sources := sources w; dockerAvailable := dockerAvailable w;
     readyState := readyState w; clients := clients w;
     metricsInterval := metricsInterval w; stdTTL := stdTTL w; store := store w; trace := trace w |}.

Definition with_metricsInterval (i : option Z) (w : World) : World :=
  {| clock := clock w; sources := sources w; dockerAvailable := dockerAvailable w;
     readyState := readyState w; clients := clients w;
     metricsInterval := i; stdTTL := stdTTL w; store := store w; trace := trace w |}.

(** ** The monad of effectful code

    A computation transforms the world and either returns or throws; what
    it did before throwing stays done. *)
Definition M (A : Type) : Type := World -> Result A * World.

Definition ret {A : Type} (a : A) : M A := fun w => (Ok a, w).

Definition bind {A B : Type} (m : M A) (k : A -> M B) : M B :=
  fun w =>
    match m w with
    | (Ok a, w') => k a w'
    | (Throw e, w') => (Throw e, w')
    end.

Definition throw {A : Type} (e : Error) : M A := fun w => (Throw e, w).

Declare Scope js_scope.
Delimit Scope js_scope with js.
Notation "'let!' x ':=' m 'in' k" := (bind m (fun x => k))
  (at level 10, x pattern, m at level 100, k at level 200) : js_scope.
Open Scope js_scope.

(** [try { body } catch (error) { handler }] *)
Definition try_catch {A : Type} (body : M A) (handler : Error -> M A) : M A :=
  fun w =>
    match body w with
    | (Ok a, w') => (Ok a, w')
    | (Throw e, w') => handler e w'
    end.

(** Calling an [async] function gives a promise: the function runs, its
    effects happen, and its outcome is kept until somebody awaits it. *)
Definition settle {A : Type} (m : M A) : M (Result A) :=
  fun w => let '(r, w') := m w in (Ok r, w').

(** [await p] *)
Definition await {A : Type} (r : Result A) : M A :=
  match r with
  | Ok a => ret a
  | Throw e => throw e
  end.

(** [await Promise.all([a, b])]: both are started, the result is the pair
    of their values, or a rejection if one of them rejects (polls are
    linearised in array order). *)
Definition promise_all {A B : Type} (a : M A) (b : M B) : M (A * B) :=
  let! pa := settle a in
  let! pb := settle b in
  let! x := await pa in
  let! y := await pb in
  ret (x, y).

Definition gets {A : Type} (f : World -> A) : M A := fun w => (Ok (f w), w).

Definition emit (e : Event) : M unit :=
  fun w => (Ok tt, with_trace (trace w ++ [e]) w).

Definition logger (level : LogLevel) (text : string) : M unit :=
  emit (Log level text).

(** [new Date().toISOString()] *)
Definition now_iso : M string := gets (fun w => Date.iso (clock w)).

(** A call into systeminformation, and its answer. *)
Definition si {A : Type} (c : SiCall) (answer : Sources -> Result A) : M A :=
  let! _ := emit (SiCalled c) in
  let! r := gets (fun w => answer (sources w)) in
  await r.

(** A call into dockerode, and its answer. *)
Definition docker {A : Type} (c : DockerCall) (answer : Sources -> Result A) : M A :=
  let! _ := emit (DockerCalled c) in
  let! r := gets (fun w => answer (sources w)) in
  await r.

(** [for (const x of xs) ...] collecting results, as [Array.prototype.map]
    does with a callback that may throw. *)
Fixpoint mapM {A B : Type} (f : A -> M B) (l : list A) : M (list B) :=
  match l with
  | [] => ret []
  | x :: rest =>
      let! y := f x in
      let! ys := mapM f rest in
      ret (y :: ys)
  end.

(* ===================================================================== *)
(** * Strings *)
(* ===================================================================== *)

(** JavaScript strings are modelled by sequences of 8-bit characters. *)
Module Str.

Definition LF : Ascii.ascii := Ascii.ascii_of_nat 10.

(** White space and line terminators below code 256. *)
Definition is_space (c : Ascii.ascii) : bool :=
  let n := Ascii.nat_of_ascii c in
  ((9 <=? n) && (n <=? 13) || (n =? 32) || (n =? 160))%nat.

(** [s.split('\n')] *)
Fixpoint split_lines (s : string) : list string :=
  match s with
  | EmptyString => [EmptyString]
  | String c rest =>
      let r := split_lines rest in
      if Ascii.eqb c LF then EmptyString :: r
      else match r with
           | line :: lines => String c line :: lines
           | [] => [String c EmptyString]
           end
  end.

Fixpoint trim_start (s : string) : string :=
  match s with
  | EmptyString => EmptyString
  | String c rest => if is_space c then trim_start rest else s
  end.

Fixpoint trim_end (s : string) : string :=
  match s with
  | EmptyString => EmptyString
  | String c rest =>
      match trim_end rest with
      | EmptyString => if is_space c then EmptyString else String c EmptyString
      | rest' => String c rest'
      end
  end.

(** [s.trim()] *)
Definition trim (s : string) : string := trim_end (trim_start s).

(** [s.substring(n)] *)
Definition from (n : nat) (s : string) : string :=
  substring n (String.length s - n) s.

(** [s.replace('/', '')]: the first occurrence only. *)
Fixpoint remove_first_slash (s : string) : string :=
  match s with
  | EmptyString => EmptyString
  | String c rest => if Ascii.eqb c "/"%char then rest else String c (remove_first_slash rest)
  end.

(** ToBoolean on a string. *)
Definition nonempty (s : string) : bool := negb (String.eqb s EmptyString).

End Str.

(* ===================================================================== *)
(** * services/docker-monitor.js *)
(* ===================================================================== *)

Definition thousand : num := Eval cbv in num_of_Z 1000.

(** [new Date(x).toISOString()], which throws on an invalid date. *)
Definition toISOString (x : num) : M string :=
  match Date.time_value x with
  | Some t => ret (Date.iso t)
  | None => throw RangeError_invalid_time
  end.

(** The number of elements of an array. *)
Definition length_of {A : Type} (l : list A) : num := num_of_Z (Z.of_nat (length l)).

(** [options] of [getContainerLogs]. *)
Record LogOptions := { lines : optnum; since : value; until : value }.

(** The operations the rest of the service uses from
    [require('../services/docker-monitor')]. *)
Record DockerMonitorOps := {
  listContainers : M value;
  getContainerStats : string -> M value;
  getContainerLogs : string -> LogOptions -> M value
}.

(** Code shared by the two revisions of the file. *)
Module DockerCommon.

(** The callback of [containers.map(...)] in [listContainers]. *)
Definition describe (container : RawContainer) : M value :=
  let! name :=
    match Names container with
    | [] => throw TypeError_undefined
    | first :: _ => ret (Str.remove_first_slash first)
    end in
  let! created := toISOString (mul (Created container) thousand) in
  let! started :=
    if String.eqb (State container) "running"
    then let! s := toISOString (to_number (StartedAt container)) in ret (Str s)
    else ret Null in
  ret (Obj [
    ("id", Str (substring 0 12 (Id container)));
    ("name", Str name);
    ("image", Image container);
    ("status", Str (State container));
    ("state", Status container);
    ("ports", Ports container);
    ("created", Str created);
    ("started", started)
  ]).

(** The body of the [try] block of [listContainers]. *)
Definition list_body : M value :=
  let! containers := docker docker_listContainers listContainers_ in
  let! described := mapM describe containers in
  ret (Arr described).

(** The body of the [try] block of [getContainerStats]. *)
Definition stats_body (containerId : string) : M value :=
  let! stats := docker (docker_stats containerId) (fun s => stats_ s containerId) in
  ret (Stats.formatContainerStats stats).

(** The callback of [.map(line => ...)] in [getContainerLogs]. *)
Definition log_line (line : string) : M value :=
  let timestamp := substring 0 30 line in
  let message := Str.from 30 line in
  let! stamp := if Str.nonempty timestamp then ret timestamp else now_iso in
  ret (Obj [
    ("timestamp", Str stamp);
    ("stream", Str "stdout");
    ("message", Str (Str.trim message))
  ]).

(** The body of the [try] block of [getContainerLogs]. *)
Definition logs_body (containerId : string) (options : LogOptions) : M value :=
  let! logs :=
    docker (docker_logs containerId (or_num (lines options) hundred))
           (fun s => logs_ s containerId) in
  let! logLines :=
    mapM log_line
         (List.filter (fun line => Str.nonempty (Str.trim line)) (Str.split_lines logs)) in
  ret (Obj [("logs", Arr logLines); ("totalLines", Num (length_of logLines))]).

End DockerCommon.

(** The revision guarded by [dockerAvailable]: failures are logged and
    answered with an empty snapshot. *)
Module DockerMonitor.
Import DockerCommon.

Definition emptyStats : value :=
  Obj [
    ("cpu", Obj [("usage", Num zero); ("system", Num zero)]);
    ("memory", Obj [("usage", Num zero); ("limit", Num zero); ("percentage", Num zero)]);
    ("network", Obj [("rx", Num zero); ("tx", Num zero)]);
    ("io", Obj [("read", Num zero); ("write", Num zero)])
  ].

Definition emptyLogs : value :=
  Obj [("logs", Arr []); ("totalLines", Num zero)].

Definition listContainers : M value :=
  let! available := gets dockerAvailable in
  if negb available
  then
    let! _ := logger Warn "Docker not available, returning empty container list" in
    ret (Arr [])
  else
    try_catch list_body
      (fun error =>
         let! _ := logger Err "Failed to list containers:" in
         ret (Arr [])).

Definition getContainerStats (containerId : string) : M value :=
  let! available := gets dockerAvailable in
  if negb available
  then
    let! _ := logger Warn "Docker not available, returning empty stats" in
    ret emptyStats
  else
    try_catch (stats_body containerId)
      (fun error =>
         let! _ := logger Err ("Failed to get stats for container " ++ containerId ++ ":") in
         ret emptyStats).

Definition getContainerLogs (containerId : string) (options : LogOptions) : M value :=
  let! available := gets dockerAvailable in
  if negb available
  then
    let! _ := logger Warn "Docker not available, returning empty logs" in
    ret emptyLogs
  else
    try_catch (logs_body containerId options)
      (fun error =>
         let! _ := logger Err ("Failed to get logs for container " ++ containerId ++ ":") in
         ret emptyLogs).

Definition ops : DockerMonitorOps :=
  Build_DockerMonitorOps listContainers getContainerStats getContainerLogs.

End DockerMonitor.

(** The revision without the guard: failures are logged and rethrown. *)
Module DockerMonitorStrict.
Import DockerCommon.

Definition listContainers : M value :=
  try_catch list_body
    (fun error =>
       let! _ := logger Err "Failed to list containers:" in
       throw error).

Definition getContainerStats (containerId : string) : M value :=
  try_catch (stats_body containerId)
    (fun error =>
       let! _ := logger Err ("Failed to get stats for container " ++ containerId ++ ":") in
       throw error).

Definition getContainerLogs (containerId : string) (options : LogOptions) : M value :=
  try_catch (logs_body containerId options)
    (fun error =>
       let! _ := logger Err ("Failed to get logs for container " ++ containerId ++ ":") in
       throw error).

Definition ops : DockerMonitorOps :=
  Build_DockerMonitorOps listContainers getContainerStats getContainerLogs.

End DockerMonitorStrict.

(** Which revision of [docker-monitor.js] is loaded. *)
Inductive Revision := Guarded | Rethrowing.

Definition dockerMonitor (r : Revision) : DockerMonitorOps :=
  match r with
  | Guarded => DockerMonitor.ops
  | Rethrowing => DockerMonitorStrict.ops
  end.

(* ===================================================================== *)
(** * services/system-monitor.js *)
(* ===================================================================== *)

Module SystemMonitor.

Definition aggregateDiskStats := Disk.aggregateDiskStats.

Definition getSystemOverview : M value :=
  try_catch
    (let! (cpu, (mem, (disk, (load, temp)))) :=
       promise_all (si si_currentLoad currentLoad_)
         (promise_all (si si_mem mem_)
            (promise_all (si si_fsSize fsSize_)
               (promise_all (si si_osInfo osInfo_)
                  (si si_cpuTemperature cpuTemperature_)))) in
     ret (Obj [
       ("hostname", hostname load);
       ("uptime", uptime load);
       ("loadAverage", Arr [avgLoad1 load; avgLoad5 load; avgLoad15 load]);
       ("cpu", Obj [
          ("usage", Num (div (Math_round (mul (currentLoad cpu) hundred)) hundred));
          ("cores", Num (length_of (cpus cpu)));
          ("temperature", Num (or_num (main temp) zero))
        ]);
       ("memory", Obj [
          ("total", Num (total mem));
          ("used", Num (mem_used mem));
          ("free", Num (free mem));
          ("usage",
           Num (div (Math_round (mul (mul (div (mem_used mem) (total mem)) hundred)
                                     hundred))
                    hundred))
        ]);
       ("disk", aggregateDiskStats disk)
     ]))
    (fun error =>
       let! _ := logger Err "Failed to get system overview:" in
       throw error).

(** [cpus.map((core, index) => ...)] *)
Fixpoint cores_from (index : Z) (cores : list CoreLoad) : list value :=
  match cores with
  | [] => []
  | core :: rest =>
      Obj [("core", Num (num_of_Z index));
           ("usage", Num (div (Math_round (mul (load core) hundred)) hundred))]
      :: cores_from (index + 1) rest
  end.

Definition getCpuMetrics : M value :=
  let! (load, (temp, speed)) :=
    promise_all (si si_currentLoad currentLoad_)
      (promise_all (si si_cpuTemperature cpuTemperature_)
         (si si_cpuCurrentSpeed cpuCurrentSpeed_)) in
  ret (Obj [
    ("usage", Num (div (Math_round (mul (currentLoad load) hundred)) hundred));
    ("cores", Arr (cores_from 0 (cpus load)));
    ("temperature", Num (or_num (main temp) zero));
    ("frequency", avg speed);
    ("loadAverage", Obj [
       ("1min", cl_avgLoad1 load);
       ("5min", cl_avgLoad5 load);
       ("15min", cl_avgLoad15 load)
     ])
  ]).

Definition getMemoryMetrics : M value :=
  let! mem := si si_mem mem_ in
  ret (Obj [
    ("total", Num (total mem));
    ("used", Num (mem_used mem));
    ("free", Num (free mem));
    ("available", mem_available mem);
    ("usage",
     Num (div (Math_round (mul (mul (div (mem_used mem) (total mem)) hundred) hundred))
              hundred));
    ("swap", Obj [
       ("total", swaptotal mem);
       ("used", swapused mem);
       ("free", swapfree mem)
     ]);
    ("buffers", buffers mem);
    ("cached", cached mem)
  ]).

Definition filesystem (disk : FsEntry) : value :=
  Obj [
    ("filesystem", Str (fs disk));
    ("mountpoint", Str (mount disk));
    ("type", Str (fstype disk));
    ("size", Num (size disk));
    ("used", Num (used disk));
    ("available", Num (available disk));
    ("usage",
     Num (div (Math_round (mul (mul (div (used disk) (size disk)) hundred) hundred))
              hundred))
  ].

Definition getDiskMetrics : M value :=
  let! (disks, io) :=
    promise_all (si si_fsSize fsSize_) (si si_disksIO disksIO_) in
  ret (Obj [
    ("filesystems", Arr (map filesystem disks));
    ("io", Obj [
       ("read", Obj [("operations", rIO io); ("bytes", rIO_sec io)]);
       ("write", Obj [("operations", wIO io); ("bytes", wIO_sec io)])
     ])
  ]).

Definition interface (i : IfaceData) : value :=
  Obj [
    ("name", iface i);
    ("isUp", Bool (String.eqb (operstate i) "up"));
    ("speed", Num (or_num (speed i) zero));
    ("rx", Obj [
       ("bytes", if_rx_bytes i); ("packets", rx_sec i);
       ("errors", rx_errors i); ("dropped", rx_dropped i)
     ]);
    ("tx", Obj [
       ("bytes", if_tx_bytes i); ("packets", tx_sec i);
       ("errors", tx_errors i); ("dropped", tx_dropped i)
     ])
  ].

Definition in_state (s : string) (connections : list ConnectionData) : num :=
  length_of (List.filter (fun c => String.eqb (state c) s) connections).

Definition getNetworkMetrics : M value :=
  let! interfaces := si si_networkStats networkStats_ in
  let! connections := si si_networkConnections networkConnections_ in
  ret (Obj [
    ("interfaces", Arr (map interface interfaces));
    ("connections", Obj [
       ("established", Num (in_state "ESTABLISHED" connections));
       ("listening", Num (in_state "LISTEN" connections))
     ])
  ]).

End SystemMonitor.

(* ===================================================================== *)
(** * services/cache-service.js *)
(* ===================================================================== *)

(** The store behind [CacheService] is the third-party [node-cache]
    package, whose code is not part of the repository. *)
Module NodeCache.

(** Modelled from the spec: the unit of a ttl.  The clock counts
    milliseconds and callers pass seconds ("Cache for 30 seconds"), so one
    unit of ttl is 1000 ticks of the clock. *)
Definition ttl_unit : Z := 1000.

(** Modelled from the spec: [set] of the missing [node-cache] store.  An
    entry is (value, expiry) with an absolute expiry time; an unspecified
    ttl is the process-wide default. *)
Definition set (key : string) (v : value) (ttl : option N) : M bool :=
  fun w =>
    let t := match ttl with Some t => t | None => stdTTL w end in
    let entry := {| entry_value := v; expiry := clock w + Z.of_N t * ttl_unit |} in
    (Ok true, with_store (<[key := entry]> (store w)) w).

(** Modelled from the spec: [get] of the missing [node-cache] store.  A
    read after the expiry is treated as absent; the entry is not
    reclaimed by the read. *)
Definition get (key : string) : M (option value) :=
  fun w =>
    match store w !! key with
    | Some entry =>
        if clock w <=? expiry entry then (Ok (Some (entry_value entry)), w)
        else (Ok None, w)
    | None => (Ok None, w)
    end.

(** Modelled from the spec: [del] of the missing [node-cache] store,
    explicit deletion of an entry. *)
Definition del (key : string) : M unit :=
  fun w => (Ok tt, with_store (delete key (store w)) w).

(** Modelled from the spec: [flushAll] of the missing [node-cache] store. *)
Definition flushAll : M unit :=
  fun w => (Ok tt, with_store ∅ w).

End NodeCache.

Module CacheService.

(** [async get(key) { return this.cache.get(key) }]; a miss is
    [undefined]. *)
Definition get (key : string) : M value :=
  let! found := NodeCache.get key in
  ret (match found with Some v => v | None => Undefined end).

Definition set (key : string) (v : value) (ttl : option N) : M bool :=
  NodeCache.set key v ttl.

Definition del (key : string) : M unit := NodeCache.del key.

Definition flush : M unit := NodeCache.flushAll.

End CacheService.

(* ===================================================================== *)
(** * JSON *)
(* ===================================================================== *)

Module JSON.

Definition finite (n : num) : bool :=
  match n with
  | S754_zero _ | S754_finite _ _ _ => true
  | _ => false
  end.

(** What a peer reads back from [JSON.stringify(v)]: properties bound to
    [undefined] are dropped, [undefined] inside an array and numbers that
    are not finite become [null], and [-0] is written [0]. *)
Fixpoint stringify (v : value) : value :=
  match v with
  | Num n =>
      if finite n then (match n with S754_zero _ => Num zero | _ => Num n end) else Null
  | Arr items =>
      Arr (map (fun item => match item with
                            | Undefined => Null
                            | _ => stringify item
                            end) items)
  | Obj fields =>
      Obj ((fix keep (fs : list (string * value)) : list (string * value) :=
              match fs with
              | [] => []
              | (k, Undefined) :: rest => keep rest
              | (k, x) :: rest => (k, stringify x) :: keep rest
              end) fields)
  | _ => v
  end.

End JSON.

(* ===================================================================== *)
(** * services/websocket-service.js *)
(* ===================================================================== *)

Module WebSocketService.

(** [Set.prototype.has], [add] and [delete] on the registry. *)
Definition has (ws : nat) (members : list nat) : bool := existsb (Nat.eqb ws) members.

Definition add (ws : nat) (members : list nat) : list nat :=
  if has ws members then members else members ++ [ws].

Definition remove (ws : nat) (members : list nat) : list nat :=
  List.filter (fun c => negb (Nat.eqb c ws)) members.

Definition clients_add (ws : nat) : M unit :=
  fun w => (Ok tt, with_clients (add ws (clients w)) w).

Definition clients_delete (ws : nat) : M unit :=
  fun w => (Ok tt, with_clients (remove ws (clients w)) w).

(** [client.send(message)] on an open socket.  The [ws] library does not
    throw there: a write that fails later is reported by the socket's
    ['error'] event, see [on_error]. *)
Definition send (client : nat) (message : value) : M unit :=
  emit (Sent client message).

(** [Set.prototype.forEach]: the members are visited in insertion order;
    a member deleted before its turn is not visited. *)
Fixpoint forEach (callback : nat -> M unit) (pending : list nat) : M unit :=
  match pending with
  | [] => ret tt
  | client :: rest =>
      let! present := gets (fun w => has client (clients w)) in
      let! _ := (if present then callback client else ret tt) in
      forEach callback rest
  end.

Definition is_open (s : ReadyState) : bool :=
  match s with
  | OPEN => true
  | _ => false
  end.

(** The callback of [this.clients.forEach] in [broadcast]. *)
Definition deliver (message : value) (client : nat) : M unit :=
  let! s := gets (fun w => readyState w client) in
  if is_open s then send client message else clients_delete client.

Definition broadcast (data : value) : M unit :=
  let message := JSON.stringify data in
  let! members := gets clients in
  forEach (deliver message) members.

(** The payload built by the timer callback. *)
Definition envelope (timestamp : string) (systemData dockerData : value) : value :=
  Obj [
    ("type", Str "metrics_update");
    ("timestamp", Str timestamp);
    ("data", Obj [("system", systemData); ("docker", dockerData)])
  ].

(** The [try] block of the timer callback. *)
Definition poll_and_broadcast (r : Revision) : M unit :=
  let! (systemData, dockerData) :=
    promise_all SystemMonitor.getSystemOverview
                (listContainers (dockerMonitor r)) in
  let! timestamp := now_iso in
  let payload := envelope timestamp systemData dockerData in
  broadcast payload.

(** The callback given to [setInterval] by [startMetricsBroadcast]: one
    tick of the broadcast timer. *)
Definition tick (r : Revision) : M unit :=
  let! members := gets clients in
  match members with
  | [] => ret tt
  | _ :: _ =>
      try_catch (poll_and_broadcast r)
        (fun error => logger Err "Failed to broadcast metrics:")
  end.

(** [startMetricsBroadcast] registers the timer with its period. *)
Definition startMetricsBroadcast (interval : Z) : M unit :=
  fun w => (Ok tt, with_metricsInterval (Some interval) w).

(** The handlers registered by [initialize]. *)
Definition on_connection (ws : nat) : M unit :=
  let! _ := logger Info "WebSocket client connected" in
  clients_add ws.

Definition on_close (ws : nat) : M unit :=
  let! _ := logger Info "WebSocket client disconnected" in
  clients_delete ws.

Definition on_error (ws : nat) : M unit :=
  let! _ := logger Err "WebSocket error:" in
  clients_delete ws.

(** [stop] clears the timer. *)
Definition stop : M unit :=
  fun w => (Ok tt, with_metricsInterval None w).

End WebSocketService.

(* ===================================================================== *)
(** * routes/system.js and routes/docker.js *)
(* ===================================================================== *)

Module Routes.

(** What a handler does with a request: it answers with [res.json(body)]
    (status 200) or hands an error to [next]. *)
Inductive Reply :=
| Json (status : Z) (body : value)
| NextError (error : Error).

Definition res_json (body : value) : Reply := Json 200 (JSON.stringify body).

(** ** [parseInt] *)

Definition digit_value (c : ascii) : option Z :=
  let n := Z.of_nat (nat_of_ascii c) in
  if (48 <=? n) && (n <=? 57) then Some (n - 48)
  else if (97 <=? n) && (n <=? 122) then Some (n - 87)
  else if (65 <=? n) && (n <=? 90) then Some (n - 55)
  else None.

(** The longest prefix of digits of the radix, read as a number. *)
Fixpoint digits (radix : Z) (s : string) (acc : option Z) : option Z :=
  match s with
  | EmptyString => acc
  | String c rest =>
      match digit_value c with
      | Some d =>
          if d <? radix
          then digits radix rest (Some (match acc with Some a => a * radix + d | None => d end))
          else acc
      | None => acc
      end
  end.

Definition parseInt (input : string) : num :=
  let s := Str.trim_start input in
  let '(negative, s) :=
    match s with
    | String "-" rest => (true, rest)
    | String "+" rest => (false, rest)
    | _ => (false, s)
    end in
  let '(radix, s) :=
    match s with
    | String "0" (String "x" rest) | String "0" (String "X" rest) => (16, rest)
    | _ => (10, s)
    end in
  match digits radix s None with
  | None => NaN
  | Some 0 => S754_zero negative
  | Some n => num_of_Z (if negative then - n else n)
  end.

(** [req.query] of the logs route. *)
Record LogsQuery := { q_lines : option string; q_since : value; q_until : value }.

(** ** routes/system.js *)

Definition overview : M Reply :=
  try_catch
    (let cacheKey := "system:overview" in
     let! cached := CacheService.get cacheKey in
     let! data :=
       if negb (truthy_value cached)
       then
         let! fresh := SystemMonitor.getSystemOverview in
         let! _ := CacheService.set cacheKey fresh (Some 30%N) in
         ret fresh
       else ret cached in
     let! timestamp := now_iso in
     ret (res_json (Obj [
       ("success", Bool true);
       ("data", data);
       ("timestamp", Str timestamp)
     ])))
    (fun error => ret (NextError error)).

Definition cpu : M Reply :=
  try_catch
    (let! data := SystemMonitor.getCpuMetrics in
     ret (res_json (Obj [("success", Bool true); ("data", data)])))
    (fun error => ret (NextError error)).

Definition memory : M Reply :=
  try_catch
    (let! data := SystemMonitor.getMemoryMetrics in
     ret (res_json (Obj [("success", Bool true); ("data", data)])))
    (fun error => ret (NextError error)).

Definition disk : M Reply :=
  try_catch
    (let! data := SystemMonitor.getDiskMetrics in
     ret (res_json (Obj [("success", Bool true); ("data", data)])))
    (fun error => ret (NextError error)).

Definition network : M Reply :=
  try_catch
    (let! data := SystemMonitor.getNetworkMetrics in
     ret (res_json (Obj [("success", Bool true); ("data", data)])))
    (fun error => ret (NextError error)).

(** ** routes/docker.js *)

Definition containers (r : Revision) : M Reply :=
  try_catch
    (let! data := listContainers (dockerMonitor r) in
     ret (res_json (Obj [("success", Bool true); ("data", data)])))
    (fun error => ret (NextError error)).

Definition container_stats (r : Revision) (id : string) : M Reply :=
  try_catch
    (let! data := getContainerStats (dockerMonitor r) id in
     ret (res_json (Obj [("success", Bool true); ("data", data)])))
    (fun error => ret (NextError error)).

Definition container_logs (r : Revision) (id : string) (query : LogsQuery) : M Reply :=
  try_catch
    (let lines :=
       match q_lines query with
       | Some text => parseInt text
       | None => hundred
       end in
     let! data :=
       getContainerLogs (dockerMonitor r) id
         {| lines := Some lines; since := q_since query; until := q_until query |} in
     ret (res_json (Obj [("success", Bool true); ("data", data)])))
    (fun error => ret (NextError error)).

(** The requests the two routers answer. *)
Inductive Route :=
| GetOverview
| GetCpu
| GetMemory
| GetDisk
| GetNetwork
| GetContainers
| GetContainerStats (id : string)
| GetContainerLogs (id : string) (query : LogsQuery).

Definition handle (r : Revision) (route : Route) : M Reply :=
  match route with
  | GetOverview => overview
  | GetCpu => cpu
  | GetMemory => memory
  | GetDisk => disk
  | GetNetwork => network
  | GetContainers => containers r
  | GetContainerStats id => container_stats r id
  | GetContainerLogs id query => container_logs r id query
  end.

End Routes.

(* ===================================================================== *)
(** * middleware/auth.js *)
(* ===================================================================== *)

Module Auth.

(** The middleware either answers itself or calls [next()]. *)
Inductive Outcome :=
| Respond (status : Z) (body : value)
| Next.

(** [apiKey] is [process.env.API_KEY] and [authHeader] is
    [req.headers.authorization]; [None] is [undefined]. *)
Definition authMiddleware (apiKey authHeader : option string) : Outcome :=
  match apiKey with
  | None | Some EmptyString =>
      Respond 500 (Obj [("error", Str "Server configuration error")])
  | Some key =>
      match authHeader with
      | None | Some EmptyString =>
          Respond 401 (Obj [("error", Str "Missing or invalid authorization header")])
      | Some header =>
          if negb (String.prefix "Bearer " header)
          then Respond 401 (Obj [("error", Str "Missing or invalid authorization header")])
          else
            let token := Str.from 7 header in
            if negb (String.eqb token key)
            then Respond 401 (Obj [("error", Str "Invalid API key")])
            else Next
      end
  end.

End Auth.

(* ===================================================================== *)
(** * Observations and sample data used by the properties *)
(* ===================================================================== *)

Module Observe.

(** The messages sent so far, with their receivers. *)
Fixpoint sends (t : list Event) : list (nat * value) :=
  match t with
  | [] => []
  | Sent ws message :: rest => (ws, message) :: sends rest
  | _ :: rest => sends rest
  end.

(** The calls made so far into systeminformation and dockerode. *)
Fixpoint polls (t : list Event) : list Event :=
  match t with
  | [] => []
  | SiCalled c :: rest => SiCalled c :: polls rest
  | DockerCalled c :: rest => DockerCalled c :: polls rest
  | _ :: rest => polls rest
  end.

(** The world after an effectful computation, and its outcome. *)
Definition after {A : Type} (m : M A) (w : World) : World := snd (m w).
Definition outcome {A : Type} (m : M A) (w : World) : Result A := fst (m w).

(** An observation of the world that does not depend on the events other
    than sends. *)
Definition quiet {B : Type} (f : World -> B) : Prop :=
  forall w e, sends [e] = [] -> f (with_trace (trace w ++ [e]) w) = f w.

(** A computation that leaves an observation of the world as it was. *)
Definition preserves {A B : Type} (f : World -> B) (m : M A) : Prop :=
  forall w, f (after m w) = f w.

(** One of the five probes behind the system overview rejects. *)
Definition system_source_fails (s : Sources) : Prop :=
  (exists e, currentLoad_ s = Throw e) \/ (exists e, mem_ s = Throw e) \/
  (exists e, fsSize_ s = Throw e) \/ (exists e, osInfo_ s = Throw e) \/
  (exists e, cpuTemperature_ s = Throw e).

(** The container runtime is marked unavailable, or its listing call
    rejects. *)
Definition container_listing_fails (w : World) : Prop :=
  dockerAvailable w = false \/ exists e, listContainers_ (sources w) = Throw e.


(** Time passes: the clock advances and nothing else changes. *)
Definition elapse (dt : Z) (w : World) : World := with_clock (clock w + dt) w.

(** The sockets of the registry that are open. *)
Definition open_clients (w : World) : list nat :=
  List.filter (fun c => WebSocketService.is_open (readyState w c)) (clients w).

(** Rounding to two decimal places, the way the services write it:
    [Math.round(x * 100) / 100]. *)
Definition round2 (x : num) : num := div (Math_round (mul x hundred)) hundred.

(** The integer [Math_round] picks for a finite value with a fractional
    part. *)
Definition nearest (s : bool) (m : positive) (e : Z) : Z :=
  (2 * cond_Zopp s (Zpos m) + 2 ^ (- e)) / 2 ^ (1 - e).

(** The percentage fields read back from the formatted sample. *)
Definition cpu_usage_of (stats : RawStats) : value :=
  prop "usage" (prop "cpu" (Stats.formatContainerStats stats)).

Definition memory_percentage_of (stats : RawStats) : value :=
  prop "percentage" (prop "memory" (Stats.formatContainerStats stats)).

(** Left-to-right sum of a list of numbers, starting from [0]. *)
Definition sum (l : list num) : num := fold_left add l zero.

Definition rx_of (n : Network) : num := or_num (rx_bytes n) zero.
Definition tx_of (n : Network) : num := or_num (tx_bytes n) zero.

(** The figures reported for one filesystem entry. *)
Definition figures (d : FsEntry) : value :=
  Obj [
    ("total", Num (or_num (Some (size d)) zero));
    ("used", Num (or_num (Some (used d)) zero));
    ("free", Num (or_num (Some (available d)) zero));
    ("usage", Num (or_num (Some (Disk.usage_ratio (Some d))) zero))
  ].

(** [d] is the first entry of [disks] mounted on ["/"]. *)
Inductive first_root (d : FsEntry) : list FsEntry -> Prop :=
| first_root_here rest : mount d = "/" -> first_root d (d :: rest)
| first_root_later d' rest :
    mount d' <> "/" -> first_root d rest -> first_root d (d' :: rest).

(** The registry after the traversal has met the sockets of [pending]. *)
Definition prune (state : nat -> ReadyState) (pending members : list nat) : list nat :=
  fold_left
    (fun acc c =>
       if WebSocketService.is_open (state c) then acc
       else WebSocketService.remove c acc)
    pending members.

(** What [w1], reached from [w] by a computation that only polls and
    logs, still shares with [w]. *)
Definition same_process (w w1 : World) : Prop :=
  clients w1 = clients w /\ readyState w1 = readyState w /\ clock w1 = clock w
  /\ sources w1 = sources w /\ dockerAvailable w1 = dockerAvailable w
  /\ sends (trace w1) = sends (trace w).

(** The status of the answer, if the middleware answers itself. *)
Definition status_of (o : Auth.Outcome) : option Z :=
  match o with
  | Auth.Respond status _ => Some status
  | Auth.Next => None
  end.

(** A computation that never returns [undefined]. *)
Definition defined (m : M value) : Prop :=
  forall w v, outcome m w = Ok v -> v <> Undefined.

End Observe.

Module Samples.

Definition boom : Error := {| err_name := "Error"; err_message := "connect ENOENT" |}.

Definition healthy : Sources := {|
  currentLoad_ := Ok {| currentLoad := num_of_Z 25;
                        cpus := [ {| load := num_of_Z 20 |}; {| load := num_of_Z 30 |} ];
                        cl_avgLoad1 := Undefined; cl_avgLoad5 := Undefined;
                        cl_avgLoad15 := Undefined |};
  mem_ := Ok {| total := num_of_Z 8000; mem_used := num_of_Z 2000; free := num_of_Z 6000;
                mem_available := Num (num_of_Z 6000);
                swaptotal := Num zero; swapused := Num zero; swapfree := Num zero;
                buffers := Num zero; cached := Num zero |};
  fsSize_ := Ok [ {| fs := "/dev/sda2"; mount := "/"; fstype := "ext4";
                     size := num_of_Z 8000; used := num_of_Z 2000;
                     available := num_of_Z 6000 |} ];
  osInfo_ := Ok {| hostname := Str "raspberrypi"; uptime := Undefined;
                   avgLoad1 := Undefined; avgLoad5 := Undefined; avgLoad15 := Undefined |};
  cpuTemperature_ := Ok {| main := None |};
  cpuCurrentSpeed_ := Ok {| avg := Num (num_of_Z 1400) |};
  disksIO_ := Ok {| rIO := Num zero; rIO_sec := Num zero; wIO := Num zero; wIO_sec := Num zero |};
  networkStats_ := Ok [];
  networkConnections_ := Ok [ {| state := "LISTEN" |} ];
  listContainers_ :=
    Ok [ {| Id := "0123456789abcdef"; Names := ["/web"]; Image := Str "nginx";
            State := "exited"; Status := Str "Exited (0)"; Ports := Arr [];
            Created := num_of_Z 1705314600; StartedAt := None |} ];
  stats_ := fun _ => Throw boom;
  logs_ := fun _ => Ok "2024-01-15T10:30:00.000000000Z started"
|}.

(** The container runtime does not answer. *)
Definition docker_down : Sources := {|
  currentLoad_ := currentLoad_ healthy; mem_ := mem_ healthy; fsSize_ := fsSize_ healthy;
  osInfo_ := osInfo_ healthy; cpuTemperature_ := cpuTemperature_ healthy;
  cpuCurrentSpeed_ := cpuCurrentSpeed_ healthy; disksIO_ := disksIO_ healthy;
  networkStats_ := networkStats_ healthy; networkConnections_ := networkConnections_ healthy;
  listContainers_ := Throw boom;
  stats_ := fun _ => Throw boom;
  logs_ := fun _ => Throw boom
|}.

(** The memory probe of the host fails; the container runtime is fine. *)
Definition mem_down : Sources := {|
  currentLoad_ := currentLoad_ healthy; mem_ := Throw boom; fsSize_ := fsSize_ healthy;
  osInfo_ := osInfo_ healthy; cpuTemperature_ := cpuTemperature_ healthy;
  cpuCurrentSpeed_ := cpuCurrentSpeed_ healthy; disksIO_ := disksIO_ healthy;
  networkStats_ := networkStats_ healthy; networkConnections_ := networkConnections_ healthy;
  listContainers_ := listContainers_ healthy;
  stats_ := stats_ healthy;
  logs_ := logs_ healthy
|}.

(** A process at 2024-01-15T10:30:00Z with the given sources and
    registry; socket 1 is open, every other socket is closed. *)
Definition world (s : Sources) (available : bool) (members : list nat) : World := {|
  clock := 1705314600000;
  sources := s;
  dockerAvailable := available;
  readyState := fun ws => if Nat.eqb ws 1 then OPEN else CLOSED;
  clients := members;
  metricsInterval := Some 5000;
  stdTTL := 30000%N;
  store := ∅;
  trace := []
|}.

(** Two networks of a container; the second reports no [tx_bytes]. *)
Definition two_nets : list (string * Network) := [
  ("eth0", {| rx_bytes := Some (num_of_Z 10); tx_bytes := Some (num_of_Z 20) |});
  ("eth1", {| rx_bytes := Some (num_of_Z 5); tx_bytes := None |})
].

(** A sample whose deltas are 200 and 1000 on a four-core host. *)
Definition sample_200_1000_4 : RawStats := {|
  cpu_stats := {| cpu_usage := {| total_usage := Some (num_of_Z 1200) |};
                  system_cpu_usage := Some (num_of_Z 5000);
                  online_cpus := Some (num_of_Z 4) |};
  precpu_stats := {| cpu_usage := {| total_usage := Some (num_of_Z 1000) |};
                     system_cpu_usage := Some (num_of_Z 4000);
                     online_cpus := Some (num_of_Z 4) |};
  memory_stats := {| mem_usage := Some (num_of_Z 1024); mem_limit := Some (num_of_Z 4096) |};
  networks := Some two_nets;
  blkio_stats := {| io_service_bytes_recursive := None |}
|}.

(** The same container with no memory limit configured. *)
Definition sample_unlimited : RawStats := {|
  cpu_stats := cpu_stats sample_200_1000_4;
  precpu_stats := precpu_stats sample_200_1000_4;
  memory_stats := {| mem_usage := Some (num_of_Z 1024); mem_limit := Some zero |};
  networks := None;
  blkio_stats := blkio_stats sample_200_1000_4
|}.

(** A boot partition listed before the root filesystem. *)
Definition two_disks : list FsEntry := [
  {| fs := "/dev/sda1"; mount := "/boot"; fstype := "vfat";
     size := num_of_Z 1000; used := num_of_Z 100; available := num_of_Z 900 |};
  {| fs := "/dev/sda2"; mount := "/"; fstype := "ext4";
     size := num_of_Z 8000; used := num_of_Z 2000; available := num_of_Z 6000 |}
].

End Samples.

(* ===================================================================== *)
(** * routes/health.js *)
(* ===================================================================== *)

Module Health.

(** [v === s] for a string [s]. *)
Definition is_string (s : string) (v : value) : bool :=
  match v with
  | Str t => String.eqb t s
  | _ => false
  end.

(** [v.length] *)
Definition length_value (v : value) : value :=
  match v with
  | Arr items => Num (length_of items)
  | Str s => Num (num_of_Z (Z.of_nat (String.length s)))
  | _ => Undefined
  end.

Definition checkSystemService : M value :=
  try_catch
    (let! _ := SystemMonitor.getSystemOverview in
     ret (Obj [("status", Str "healthy")]))
    (fun error =>
       ret (Obj [("status", Str "unhealthy"); ("error", Str (err_message error))])).

(** The first revision of [checkDockerService]. *)
Definition checkDockerService_plain (r : Revision) : M value :=
  try_catch
    (let! _ := listContainers (dockerMonitor r) in
     ret (Obj [("status", Str "healthy")]))
    (fun error =>
       ret (Obj [("status", Str "unhealthy"); ("error", Str (err_message error))])).

(** The revision of [checkDockerService] that looks at
    [dockerMonitor.dockerAvailable]; it goes with the guarded monitor. *)
Definition checkDockerService : M value :=
  try_catch
    (let! containers := DockerMonitor.listContainers in
     let! available := gets dockerAvailable in
     if negb available
     then ret (Obj [
       ("status", Str "unavailable");
       ("message", Str "Docker daemon is not accessible or not running");
       ("containers", Arr [])
     ])
     else ret (Obj [
       ("status", Str "healthy");
       ("containers", length_value containers);
       ("available", Bool true)
     ]))
    (fun error =>
       ret (Obj [
         ("status", Str "unhealthy");
         ("error", Str (err_message error));
         ("available", Bool false)
       ])).

Definition checkCacheService : M value :=
  try_catch
    (let! _ := CacheService.set "health:test" (Str "ok") (Some 1%N) in
     let! result := CacheService.get "health:test" in
     ret (if is_string "ok" result
          then Obj [("status", Str "healthy")]
          else Obj [("status", Str "unhealthy")]))
    (fun error =>
       ret (Obj [("status", Str "unhealthy"); ("error", Str (err_message error))])).

(** Which revision of the file is loaded. *)
Inductive Variant := Plain (r : Revision) | Aware.

Definition checkDocker (v : Variant) : M value :=
  match v with
  | Plain r => checkDockerService_plain r
  | Aware => checkDockerService
  end.

(** [s => s.status === 'unhealthy'] *)
Definition unhealthy (service : value) : bool :=
  is_string "unhealthy" (prop "status" service).

(** The handler of [GET /api/health]; [uptime] is [process.uptime()] and
    [version] is [process.env.npm_package_version]. *)
Definition health (v : Variant) (uptime : num) (version : option string)
  : M Routes.Reply :=
  let! (system, (docker, cache)) :=
    promise_all checkSystemService (promise_all (checkDocker v) checkCacheService) in
  let! timestamp := now_iso in
  let services := [("system", system); ("docker", docker); ("cache", cache)] in
  let hasUnhealthy := existsb unhealthy (map snd services) in
  ret (Routes.res_json (Obj [
    ("status", Str (if hasUnhealthy then "degraded" else "healthy"));
    ("timestamp", Str timestamp);
    ("uptime", Num uptime);
    ("version",
     Str (match version with
          | Some text => if Str.nonempty text then text else "1.0.0"
          | None => "1.0.0"
          end));
    ("services", Obj services)
  ])).

End Health.

(* ===================================================================== *)
(** * routes/docker.js: the status route *)
(* ===================================================================== *)

Module DockerStatus.

(** The handler of [GET /api/docker/status], in the revision of the file
    that goes with the guarded monitor; [enabled] is
    [process.env.DOCKER_ENABLED !== 'false']. *)
Definition status (enabled : bool) : M Routes.Reply :=
  try_catch
    (let! available := gets dockerAvailable in
     let! timestamp := now_iso in
     let! probed :=
       if available
       then
         try_catch
           (let! containers := DockerMonitor.listContainers in
            ret [("containers", Health.length_value containers);
                 ("healthy", Bool true)])
           (fun error =>
              ret [("healthy", Bool false); ("error", Str (err_message error))])
       else ret [] in
     ret (Routes.res_json (Obj [
       ("success", Bool true);
       ("data", Obj ([
          ("available", Bool available);
          ("enabled", Bool enabled);
          ("socketPath", Str "/var/run/docker.sock");
          ("timestamp", Str timestamp)
        ] ++ probed))
     ])))
    (fun error => ret (Routes.NextError error)).

End DockerStatus.

(* ===================================================================== *)
(** * middleware/error-handler.js *)
(* ===================================================================== *)

Module ErrorHandler.

(** [s.includes(needle)] *)
Fixpoint includes (needle s : string) : bool :=
  match s with
  | EmptyString => String.prefix needle EmptyString
  | String _ rest => String.prefix needle s || includes needle rest
  end.

(** The properties of [err] the handler looks at; [None] is
    [undefined].  Status codes are integers. *)
Record Failure := {
  name : string;
  message : option string;
  code : option string;
  status : option Z;
  stack : value
}.

(** [err.message] as a value. *)
Definition message_value (err : Failure) : value :=
  match message err with
  | Some text => Str text
  | None => Undefined
  end.

(** [err.status || 500] *)
Definition status_or_500 (err : Failure) : Z :=
  match status err with
  | Some 0 | None => 500
  | Some s => s
  end.

(** [err.code === c] *)
Definition has_code (c : string) (err : Failure) : bool :=
  match code err with
  | Some text => String.eqb text c
  | None => false
  end.

(** [err.message?.includes(needle)], as a condition. *)
Definition mentions (needle : string) (err : Failure) : bool :=
  match message err with
  | Some text => includes needle text
  | None => false
  end.

(** [res.status(s).json(body)] *)
Definition answer (s : Z) (body : value) : Routes.Reply :=
  Routes.Json s (JSON.stringify body).

(** The three revisions of the file. *)
Inductive Revision := Basic | Categorised | DockerAware.

Definition basic (production : bool) (err : Failure) : M Routes.Reply :=
  let! _ := logger Err "Error occurred:" in
  if String.eqb (name err) "ValidationError"
  then ret (answer 400 (Obj [
    ("error", Str "Validation failed");
    ("details", message_value err)
  ]))
  else if has_code "ENOENT" err
  then ret (answer 404 (Obj [("error", Str "Resource not found")]))
  else ret (answer 500 (Obj [
    ("error", Str "Internal server error");
    ("message", if production then Str "Something went wrong" else message_value err)
  ])).

(** The part the two later revisions share: the log of the error and the
    answers to validation, missing-resource and connection errors.  [None]
    when none of them applies. *)
Definition categorise (err : Failure) : M (option Routes.Reply) :=
  let! timestamp := now_iso in
  let! _ :=
    match status err with
    | Some s =>
        if (400 <=? s) && (s <? 500)
        then logger Warn "Client error occurred"
        else logger Err "Server error occurred"
    | None => logger Err "Server error occurred"
    end in
  if String.eqb (name err) "ValidationError"
  then
    let! stamp := now_iso in
    ret (Some (answer 400 (Obj [
      ("error", Str "Validation failed");
      ("details", message_value err);
      ("timestamp", Str stamp)
    ])))
  else if has_code "ENOENT" err || has_code "ENOTFOUND" err
  then
    let! stamp := now_iso in
    ret (Some (answer 404 (Obj [
      ("error", Str "Resource not found");
      ("timestamp", Str stamp)
    ])))
  else if has_code "ECONNREFUSED" err || has_code "ECONNRESET" err
  then
    let! _ := logger Err "Connection error - service may be down" in
    let! stamp := now_iso in
    ret (Some (answer 503 (Obj [
      ("error", Str "Service temporarily unavailable");
      ("timestamp", Str stamp)
    ])))
  else ret None.

(** The default answer of the two later revisions. *)
Definition internal (production : bool) (err : Failure) : M Routes.Reply :=
  let isDevelopment := negb production in
  let! stamp := now_iso in
  ret (answer (status_or_500 err) (Obj [
    ("error", Str "Internal server error");
    ("message", if isDevelopment then message_value err else Str "Something went wrong");
    ("stack", if isDevelopment then stack err else Undefined);
    ("timestamp", Str stamp)
  ])).

Definition categorised (production : bool) (err : Failure) : M Routes.Reply :=
  let! early := categorise err in
  match early with
  | Some reply => ret reply
  | None =>
      if String.eqb (name err) "Docker error" || mentions "Docker" err
      then
        let! _ := logger Err "Docker service error" in
        let! stamp := now_iso in
        ret (answer 503 (Obj [
          ("error", Str "Docker service error");
          ("message",
           if negb production then message_value err
           else Str "Container service unavailable");
          ("timestamp", Str stamp)
        ]))
      else internal production err
  end.

Definition dockerAware (production : bool) (err : Failure) : M Routes.Reply :=
  let! early := categorise err in
  match early with
  | Some reply => ret reply
  | None =>
      if String.eqb (name err) "Docker error"
         || mentions "Docker" err
         || mentions "docker" err
         || mentions "Was there a typo in the url or port" err
         || (has_code "ENOENT" err && mentions "docker.sock" err)
      then
        let! _ := logger Err "Docker service error" in
        let! stamp := now_iso in
        ret (answer 503 (Obj [
          ("error", Str "Docker service unavailable");
          ("message", Str "Docker daemon is not accessible or not running");
          ("timestamp", Str stamp)
        ]))
      else internal production err
  end.

Definition errorHandler (r : Revision) (production : bool) (err : Failure)
  : M Routes.Reply :=
  match r with
  | Basic => basic production err
  | Categorised => categorised production err
  | DockerAware => dockerAware production err
  end.

End ErrorHandler.

(* ===================================================================== *)
(** * app.js: the [/api] mount *)
(* ===================================================================== *)

Module App.

(** [app.use('/api', authMiddleware)] followed by the routers: [handler]
    is what the router does with the request once [next()] is called. *)
Definition api (apiKey authHeader : option string) (handler : M Routes.Reply)
  : M Routes.Reply :=
  match Auth.authMiddleware apiKey authHeader with
  | Auth.Next => handler
  | Auth.Respond s body => ret (Routes.Json s (JSON.stringify body))
  end.

End App.

(* ===================================================================== *)
(** * Further observations and sample data *)
(* ===================================================================== *)

Module Views.
Import Observe.

(** The five calls into systeminformation behind the overview. *)
Definition five_probes : list Event :=
  [SiCalled si_currentLoad; SiCalled si_mem; SiCalled si_fsSize;
   SiCalled si_osInfo; SiCalled si_cpuTemperature].

(** A number that is truthy or [+0]: neither [NaN] nor [-0]. *)
Definition clean (v : value) : Prop :=
  exists n, v = Num n /\ (truthy n = true \/ n = zero).

(** An entry of the listing that [describe] can render: it has a name,
    its creation time is a valid date and, when it is running, so is its
    start time. *)
Definition describable (c : RawContainer) : bool :=
  match Names c with [] => false | _ :: _ => true end
  && match Date.time_value (mul (Created c) thousand) with
     | Some _ => true
     | None => false
     end
  && (negb (String.eqb (State c) "running")
      || match Date.time_value (to_number (StartedAt c)) with
         | Some _ => true
         | None => false
         end).

(** What the listing reports for an entry: the first twelve characters
    of its id, its [State] under ["status"] and its [Status] under
    ["state"]. *)
Definition renders (c : RawContainer) (v : value) : Prop :=
  prop "id" v = Str (substring 0 12 (Id c))
  /\ prop "image" v = Image c
  /\ prop "status" v = Str (State c)
  /\ prop "state" v = Status c.

(** A line of log output that is not only white space. *)
Definition non_blank (line : string) : bool := Str.nonempty (Str.trim line).

(** The entry reported for a line of log output. *)
Definition log_entry (line : string) : value :=
  Obj [
    ("timestamp", Str (substring 0 30 line));
    ("stream", Str "stdout");
    ("message", Str (Str.trim (Str.from 30 line)))
  ].

(** Whether [listContainers] reaches the call into dockerode. *)
Definition listing_called (r : Revision) (w : World) : bool :=
  match r with
  | Guarded => dockerAvailable w
  | Rethrowing => true
  end.

(** The [lines] option the logs route hands to the monitor, and the
    [tail] the monitor asks dockerode for. *)
Definition requested_lines (query : Routes.LogsQuery) : num :=
  match Routes.q_lines query with
  | Some text => Routes.parseInt text
  | None => hundred
  end.

Definition requested_tail (query : Routes.LogsQuery) : num :=
  or_num (Some (requested_lines query)) hundred.

(** The adapter call behind each route other than [/overview]. *)
Definition adapter_of (r : Revision) (route : Routes.Route) : M value :=
  match route with
  | Routes.GetOverview => SystemMonitor.getSystemOverview
  | Routes.GetCpu => SystemMonitor.getCpuMetrics
  | Routes.GetMemory => SystemMonitor.getMemoryMetrics
  | Routes.GetDisk => SystemMonitor.getDiskMetrics
  | Routes.GetNetwork => SystemMonitor.getNetworkMetrics
  | Routes.GetContainers => listContainers (dockerMonitor r)
  | Routes.GetContainerStats id => getContainerStats (dockerMonitor r) id
  | Routes.GetContainerLogs id query =>
      getContainerLogs (dockerMonitor r) id
        {| lines := Some (requested_lines query);
           since := Routes.q_since query; until := Routes.q_until query |}
  end.

(** A computation that ignores the world: it leaves it as it is and
    always ends the same way. *)
Definition constant {A : Type} (m : M A) : Prop :=
  exists r, forall w, m w = (r, w).

(** The messages a computation started in [w] has sent by its end. *)
Definition delivered {A : Type} (m : M A) (w : World) : list (nat * value) :=
  skipn (length (sends (trace w))) (sends (trace (after m w))).

(** The routes of the container router, and what the guarded monitor
    answers on each of them when the runtime is unavailable. *)
Definition container_route (route : Routes.Route) : bool :=
  match route with
  | Routes.GetContainers | Routes.GetContainerStats _ | Routes.GetContainerLogs _ _ => true
  | _ => false
  end.

Definition empty_answer (route : Routes.Route) : value :=
  match route with
  | Routes.GetContainerStats _ => DockerMonitor.emptyStats
  | Routes.GetContainerLogs _ _ => DockerMonitor.emptyLogs
  | _ => Arr []
  end.

(** The answer [res.json({ success: true, data })]. *)
Definition success_reply (data : value) : Routes.Reply :=
  Routes.res_json (Obj [("success", Bool true); ("data", data)]).

(** The entry [/overview] leaves in the cache. *)
Definition overview_entry (data : value) (w : World) : CacheEntry :=
  {| entry_value := data; expiry := clock w + 30 * NodeCache.ttl_unit |}.

(** The status and the body of an answer. *)
Definition reply_status (reply : Routes.Reply) : option Z :=
  match reply with
  | Routes.Json s _ => Some s
  | Routes.NextError _ => None
  end.

Definition reply_body (reply : Routes.Reply) : value :=
  match reply with
  | Routes.Json _ body => body
  | Routes.NextError _ => Undefined
  end.

(** The status reported for one of the services by the health route. *)
Definition service_status (k : string) (body : value) : value :=
  prop "status" (prop k (prop "services" body)).

(** The strings an error answer may carry as [message] in production. *)
Definition canned_messages : list value :=
  [Undefined; Str "Something went wrong"; Str "Container service unavailable";
   Str "Docker daemon is not accessible or not running"].

End Views.

Module MoreSamples.
Import Samples.

(** The network statistics probe fails. *)
Definition net_down : Sources := {|
  currentLoad_ := currentLoad_ healthy; mem_ := mem_ healthy; fsSize_ := fsSize_ healthy;
  osInfo_ := osInfo_ healthy; cpuTemperature_ := cpuTemperature_ healthy;
  cpuCurrentSpeed_ := cpuCurrentSpeed_ healthy; disksIO_ := disksIO_ healthy;
  networkStats_ := Throw boom; networkConnections_ := networkConnections_ healthy;
  listContainers_ := listContainers_ healthy;
  stats_ := stats_ healthy;
  logs_ := logs_ healthy
|}.

(** A running container, as the listing of the runtime reports it. *)
Definition running_web : RawContainer :=
  {| Id := "0123456789abcdef"; Names := ["/web"]; Image := Str "nginx";
     State := "running"; Status := Str "Up 2 hours"; Ports := Arr [];
     Created := num_of_Z 1705314600; StartedAt := None |}.

(** The runtime lists one running container. *)
Definition one_running : Sources := {|
  currentLoad_ := currentLoad_ healthy; mem_ := mem_ healthy; fsSize_ := fsSize_ healthy;
  osInfo_ := osInfo_ healthy; cpuTemperature_ := cpuTemperature_ healthy;
  cpuCurrentSpeed_ := cpuCurrentSpeed_ healthy; disksIO_ := disksIO_ healthy;
  networkStats_ := networkStats_ healthy; networkConnections_ := networkConnections_ healthy;
  listContainers_ := Ok [running_web];
  stats_ := stats_ healthy;
  logs_ := logs_ healthy
|}.

(** A stopped container that reports no memory counters, networks or
    block I/O. *)
Definition stopped_sample : RawStats := {|
  cpu_stats := {| cpu_usage := {| total_usage := Some zero |};
                  system_cpu_usage := None; online_cpus := None |};
  precpu_stats := {| cpu_usage := {| total_usage := Some zero |};
                     system_cpu_usage := None; online_cpus := None |};
  memory_stats := {| mem_usage := None; mem_limit := None |};
  networks := None;
  blkio_stats := {| io_service_bytes_recursive := None |}
|}.

(** A pseudo filesystem of size zero. *)
Definition empty_fs : FsEntry :=
  {| fs := "tmpfs"; mount := "/run/lock"; fstype := "tmpfs";
     size := zero; used := zero; available := zero |}.

(** A connection error of the Docker socket. *)
Definition socket_missing : ErrorHandler.Failure :=
  {| ErrorHandler.name := "Error";
     ErrorHandler.message := Some "connect ENOENT /var/run/docker.sock";
     ErrorHandler.code := Some "ENOENT";
     ErrorHandler.status := None;
     ErrorHandler.stack := Str "Error: connect ENOENT /var/run/docker.sock at ..." |}.

(** An error without a code whose message names Docker. *)
Definition docker_failure : ErrorHandler.Failure :=
  {| ErrorHandler.name := "Error";
     ErrorHandler.message := Some "Docker daemon refused the request";
     ErrorHandler.code := None;
     ErrorHandler.status := None;
     ErrorHandler.stack := Str "Error: Docker daemon refused the request at ..." |}.

End MoreSamples.

(* ===================================================================== *)
(** * Properties *)
(* ===================================================================== *)

Open Scope list_scope.

(** ** Numbers *)

Module NumFacts.
Import Observe.

Lemma Math_round_finite s m e :
  e < 0 ->
  Math_round (S754_finite s m e) =
  if nearest s m e =? 0 then S754_zero s else num_of_Z (nearest s m e).
Proof.
  intros He. unfold Math_round, nearest.
  destruct (Z.leb_spec 0 e); [lia | reflexivity].
Qed.

(** [nearest] is the integer [n] with [n - 1/2 <= x < n + 1/2], where
    [x = v * 2^e]; the inequalities are multiplied by [2 * 2^(-e)]. *)
Lemma nearest_bracket s m e :
  e < 0 ->
  let v := cond_Zopp s (Zpos m) in
  let n := nearest s m e in
  (2 * n - 1) * 2 ^ (- e) <= 2 * v < (2 * n + 1) * 2 ^ (- e).
Proof.
  intros He v n.
  assert (Hp : 0 < 2 ^ (- e)) by (apply Z.pow_pos_nonneg; lia).
  assert (Hd : 2 ^ (1 - e) = 2 * 2 ^ (- e)).
  { replace (1 - e) with (Z.succ (- e)) by lia. apply Z.pow_succ_r. lia. }
  assert (Hn : n = (2 * v + 2 ^ (- e)) / (2 * 2 ^ (- e))).
  { subst n v. unfold nearest. now rewrite Hd. }
  pose proof (Z.div_mod (2 * v + 2 ^ (- e)) (2 * 2 ^ (- e)) ltac:(lia)) as Hdm.
  pose proof (Z.mod_pos_bound (2 * v + 2 ^ (- e)) (2 * 2 ^ (- e)) ltac:(lia)) as Hb.
  rewrite <- Hn in Hdm. nia.
Qed.

Lemma le_zero_not_gt (x : num) : num_le x zero = true -> num_gt x zero = false.
Proof. destruct x as [s | s | | s m e]; try destruct s; cbv; congruence. Qed.

Lemma gt_zero_truthy (x : num) : num_gt x zero = true -> truthy x = true.
Proof. destruct x as [s | s | | s m e]; try destruct s; cbv; congruence. Qed.

Lemma eq_zero_falsy (x : num) : SFeqb x zero = true -> truthy x = false.
Proof. destruct x as [s | s | | s m e]; try destruct s; cbv; congruence. Qed.

Example round_half_up : Math_round (div (num_of_Z 5) (num_of_Z 2)) = num_of_Z 3.
Proof. reflexivity. Qed.

Example round_negative_half : Math_round (div (num_of_Z (-5)) (num_of_Z 2)) = num_of_Z (-2).
Proof. reflexivity. Qed.

Example round_small_negative : Math_round (div (num_of_Z (-1)) (num_of_Z 5)) = S754_zero true.
Proof. reflexivity. Qed.

Example round2_example :
  round2 (div (num_of_Z 12345678) (num_of_Z 1000000)) = div (num_of_Z 1235) (num_of_Z 100).
Proof. reflexivity. Qed.

End NumFacts.

(** ** Container statistics *)

Module StatsFacts.
Import Observe Samples Stats NumFacts.

(** C1. The reported CPU usage is [(cpuDelta / systemDelta) * online_cpus *
    100] rounded to two decimal places when [systemDelta > 0], and [0] when
    [systemDelta <= 0]; deltas 200 and 1000 on 4 CPUs give 80. *)
Theorem cpu_usage_percentage (stats : RawStats) :
  (num_gt (systemDelta stats) zero = true ->
   cpu_usage_of stats =
   Num (round2 (mul (mul (div (cpuDelta stats) (systemDelta stats))
                         (to_number (online_cpus (cpu_stats stats))))
                    hundred)))
  /\ (num_le (systemDelta stats) zero = true -> cpu_usage_of stats = Num zero)
  /\ (cpuDelta stats = num_of_Z 200 ->
      systemDelta stats = num_of_Z 1000 ->
      online_cpus (cpu_stats stats) = Some (num_of_Z 4) ->
      cpu_usage_of stats = Num (num_of_Z 80)).
Proof.
  unfold cpu_usage_of, formatContainerStats, cpuUsage; simpl.
  split; [| split].
  - intros ->. reflexivity.
  - intros Hle. rewrite (le_zero_not_gt _ Hle). reflexivity.
  - intros -> -> ->. reflexivity.
Qed.

Lemma cpu_usage_percentage_witness :
  num_gt (systemDelta sample_200_1000_4) zero = true /\
  cpuDelta sample_200_1000_4 = num_of_Z 200 /\
  systemDelta sample_200_1000_4 = num_of_Z 1000 /\
  cpu_usage_of sample_200_1000_4 = Num (num_of_Z 80).
Proof.
  split; [reflexivity | split; [reflexivity | split; [reflexivity |]]].
  apply (proj2 (proj2 (cpu_usage_percentage sample_200_1000_4))); reflexivity.
Defined.

(** C8. The reported memory percentage is [(usage / limit) * 100] rounded
    to two decimal places when [limit > 0], and [0] when [limit] is [0]. *)
Theorem memory_percentage (stats : RawStats) (limit : num) :
  mem_limit (memory_stats stats) = Some limit ->
  (num_gt limit zero = true ->
   memory_percentage_of stats =
   Num (round2 (mul (div (to_number (mem_usage (memory_stats stats))) limit) hundred)))
  /\ (SFeqb limit zero = true -> memory_percentage_of stats = Num zero).
Proof.
  intros Hl. unfold memory_percentage_of, formatContainerStats; simpl.
  rewrite Hl; simpl. split.
  - intros Hgt. now rewrite (gt_zero_truthy _ Hgt).
  - intros Hz. now rewrite (eq_zero_falsy _ Hz).
Qed.

Lemma memory_percentage_witness :
  memory_percentage_of sample_200_1000_4 = Num (num_of_Z 25) /\
  memory_percentage_of sample_unlimited = Num zero.
Proof.
  split.
  - rewrite (proj1 (memory_percentage sample_200_1000_4 (num_of_Z 4096) eq_refl) eq_refl).
    reflexivity.
  - exact (proj2 (memory_percentage sample_unlimited zero eq_refl) eq_refl).
Defined.

(** A sample that carries no limit at all behaves like a zero limit. *)
Lemma memory_percentage_absent (stats : RawStats) :
  mem_limit (memory_stats stats) = None -> memory_percentage_of stats = Num zero.
Proof.
  intros Hl. unfold memory_percentage_of, formatContainerStats; simpl.
  now rewrite Hl.
Qed.

Lemma network_fold (l : list Network) (rx tx : num) :
  fold_left network_step l (rx, tx) =
  (fold_left add (map rx_of l) rx, fold_left add (map tx_of l) tx).
Proof.
  revert rx tx. induction l as [| n l IH]; intros rx tx; simpl; [reflexivity |].
  unfold network_step at 2; simpl. now rewrite IH.
Qed.

Lemma network_totals (nets : list (string * Network)) :
  calculateNetworkStats (Some nets) =
  Obj [("rx", Num (sum (map rx_of (map snd nets))));
       ("tx", Num (sum (map tx_of (map snd nets))))].
Proof. unfold calculateNetworkStats, sum. now rewrite network_fold. Qed.

End StatsFacts.

(** ** Disk aggregation *)

Module DiskFacts.
Import Observe Disk.

Lemma find_first_root (disks : list FsEntry) (d : FsEntry) :
  first_root d disks ->
  JS.find (fun d => String.eqb (mount d) "/") disks = Some d.
Proof.
  induction 1 as [rest Hm | d' rest Hne _ IH]; simpl.
  - now rewrite Hm.
  - destruct (String.eqb_spec (mount d') "/") as [E | _]; [contradiction | exact IH].
Qed.

Lemma find_no_root (disks : list FsEntry) :
  (forall d, In d disks -> mount d <> "/") ->
  JS.find (fun d => String.eqb (mount d) "/") disks = None.
Proof.
  induction disks as [| d' rest IH]; intros Hno; simpl; [reflexivity |].
  destruct (String.eqb_spec (mount d') "/") as [E | _].
  - exfalso. apply (Hno d'); [now left | exact E].
  - apply IH. intros d Hd. apply Hno. now right.
Qed.

Lemma exists_first_root (disks : list FsEntry) :
  (exists d, In d disks /\ mount d = "/") ->
  exists d, first_root d disks.
Proof.
  induction disks as [| d' rest IH]; intros [d [Hin Hm]]; [destruct Hin |].
  destruct (String.eqb_spec (mount d') "/") as [E | Hne].
  - exists d'. now constructor.
  - destruct Hin as [-> | Hin]; [contradiction |].
    destruct IH as [d0 H0]; [now exists d |].
    exists d0. now constructor.
Qed.

Lemma first_root_in (disks : list FsEntry) (d : FsEntry) :
  first_root d disks -> In d disks /\ mount d = "/".
Proof.
  induction 1 as [rest Hm | d' rest _ _ [IHin IHm]]; split; simpl; auto.
Qed.

End DiskFacts.

Module AggregateFacts.
Import Observe Samples Disk DiskFacts Stats StatsFacts.

(** C9. For a non-empty list of filesystem entries the root usage is taken
    from the (first) entry mounted on ["/"] when there is one and from the
    first entry of the list otherwise; the network aggregate of a container
    sums [rx_bytes] and [tx_bytes] over all its networks. *)
Theorem aggregates (disks : list FsEntry) (nets : list (string * Network)) :
  disks <> [] ->
  ((exists d, In d disks /\ mount d = "/") ->
   exists d, first_root d disks /\ aggregateDiskStats disks = figures d)
  /\ ((forall d, In d disks -> mount d <> "/") ->
      exists d rest, disks = d :: rest /\ aggregateDiskStats disks = figures d)
  /\ calculateNetworkStats (Some nets) =
     Obj [("rx", Num (sum (map rx_of (map snd nets))));
          ("tx", Num (sum (map tx_of (map snd nets))))].
Proof.
  intros Hne. split; [| split].
  - intros Hex. destruct (exists_first_root disks Hex) as [d Hd].
    exists d. split; [exact Hd |].
    unfold aggregateDiskStats, root_of. now rewrite (find_first_root _ _ Hd).
  - intros Hno. destruct disks as [| d rest]; [contradiction |].
    exists d, rest. split; [reflexivity |].
    unfold aggregateDiskStats, root_of. now rewrite (find_no_root _ Hno).
  - apply network_totals.
Qed.

Lemma aggregates_witness :
  two_disks <> [] /\
  (exists d, first_root d two_disks /\ aggregateDiskStats two_disks = figures d) /\
  prop "rx" (calculateNetworkStats (Some two_nets)) = Num (num_of_Z 15).
Proof.
  assert (Hne : two_disks <> []) by discriminate.
  destruct (aggregates two_disks two_nets Hne) as [Hroot [_ Hnet]].
  split; [exact Hne | split].
  - apply Hroot. eexists. split; [right; left; reflexivity | reflexivity].
  - rewrite Hnet. reflexivity.
Defined.

Example two_disks_usage :
  prop "usage" (aggregateDiskStats two_disks) = Num (num_of_Z 25).
Proof. reflexivity. Qed.

Example no_disks : aggregateDiskStats [] =
  Obj [("total", Num zero); ("used", Num zero); ("free", Num zero); ("usage", Num zero)].
Proof. reflexivity. Qed.

End AggregateFacts.

(** ** Effects: what a computation leaves untouched *)

Module Frame.
Import Observe.

Lemma sends_app (t1 t2 : list Event) : sends (t1 ++ t2) = sends t1 ++ sends t2.
Proof.
  induction t1 as [| e t1 IH]; simpl; [reflexivity |].
  destruct e; simpl; now rewrite ?IH.
Qed.

Lemma quiet_clients : quiet clients.
Proof. intros w e _. reflexivity. Qed.

Lemma quiet_readyState : quiet readyState.
Proof. intros w e _. reflexivity. Qed.

Lemma quiet_metricsInterval : quiet metricsInterval.
Proof. intros w e _. reflexivity. Qed.

Lemma quiet_clock : quiet clock.
Proof. intros w e _. reflexivity. Qed.

Lemma quiet_sources : quiet sources.
Proof. intros w e _. reflexivity. Qed.

Lemma quiet_dockerAvailable : quiet dockerAvailable.
Proof. intros w e _. reflexivity. Qed.

Lemma quiet_sends : quiet (fun w => sends (trace w)).
Proof. intros w e He. simpl. rewrite sends_app, He. apply app_nil_r. Qed.

Create HintDb frame.
#[export] Hint Resolve quiet_clients quiet_readyState quiet_metricsInterval
  quiet_clock quiet_sources quiet_dockerAvailable quiet_sends : frame.

Section Preserves.
Context {B : Type} (f : World -> B).

Lemma preserves_ret {A : Type} (a : A) : preserves f (ret a).
Proof. intros w. reflexivity. Qed.

Lemma preserves_throw {A : Type} (e : Error) : preserves f (@throw A e).
Proof. intros w. reflexivity. Qed.

Lemma preserves_gets {A : Type} (g : World -> A) : preserves f (gets g).
Proof. intros w. reflexivity. Qed.

Lemma preserves_await {A : Type} (r : Result A) : preserves f (await r).
Proof. intros w. now destruct r. Qed.

Lemma preserves_bind {A C : Type} (m : M A) (k : A -> M C) :
  preserves f m -> (forall a, preserves f (k a)) -> preserves f (bind m k).
Proof.
  intros Hm Hk w. unfold after, bind. specialize (Hm w). unfold after in Hm.
  destruct (m w) as [[a | e] w1]; simpl in *.
  - rewrite <- Hm. apply Hk.
  - exact Hm.
Qed.

Lemma preserves_try_catch {A : Type} (body : M A) (handler : Error -> M A) :
  preserves f body -> (forall e, preserves f (handler e)) ->
  preserves f (try_catch body handler).
Proof.
  intros Hm Hh w. unfold after, try_catch. specialize (Hm w). unfold after in Hm.
  destruct (body w) as [[a | e] w1]; simpl in *.
  - exact Hm.
  - rewrite <- Hm. apply Hh.
Qed.

Lemma preserves_settle {A : Type} (m : M A) : preserves f m -> preserves f (settle m).
Proof.
  intros Hm w. unfold after, settle. specialize (Hm w). unfold after in Hm.
  now destruct (m w) as [r w1].
Qed.

Lemma preserves_promise_all {A C : Type} (a : M A) (b : M C) :
  preserves f a -> preserves f b -> preserves f (promise_all a b).
Proof.
  intros Ha Hb. unfold promise_all.
  repeat (apply preserves_bind; [| intros ?]);
    auto using preserves_settle, preserves_await, preserves_ret.
Qed.

Lemma preserves_mapM {A C : Type} (g : A -> M C) (l : list A) :
  (forall x, preserves f (g x)) -> preserves f (mapM g l).
Proof.
  intros Hg. induction l as [| x l IH]; simpl.
  - apply preserves_ret.
  - repeat (apply preserves_bind; [| intros ?]); auto using preserves_ret.
Qed.

Lemma preserves_toISOString (x : num) : preserves f (toISOString x).
Proof.
  unfold toISOString. destruct (Date.time_value x);
    [apply preserves_ret | apply preserves_throw].
Qed.

Lemma preserves_now_iso : preserves f now_iso.
Proof. apply preserves_gets. Qed.

Hypothesis f_quiet : quiet f.

Lemma preserves_logger (level : LogLevel) (text : string) :
  preserves f (logger level text).
Proof. intros w. apply f_quiet. reflexivity. Qed.

Lemma preserves_si {A : Type} (c : SiCall) (answer : Sources -> Result A) :
  preserves f (si c answer).
Proof.
  unfold si. apply preserves_bind; [| intros _; apply preserves_bind].
  - intros w. apply f_quiet. reflexivity.
  - apply preserves_gets.
  - intros r. apply preserves_await.
Qed.

Lemma preserves_docker {A : Type} (c : DockerCall) (answer : Sources -> Result A) :
  preserves f (docker c answer).
Proof.
  unfold docker. apply preserves_bind; [| intros _; apply preserves_bind].
  - intros w. apply f_quiet. reflexivity.
  - apply preserves_gets.
  - intros r. apply preserves_await.
Qed.

End Preserves.

(** Decompose a computation along its combinators. *)
Ltac frame :=
  repeat first
    [ apply preserves_ret | apply preserves_throw | apply preserves_gets
    | apply preserves_await | apply preserves_now_iso | apply preserves_toISOString
    | apply preserves_logger; assumption
    | apply preserves_si; assumption
    | apply preserves_docker; assumption
    | apply preserves_promise_all
    | apply preserves_settle
    | apply preserves_mapM; intros ?
    | apply preserves_try_catch; [| intros ?]
    | apply preserves_bind; [| intros ?]
    | match goal with
      | |- preserves _ (match ?x with _ => _ end) => destruct x
      end ].

Lemma getSystemOverview_quiet {B : Type} (f : World -> B) :
  quiet f -> preserves f SystemMonitor.getSystemOverview.
Proof. intros Hf. unfold SystemMonitor.getSystemOverview. frame. Qed.

Lemma describe_quiet {B : Type} (f : World -> B) (c : RawContainer) :
  quiet f -> preserves f (DockerCommon.describe c).
Proof. intros Hf. unfold DockerCommon.describe. frame. Qed.

Lemma list_body_quiet {B : Type} (f : World -> B) :
  quiet f -> preserves f DockerCommon.list_body.
Proof.
  intros Hf. unfold DockerCommon.list_body. frame.
Qed.

Lemma listContainers_quiet {B : Type} (f : World -> B) (r : Revision) :
  quiet f -> preserves f (listContainers (dockerMonitor r)).
Proof.
  intros Hf. pose proof (list_body_quiet f Hf).
  destruct r; simpl;
    unfold DockerMonitor.listContainers, DockerMonitorStrict.listContainers;
    frame; assumption.
Qed.

End Frame.

(** ** The registry and the broadcast loop *)

Module RegistryFacts.
Import Observe WebSocketService.

Lemma has_In (c : nat) (cs : list nat) : In c cs -> has c cs = true.
Proof.
  intros Hin. unfold has. apply existsb_exists. exists c. split; [exact Hin |].
  apply Nat.eqb_refl.
Qed.

Lemma has_true_In (c : nat) (cs : list nat) : has c cs = true -> In c cs.
Proof.
  unfold has. intros H. apply existsb_exists in H as [x [Hin Hx]].
  apply Nat.eqb_eq in Hx. now subst.
Qed.

Lemma remove_absent (c : nat) (cs : list nat) : has c cs = false -> remove c cs = cs.
Proof.
  unfold has, remove. induction cs as [| x cs IH]; simpl; [reflexivity |].
  intros H. apply orb_false_iff in H as [Hx Hcs].
  rewrite Nat.eqb_sym, Hx; simpl. now rewrite IH.
Qed.

Lemma has_remove_other (c c' : nat) (cs : list nat) :
  c <> c' -> has c' (remove c cs) = has c' cs.
Proof.
  intros Hne. unfold has, remove. induction cs as [| x cs IH]; simpl; [reflexivity |].
  destruct (Nat.eqb_spec x c) as [-> | Hx]; simpl.
  - rewrite IH. destruct (Nat.eqb_spec c' c); [congruence | reflexivity].
  - now rewrite IH.
Qed.

Lemma remove_not_In (c : nat) (cs : list nat) : ~ In c (remove c cs).
Proof.
  unfold remove. intros H. apply filter_In in H as [_ H].
  now rewrite Nat.eqb_refl in H.
Qed.

Lemma filter_twice {A : Type} (p q : A -> bool) (l : list A) :
  List.filter p (List.filter q l) = List.filter (fun x => q x && p x) l.
Proof.
  induction l as [| x l IH]; simpl; [reflexivity |].
  destruct (q x); simpl; [destruct (p x) |]; now rewrite IH.
Qed.

Lemma prune_filter (state : nat -> ReadyState) (pending members : list nat) :
  prune state pending members =
  List.filter (fun c => is_open (state c) || negb (has c pending)) members.
Proof.
  unfold prune. revert members.
  induction pending as [| p pending IH]; intros members; simpl.
  - induction members as [| x members IHm]; simpl; [reflexivity |].
    rewrite orb_true_r. now rewrite <- IHm.
  - rewrite IH. destruct (is_open (state p)) eqn:Hp.
    + apply filter_ext_in. intros x _. unfold has; simpl.
      destruct (Nat.eqb_spec x p) as [-> | _]; simpl; [| reflexivity].
      now rewrite Hp.
    + unfold remove. rewrite filter_twice. apply filter_ext_in. intros x _.
      unfold has; simpl. destruct (Nat.eqb_spec x p) as [-> | _]; simpl.
      * now rewrite Hp.
      * reflexivity.
Qed.

Lemma prune_self (state : nat -> ReadyState) (members : list nat) :
  prune state members members = List.filter (fun c => is_open (state c)) members.
Proof.
  rewrite prune_filter. apply filter_ext_in. intros x Hx.
  rewrite (has_In _ _ Hx). apply orb_false_r.
Qed.

(** The traversal of [broadcast], started on [pending] in a world where
    the open sockets still to be met are members of the registry. *)
Lemma forEach_deliver (message : value) (pending : list nat) (w : World) :
  (forall c, In c pending -> is_open (readyState w c) = true ->
             has c (clients w) = true) ->
  forEach (deliver message) pending w =
  (Ok tt,
   with_trace
     (trace w ++ map (fun c => Sent c message)
                     (List.filter (fun c => is_open (readyState w c)) pending))
     (with_clients (prune (readyState w) pending (clients w)) w)).
Proof.
  revert w. induction pending as [| c pending IH]; intros w Hopen.
  - destruct w; simpl. unfold ret, with_trace, with_clients; simpl.
    now rewrite app_nil_r.
  - cbn [forEach]. unfold bind at 1, gets at 1. unfold bind at 1.
    destruct (is_open (readyState w c)) eqn:Hc.
    + rewrite (Hopen c (or_introl eq_refl) Hc).
      unfold deliver, bind, gets. rewrite Hc. unfold send, emit.
      rewrite IH.
      * simpl. rewrite Hc. unfold with_trace, with_clients; simpl.
        rewrite <- app_assoc. reflexivity.
      * simpl. intros c' Hin Hc'. apply Hopen; [now right | exact Hc'].
    + destruct (has c (clients w)) eqn:Hp.
      * unfold deliver, bind, gets. rewrite Hc. unfold clients_delete.
        rewrite IH.
        -- simpl. rewrite Hc. reflexivity.
        -- simpl. intros c' Hin Hc'.
           rewrite has_remove_other; [apply Hopen; [now right | exact Hc'] |].
           intros ->. congruence.
      * unfold ret. rewrite IH.
        -- simpl. rewrite Hc. now rewrite (remove_absent _ _ Hp).
        -- intros c' Hin Hc'. apply Hopen; [now right | exact Hc'].
Qed.

Lemma broadcast_run (data : value) (w : World) :
  broadcast data w =
  (Ok tt,
   with_trace (trace w ++ map (fun c => Sent c (JSON.stringify data)) (open_clients w))
              (with_clients (open_clients w) w)).
Proof.
  unfold broadcast, bind, gets. rewrite forEach_deliver.
  - now rewrite prune_self.
  - intros c Hin _. now apply has_In.
Qed.

Lemma sends_of_sent (message : value) (cs : list nat) :
  sends (map (fun c => Sent c message) cs) = map (fun c => (c, message)) cs.
Proof. induction cs as [| c cs IH]; simpl; [reflexivity | now rewrite IH]. Qed.

End RegistryFacts.

(** ** The adapters when their source fails *)

Module AdapterFacts.
Import Observe Samples.

Lemma guarded_list_total (w : World) :
  exists v, outcome DockerMonitor.listContainers w = Ok v.
Proof.
  unfold outcome, DockerMonitor.listContainers, bind, gets.
  destruct (dockerAvailable w); simpl.
  - unfold try_catch. destruct (DockerCommon.list_body w) as [[v | e] w'];
      eexists; reflexivity.
  - eexists; reflexivity.
Qed.

Lemma guarded_stats_total (id : string) (w : World) :
  exists v, outcome (DockerMonitor.getContainerStats id) w = Ok v.
Proof.
  unfold outcome, DockerMonitor.getContainerStats, bind, gets.
  destruct (dockerAvailable w); simpl.
  - unfold try_catch. destruct (DockerCommon.stats_body id w) as [[v | e] w'];
      eexists; reflexivity.
  - eexists; reflexivity.
Qed.

Lemma guarded_logs_total (id : string) (options : LogOptions) (w : World) :
  exists v, outcome (DockerMonitor.getContainerLogs id options) w = Ok v.
Proof.
  unfold outcome, DockerMonitor.getContainerLogs, bind, gets.
  destruct (dockerAvailable w); simpl.
  - unfold try_catch. destruct (DockerCommon.logs_body id options w) as [[v | e] w'];
      eexists; reflexivity.
  - eexists; reflexivity.
Qed.

Lemma guarded_list_empty (w : World) :
  container_listing_fails w ->
  outcome DockerMonitor.listContainers w = Ok (Arr []).
Proof.
  unfold outcome, DockerMonitor.listContainers, bind, gets.
  destruct (dockerAvailable w) eqn:Ha; simpl; [| reflexivity].
  intros [Hf | [e He]]; [congruence |].
  unfold try_catch, DockerCommon.list_body, docker, bind, emit, gets; simpl.
  now rewrite He.
Qed.



Lemma si_run {A : Type} (c : SiCall) (answer : Sources -> Result A) (w : World) :
  si c answer w = (answer (sources w), with_trace (trace w ++ [SiCalled c]) w).
Proof.
  unfold si, bind, emit, gets, await; simpl.
  now destruct (answer (sources w)).
Qed.

Lemma promise_all_run {A B : Type} (a : M A) (b : M B) (w : World) :
  promise_all a b w =
  let '(ra, w1) := a w in
  let '(rb, w2) := b w1 in
  (match ra, rb with
   | Ok x, Ok y => Ok (x, y)
   | Throw e, _ => Throw e
   | Ok _, Throw e => Throw e
   end, w2).
Proof.
  unfold promise_all, bind, settle, await, ret, throw.
  destruct (a w) as [ra w1]. destruct (b w1) as [rb w2].
  destruct ra, rb; reflexivity.
Qed.

Lemma overview_rethrows (w : World) :
  system_source_fails (sources w) ->
  exists e, outcome SystemMonitor.getSystemOverview w = Throw e.
Proof.
  intros Hf. unfold system_source_fails in Hf.
  unfold outcome, SystemMonitor.getSystemOverview, try_catch, bind.
  repeat (rewrite promise_all_run, si_run; simpl).
  rewrite si_run; simpl.
  destruct (currentLoad_ (sources w)) as [cpu | e1];
    destruct (mem_ (sources w)) as [mem | e2];
    destruct (fsSize_ (sources w)) as [disk | e3];
    destruct (osInfo_ (sources w)) as [load | e4];
    destruct (cpuTemperature_ (sources w)) as [temp | e5];
    simpl; try (eexists; reflexivity).
  exfalso. destruct Hf as [[e H] | [[e H] | [[e H] | [[e H] | [e H]]]]]; discriminate.
Qed.




End AdapterFacts.

(** ** The broadcast timer *)

Module BroadcastFacts.
Import Observe Samples Frame RegistryFacts AdapterFacts WebSocketService.

Lemma broadcast_preserves_interval (data : value) :
  preserves metricsInterval (broadcast data).
Proof. intros w. unfold after. now rewrite broadcast_run. Qed.

Lemma tick_total (r : Revision) (w : World) : outcome (tick r) w = Ok tt.
Proof.
  unfold outcome, tick, bind, gets. destruct (clients w); [reflexivity |].
  unfold try_catch. now destruct (poll_and_broadcast r w) as [[[] | e] w'].
Qed.

Lemma tick_preserves_interval (r : Revision) : preserves metricsInterval (tick r).
Proof.
  assert (Hq : quiet metricsInterval) by apply quiet_metricsInterval.
  unfold tick, poll_and_broadcast.
  apply preserves_bind; [apply preserves_gets | intros members].
  destruct members; [apply preserves_ret |].
  apply preserves_try_catch; [| intros e; now apply preserves_logger].
  apply preserves_bind.
  - apply preserves_promise_all;
      [now apply getSystemOverview_quiet | now apply listContainers_quiet].
  - intros [systemData dockerData].
    apply preserves_bind; [apply preserves_now_iso | intros ts].
    apply broadcast_preserves_interval.
Qed.

(** C4. A tick that finds the registry empty returns at once: the world
    is left exactly as it was, so no adapter has been polled and no
    message has been sent. *)
Theorem idle_tick (r : Revision) (w : World) :
  clients w = [] ->
  tick r w = (Ok tt, w)
  /\ polls (trace (after (tick r) w)) = polls (trace w)
  /\ sends (trace (after (tick r) w)) = sends (trace w).
Proof.
  intros Hempty.
  assert (Hrun : tick r w = (Ok tt, w)).
  { unfold tick, bind, gets. now rewrite Hempty. }
  unfold after. rewrite Hrun. auto.
Qed.

Lemma idle_tick_witness :
  tick Guarded (world healthy true []) = (Ok tt, world healthy true [])
  /\ polls (trace (after (tick Guarded) (world healthy true []))) = [].
Proof.
  destruct (idle_tick Guarded (world healthy true []) eq_refl) as [Hrun [Hpolls _]].
  split; [exact Hrun | exact Hpolls].
Defined.

(** C7. A broadcast iteration completes without an error; a subscriber
    whose socket is not open is removed from the registry and is sent
    nothing, every open subscriber stays and is sent the message; a socket
    that reports an error is removed by its handler; and a tick never
    throws nor clears the timer, so later ticks still happen. *)
Theorem broadcast_prunes (data : value) (w : World) :
  let w' := after (broadcast data) w in
  let delivered := map (fun c => (c, JSON.stringify data)) (open_clients w) in
  outcome (broadcast data) w = Ok tt
  /\ clients w' = open_clients w
  /\ sends (trace w') = sends (trace w) ++ delivered
  /\ (forall c, In c (clients w) -> readyState w c <> OPEN ->
        ~ In c (clients w') /\ forall m, ~ In (c, m) delivered)
  /\ (forall c, In c (clients w) -> readyState w c = OPEN ->
        In c (clients w') /\ In (c, JSON.stringify data) delivered)
  /\ (forall ws, ~ In ws (clients (after (on_error ws) w)))
  /\ (forall r, outcome (tick r) w = Ok tt
        /\ metricsInterval (after (tick r) w) = metricsInterval w).
Proof.
  intros w' delivered. subst w' delivered.
  unfold outcome, after. rewrite broadcast_run. simpl.
  assert (Hmem : forall c, In c (open_clients w) <->
                           In c (clients w) /\ is_open (readyState w c) = true).
  { intros c. unfold open_clients. apply filter_In. }
  split; [reflexivity |].
  split; [reflexivity |].
  split; [now rewrite sends_app, sends_of_sent |].
  split.
  { intros c Hin Hc.
    assert (Hno : ~ In c (open_clients w)).
    { intros H. apply Hmem in H as [_ Ho].
      destruct (readyState w c); simpl in Ho; congruence. }
    split; [exact Hno |].
    intros m H. apply in_map_iff in H as [c' [Heq H]].
    inversion Heq; subst. contradiction. }
  split.
  { intros c Hin Hc.
    assert (Hyes : In c (open_clients w)).
    { apply Hmem. split; [exact Hin | now rewrite Hc]. }
    split; [exact Hyes |].
    apply in_map_iff. exists c. auto. }
  split; [intros ws; apply remove_not_In |].
  intros r. split; [apply tick_total | apply tick_preserves_interval].
Qed.

Lemma same_process_after {A : Type} (m : M A) (w : World) :
  (forall (B : Type) (f : World -> B), quiet f -> preserves f m) ->
  same_process w (after m w).
Proof.
  intros Hm. unfold same_process.
  repeat split; [apply (Hm _ clients) | apply (Hm _ readyState) | apply (Hm _ clock)
                | apply (Hm _ sources) | apply (Hm _ dockerAvailable)
                | apply (Hm _ (fun w => sends (trace w)))];
    auto with frame.
Qed.

Lemma same_process_open (w w1 : World) :
  same_process w w1 -> open_clients w1 = open_clients w.
Proof.
  intros [Hc [Hr _]]. unfold open_clients. now rewrite Hc, Hr.
Qed.

(** C2, as stated, fails: with one open subscriber, the memory probe of
    the host rejecting and the container adapter answering, the tick sends
    nothing. *)
Lemma system_failure_drops_tick :
  let w := world mem_down true [1%nat] in
  open_clients w = [1%nat]
  /\ outcome SystemMonitor.getSystemOverview w = Throw boom
  /\ (exists v, outcome DockerMonitor.listContainers w = Ok v)
  /\ sends (trace (after (tick Guarded) w)) = [].
Proof.
  split; [reflexivity | split; [reflexivity | split; [| reflexivity]]].
  eexists. reflexivity.
Qed.

(** C2 (amended). On a tick with at least one subscriber, a failure of
    the container adapter of the guarded Docker monitor does not stop the
    message: every open subscriber is sent the envelope whose [system]
    section is what the system adapter returned and whose [docker] section
    is the empty list.  A failure of the system adapter makes the tick
    send nothing: the error is logged and the tick ends normally. *)
Theorem tick_on_adapter_failure (w : World) :
  clients w <> [] ->
  (forall systemData,
     outcome SystemMonitor.getSystemOverview w = Ok systemData ->
     container_listing_fails w ->
     sends (trace (after (tick Guarded) w)) =
     sends (trace w) ++
     map (fun c => (c, JSON.stringify
                         (envelope (Date.iso (clock w)) systemData (Arr []))))
         (open_clients w))
  /\ (forall r e,
        outcome SystemMonitor.getSystemOverview w = Throw e ->
        outcome (tick r) w = Ok tt
        /\ sends (trace (after (tick r) w)) = sends (trace w)
        /\ In (Log Err "Failed to broadcast metrics:") (trace (after (tick r) w))).
Proof.
  intros Hne. destruct (clients w) as [| c cs] eqn:Hcs; [contradiction |].
  pose proof (same_process_after SystemMonitor.getSystemOverview w
                (fun B f => getSystemOverview_quiet f)) as Hsys.
  split.
  - intros systemData Hok Hfail.
    pose proof (same_process_after DockerMonitor.listContainers
                  (after SystemMonitor.getSystemOverview w)
                  (fun B f => listContainers_quiet f Guarded)) as Hdock.
    assert (Hempty : outcome DockerMonitor.listContainers
                       (after SystemMonitor.getSystemOverview w) = Ok (Arr [])).
    { apply guarded_list_empty. destruct Hsys as [_ [_ [_ [Hs [Ha _]]]]].
      unfold container_listing_fails in *. now rewrite Hs, Ha. }
    unfold outcome, after in *.
    unfold tick, bind, gets. rewrite Hcs.
    unfold try_catch, poll_and_broadcast, bind. rewrite promise_all_run.
    destruct (SystemMonitor.getSystemOverview w) as [rs w1]; simpl in *. subst rs.
    destruct (DockerMonitor.listContainers w1) as [rd w2]; simpl in *. subst rd.
    unfold now_iso, gets. rewrite broadcast_run. simpl.
    rewrite sends_app, sends_of_sent.
    rewrite (same_process_open w1 w2 Hdock), (same_process_open w w1 Hsys).
    destruct Hdock as [_ [_ [Hk2 [_ [_ Hs2]]]]].
    destruct Hsys as [_ [_ [Hk1 [_ [_ Hs1]]]]].
    now rewrite Hs2, Hs1, Hk2, Hk1.
  - intros r e Hthrow.
    split; [apply tick_total |].
    pose proof (same_process_after (listContainers (dockerMonitor r))
                  (after SystemMonitor.getSystemOverview w)
                  (fun B f Hf => listContainers_quiet f r Hf)) as Hdock.
    unfold outcome, after in *.
    unfold tick, bind, gets. rewrite Hcs.
    unfold try_catch, poll_and_broadcast, bind. rewrite promise_all_run.
    destruct (SystemMonitor.getSystemOverview w) as [rs w1]; simpl in *. subst rs.
    destruct (listContainers (dockerMonitor r) w1) as [rd w2]; simpl in *.
    destruct Hdock as [_ [_ [_ [_ [_ Hs2]]]]].
    destruct Hsys as [_ [_ [_ [_ [_ Hs1]]]]].
    split.
    + rewrite sends_app. simpl. rewrite app_nil_r. now rewrite Hs2, Hs1.
    + apply in_or_app. right. now left.
Qed.

Lemma tick_on_adapter_failure_witness :
  sends (trace (after (tick Guarded) (world docker_down true [1%nat; 2%nat]))) =
  [(1%nat,
    JSON.stringify
      (envelope "2024-01-15T10:30:00.000Z"
         (Obj [("hostname", Str "raspberrypi");
               ("uptime", Undefined);
               ("loadAverage", Arr [Undefined; Undefined; Undefined]);
               ("cpu", Obj [("usage", Num (num_of_Z 25));
                            ("cores", Num (num_of_Z 2));
                            ("temperature", Num zero)]);
               ("memory", Obj [("total", Num (num_of_Z 8000));
                               ("used", Num (num_of_Z 2000));
                               ("free", Num (num_of_Z 6000));
                               ("usage", Num (num_of_Z 25))]);
               ("disk", Obj [("total", Num (num_of_Z 8000));
                             ("used", Num (num_of_Z 2000));
                             ("free", Num (num_of_Z 6000));
                             ("usage", Num (num_of_Z 25))])])
         (Arr [])))]
  /\ sends (trace (after (tick Guarded) (world mem_down true [1%nat; 2%nat]))) = [].
Proof.
  split.
  - assert (Hne : clients (world docker_down true [1%nat; 2%nat]) <> []) by discriminate.
    destruct (tick_on_adapter_failure _ Hne) as [Hsent _].
    rewrite (Hsent _ eq_refl); [reflexivity |].
    right. exists boom. reflexivity.
  - assert (Hne : clients (world mem_down true [1%nat; 2%nat]) <> []) by discriminate.
    destruct (tick_on_adapter_failure _ Hne) as [_ Hdrop].
    destruct (Hdrop Guarded boom eq_refl) as [_ [Hnone _]].
    exact Hnone.
Defined.

Lemma broadcast_prunes_witness :
  ~ In 2%nat (clients (after (broadcast (Str "m")) (world healthy true [1%nat; 2%nat])))
  /\ In 1%nat (clients (after (broadcast (Str "m")) (world healthy true [1%nat; 2%nat]))).
Proof.
  pose proof (broadcast_prunes (Str "m") (world healthy true [1%nat; 2%nat])) as H.
  cbv zeta in H. destruct H as [_ [_ [_ [Hclosed [Hopen _]]]]].
  split.
  - apply (Hclosed 2%nat); [right; left; reflexivity | discriminate].
  - apply (Hopen 1%nat); [left; reflexivity | reflexivity].
Defined.

Example broadcast_two_clients :
  let w := after (broadcast (Str "m")) (world healthy true [1%nat; 2%nat]) in
  clients w = [1%nat] /\ sends (trace w) = [(1%nat, Str "m")].
Proof. split; reflexivity. Qed.

End BroadcastFacts.

(** ** The cache *)

Module CacheFacts.
Import Observe Samples.

(** C6. After [set(k, v, T)], [get(k)] returns [v] at once and for as
    long as no more than [T] has elapsed, and returns nothing once more
    than [T] has elapsed, the entry being left in the store. *)
Theorem set_then_get (k : string) (v : value) (T : N) (w : World) :
  let w1 := after (CacheService.set k v (Some T)) w in
  outcome (CacheService.get k) w1 = Ok v
  /\ (forall dt, 0 <= dt <= Z.of_N T * NodeCache.ttl_unit ->
        outcome (CacheService.get k) (elapse dt w1) = Ok v)
  /\ (forall dt, Z.of_N T * NodeCache.ttl_unit < dt ->
        outcome (CacheService.get k) (elapse dt w1) = Ok Undefined
        /\ is_Some (store (elapse dt w1) !! k)).
Proof.
  unfold outcome, after, elapse, CacheService.get, CacheService.set, bind,
    NodeCache.get, NodeCache.set; simpl.
  rewrite lookup_insert_eq; simpl.
  assert (Hunit : 0 <= Z.of_N T * NodeCache.ttl_unit).
  { unfold NodeCache.ttl_unit. lia. }
  split; [| split].
  - destruct (Z.leb_spec (clock w) (clock w + Z.of_N T * NodeCache.ttl_unit));
      [reflexivity | lia].
  - intros dt Hdt.
    destruct (Z.leb_spec (clock w + dt) (clock w + Z.of_N T * NodeCache.ttl_unit));
      [reflexivity | lia].
  - intros dt Hdt.
    destruct (Z.leb_spec (clock w + dt) (clock w + Z.of_N T * NodeCache.ttl_unit));
      [lia |].
    split; [reflexivity | eexists; reflexivity].
Qed.

Lemma set_then_get_witness :
  let w1 := after (CacheService.set "health:test" (Str "ok") (Some 1%N))
                  (world healthy true []) in
  outcome (CacheService.get "health:test") w1 = Ok (Str "ok")
  /\ outcome (CacheService.get "health:test") (elapse 1000 w1) = Ok (Str "ok")
  /\ outcome (CacheService.get "health:test") (elapse 1001 w1) = Ok Undefined.
Proof.
  destruct (set_then_get "health:test" (Str "ok") 1%N (world healthy true []))
    as [Hnow [Hwithin Hafter]].
  split; [exact Hnow | split].
  - apply Hwithin. unfold NodeCache.ttl_unit. lia.
  - apply Hafter. unfold NodeCache.ttl_unit. lia.
Defined.

(** A ttl left out is the configured default. *)
Lemma set_default_ttl (k : string) (v : value) (w : World) :
  after (CacheService.set k v None) w = after (CacheService.set k v (Some (stdTTL w))) w.
Proof. reflexivity. Qed.

(** A key never set is a miss. *)
Lemma get_miss (k : string) (w : World) :
  store w !! k = None -> outcome (CacheService.get k) w = Ok Undefined.
Proof.
  intros Hk. unfold outcome, CacheService.get, bind, NodeCache.get. now rewrite Hk.
Qed.

End CacheFacts.

(** ** Authentication *)

Module AuthFacts.
Import Observe Auth.

Lemma substring_all (s : string) : substring 0 (String.length s) s = s.
Proof. induction s as [| c s IH]; simpl; [reflexivity | now rewrite IH]. Qed.

Lemma token_of_bearer (token : string) :
  Str.from 7 ("Bearer " ++ token)%string = token.
Proof. unfold Str.from. simpl. rewrite Nat.sub_0_r. apply substring_all. Qed.

Lemma prefix_of_bearer (token : string) :
  String.prefix "Bearer " ("Bearer " ++ token)%string = true.
Proof. apply prefix_correct. now destruct token. Qed.

Lemma bearer_prefix (header : string) :
  String.prefix "Bearer " header = true ->
  header = ("Bearer " ++ Str.from 7 header)%string.
Proof.
  intros H. apply prefix_correct in H. simpl in H.
  do 7 (destruct header as [| ? header]; [discriminate |]).
  simpl in H. injection H as -> -> -> -> -> -> -> _.
  exact (f_equal (String.append "Bearer ") (eq_sym (token_of_bearer header))).
Qed.

(** C10, as stated, fails when the key is configured but empty: the
    answer to a request without a header is then 500, not 401. *)
Lemma empty_key_is_not_401 :
  authMiddleware (Some EmptyString) None =
    Respond 500 (Obj [("error", Str "Server configuration error")])
  /\ ~ (forall (key : string) (authHeader : option string),
          authHeader = None ->
          status_of (authMiddleware (Some key) authHeader) = Some 401).
Proof.
  split; [reflexivity |].
  intros H. specialize (H EmptyString None eq_refl). discriminate.
Qed.

(** C10 (amended). If [API_KEY] is unset or empty the answer is 500
    whatever the header; otherwise a header that is missing or does not
    start with ["Bearer "] gets 401, a token that differs from the key gets
    401, and the next handler runs exactly when the header is ["Bearer "]
    followed by the key. *)
Theorem auth_decision (apiKey authHeader : option string) :
  ((apiKey = None \/ apiKey = Some EmptyString) ->
   status_of (authMiddleware apiKey authHeader) = Some 500)
  /\ (forall key, apiKey = Some key -> key <> EmptyString ->
      ((authHeader = None \/
        exists header, authHeader = Some header /\ String.prefix "Bearer " header = false) ->
       status_of (authMiddleware apiKey authHeader) = Some 401)
      /\ (forall token, authHeader = Some ("Bearer " ++ token)%string -> token <> key ->
          status_of (authMiddleware apiKey authHeader) = Some 401)
      /\ (authMiddleware apiKey authHeader = Next <->
          authHeader = Some ("Bearer " ++ key)%string)).
Proof.
  split.
  - intros [-> | ->]; reflexivity.
  - intros key -> Hkey.
    assert (Hrun : authMiddleware (Some key) authHeader =
                   match authHeader with
                   | None | Some EmptyString =>
                       Respond 401 (Obj [("error", Str "Missing or invalid authorization header")])
                   | Some header =>
                       if negb (String.prefix "Bearer " header)
                       then Respond 401 (Obj [("error", Str "Missing or invalid authorization header")])
                       else if negb (String.eqb (Str.from 7 header) key)
                            then Respond 401 (Obj [("error", Str "Invalid API key")])
                            else Next
                   end).
    { destruct key; [contradiction | reflexivity]. }
    rewrite Hrun. clear Hrun. split; [| split].
    + intros [-> | [header [-> Hp]]]; [reflexivity |].
      destruct header; [reflexivity |]. now rewrite Hp.
    + intros token -> Hne.
      rewrite prefix_of_bearer, token_of_bearer. cbn [negb "++"%string].
      destruct (String.eqb_spec token key); [contradiction | reflexivity].
    + split.
      * destruct authHeader as [[| c header] |]; try discriminate.
        destruct (String.prefix "Bearer " (String c header)) eqn:Hp; [| discriminate].
        cbn [negb].
        destruct (String.eqb_spec (Str.from 7 (String c header)) key) as [<- |];
          [| discriminate].
        intros _. f_equal. now apply bearer_prefix.
      * intros ->.
        rewrite prefix_of_bearer, token_of_bearer. cbn [negb "++"%string].
        now rewrite String.eqb_refl.
Qed.

Lemma auth_decision_witness :
  status_of (authMiddleware None (Some "Bearer secret")) = Some 500
  /\ status_of (authMiddleware (Some "secret") None) = Some 401
  /\ status_of (authMiddleware (Some "secret") (Some "Basic secret")) = Some 401
  /\ status_of (authMiddleware (Some "secret") (Some "Bearer guess")) = Some 401
  /\ authMiddleware (Some "secret") (Some "Bearer secret") = Next.
Proof.
  assert (Hkey : "secret" <> EmptyString) by discriminate.
  split; [| split; [| split; [| split]]].
  - apply (proj1 (auth_decision None (Some "Bearer secret"))). now left.
  - apply (proj1 (proj2 (auth_decision (Some "secret") None) "secret" eq_refl Hkey)).
    now left.
  - apply (proj1 (proj2 (auth_decision (Some "secret") (Some "Basic secret"))
                    "secret" eq_refl Hkey)).
    right. exists "Basic secret". split; reflexivity.
  - apply (proj1 (proj2 (proj2 (auth_decision (Some "secret") (Some "Bearer guess"))
                           "secret" eq_refl Hkey)) "guess"); [reflexivity | discriminate].
  - apply (proj2 (proj2 (auth_decision (Some "secret") (Some "Bearer secret"))
                    "secret" eq_refl Hkey)).
    reflexivity.
Defined.

End AuthFacts.

(** ** Route handlers *)

Module RouteFacts.
Import Observe Samples Routes.

Lemma defined_ret (v : value) : v <> Undefined -> defined (ret v).
Proof. intros Hv w v' H. injection H as <-. exact Hv. Qed.

Lemma defined_throw (e : Error) : defined (throw e).
Proof. intros w v H. discriminate. Qed.

Lemma defined_bind {A : Type} (m : M A) (k : A -> M value) :
  (forall a, defined (k a)) -> defined (bind m k).
Proof.
  intros Hk w v. unfold outcome, bind.
  destruct (m w) as [[a | e] w1]; [apply Hk | discriminate].
Qed.

Lemma defined_try_catch (body : M value) (handler : Error -> M value) :
  defined body -> (forall e, defined (handler e)) -> defined (try_catch body handler).
Proof.
  intros Hb Hh w v. unfold outcome, try_catch.
  specialize (Hb w). unfold outcome in Hb.
  destruct (body w) as [[a | e] w1]; [exact (Hb v) | apply Hh].
Qed.

Ltac defined :=
  repeat first
    [ apply defined_throw
    | apply defined_ret; discriminate
    | apply defined_try_catch; [| intros ?]
    | apply defined_bind; intros ?
    | match goal with
      | |- defined (match ?x with _ => _ end) => destruct x
      end ].

Lemma getSystemOverview_defined : defined SystemMonitor.getSystemOverview.
Proof. unfold SystemMonitor.getSystemOverview. defined. Qed.

Lemma getCpuMetrics_defined : defined SystemMonitor.getCpuMetrics.
Proof. unfold SystemMonitor.getCpuMetrics. defined. Qed.

Lemma getMemoryMetrics_defined : defined SystemMonitor.getMemoryMetrics.
Proof. unfold SystemMonitor.getMemoryMetrics. defined. Qed.

Lemma getDiskMetrics_defined : defined SystemMonitor.getDiskMetrics.
Proof. unfold SystemMonitor.getDiskMetrics. defined. Qed.

Lemma getNetworkMetrics_defined : defined SystemMonitor.getNetworkMetrics.
Proof. unfold SystemMonitor.getNetworkMetrics. defined. Qed.

Lemma listContainers_defined (r : Revision) : defined (listContainers (dockerMonitor r)).
Proof.
  destruct r; simpl;
    unfold DockerMonitor.listContainers, DockerMonitorStrict.listContainers,
      DockerCommon.list_body;
    defined.
Qed.

Lemma getContainerStats_defined (r : Revision) (id : string) :
  defined (getContainerStats (dockerMonitor r) id).
Proof.
  destruct r; simpl;
    unfold DockerMonitor.getContainerStats, DockerMonitorStrict.getContainerStats,
      DockerCommon.stats_body, DockerMonitor.emptyStats, Stats.formatContainerStats;
    defined.
Qed.

Lemma getContainerLogs_defined (r : Revision) (id : string) (options : LogOptions) :
  defined (getContainerLogs (dockerMonitor r) id options).
Proof.
  destruct r; simpl;
    unfold DockerMonitor.getContainerLogs, DockerMonitorStrict.getContainerLogs,
      DockerCommon.logs_body, DockerMonitor.emptyLogs;
    defined.
Qed.

Lemma stringify_defined (v : value) : v <> Undefined -> JSON.stringify v <> Undefined.
Proof.
  destruct v as [| | b | n | s | items | fields]; simpl; try congruence.
  destruct n; simpl; congruence.
Qed.

(** The body [{success: true, data}] on the wire. *)
Lemma wire_success_data (data : value) :
  data <> Undefined ->
  JSON.stringify (Obj [("success", Bool true); ("data", data)]) =
  Obj [("success", Bool true); ("data", JSON.stringify data)].
Proof. destruct data; simpl; congruence. Qed.

(** The body [{success: true, data, timestamp}] on the wire. *)
Lemma wire_success_data_timestamp (data : value) (timestamp : string) :
  data <> Undefined ->
  JSON.stringify
    (Obj [("success", Bool true); ("data", data); ("timestamp", Str timestamp)]) =
  Obj [("success", Bool true); ("data", JSON.stringify data);
       ("timestamp", Str timestamp)].
Proof. destruct data; simpl; congruence. Qed.

Lemma has_data (data : value) (rest : list (string * value)) :
  data <> Undefined ->
  has_key "data" (Obj (("success", Bool true) :: ("data", JSON.stringify data) :: rest))
  = true.
Proof.
  intros Hd. apply stringify_defined in Hd. simpl.
  destruct (JSON.stringify data); congruence.
Qed.

(** The handlers that answer [res.json({ success: true, data })]. *)
Lemma plain_reply (adapter : M value) (w : World) (status : Z) (body : value) :
  defined adapter ->
  outcome
    (try_catch
       (let! data := adapter in
        ret (res_json (Obj [("success", Bool true); ("data", data)])))
       (fun error => ret (NextError error))) w = Ok (Json status body) ->
  exists data,
    data <> Undefined /\ status = 200 /\
    body = Obj [("success", Bool true); ("data", JSON.stringify data)].
Proof.
  intros Hdef. specialize (Hdef w). unfold outcome, try_catch, bind, ret, res_json in *.
  destruct (adapter w) as [[data | e] w1]; simpl; intros H; [| discriminate].
  injection H as <- <-. exists data.
  assert (Hd : data <> Undefined) by now apply Hdef.
  split; [exact Hd | split; [reflexivity |]]. now apply wire_success_data.
Qed.

(** A read of the cache leaves the world as it is. *)
Lemma cache_get_pure (k : string) (w : World) :
  exists v, CacheService.get k w = (Ok v, w).
Proof.
  unfold CacheService.get, bind, NodeCache.get.
  destruct (store w !! k) as [entry |]; [destruct (clock w <=? expiry entry) |];
    eexists; reflexivity.
Qed.

(** The payload of [/overview]: the cached value when there is a truthy
    one, a fresh overview otherwise. *)
Lemma overview_data (cached data : value) (w w' : World) :
  (if negb (truthy_value cached)
   then
     let! fresh := SystemMonitor.getSystemOverview in
     let! _ := CacheService.set "system:overview" fresh (Some 30%N) in
     ret fresh
   else ret cached) w = (Ok data, w') ->
  data <> Undefined /\ clock w' = clock w.
Proof.
  destruct (truthy_value cached) eqn:Htruthy; simpl.
  - intros H. injection H as <- <-.
    split; [| reflexivity]. intros Hu. rewrite Hu in Htruthy. discriminate.
  - pose proof (Frame.getSystemOverview_quiet clock Frame.quiet_clock w) as Hclock.
    pose proof (getSystemOverview_defined w) as Hdef.
    unfold after, outcome, bind in *.
    destruct (SystemMonitor.getSystemOverview w) as [[fresh | e] w1]; simpl in *;
      intros H; [| discriminate].
    injection H as <- <-. split; [now apply Hdef | exact Hclock].
Qed.

Lemma overview_reply (w : World) (status : Z) (body : value) :
  outcome overview w = Ok (Json status body) ->
  exists data,
    data <> Undefined /\ status = 200 /\
    body = Obj [("success", Bool true); ("data", JSON.stringify data);
                ("timestamp", Str (Date.iso (clock w)))].
Proof.
  unfold outcome, overview, try_catch. unfold bind at 1.
  destruct (cache_get_pure "system:overview" w) as [cached ->].
  unfold bind at 1.
  match goal with
  | |- context [?payload w] =>
      destruct (payload w) as [[data | e] w1] eqn:Hdata; [| discriminate]
  end.
  apply overview_data in Hdata as [Hdefined Hclock].
  unfold now_iso, bind, gets, ret, res_json; simpl. rewrite Hclock.
  intros H. injection H as <- <-. exists data.
  split; [exact Hdefined | split; [reflexivity |]].
  now apply wire_success_data_timestamp.
Qed.

(** C5, as stated, fails: the successful answer of
    [GET /api/docker/containers] carries no [timestamp]. *)
Lemma containers_reply_has_no_timestamp :
  outcome (handle Guarded GetContainers) (world healthy false []) =
    Ok (Json 200 (Obj [("success", Bool true); ("data", Arr [])]))
  /\ has_key "timestamp" (Obj [("success", Bool true); ("data", Arr [])]) = false.
Proof. split; reflexivity. Qed.

Ltac plain H adapter_defined :=
  apply plain_reply in H; [| exact adapter_defined];
  destruct H as [data [Hdata [-> ->]]];
  split; [reflexivity |];
  split; [reflexivity |];
  split; [now apply has_data |];
  split; [intros Hts; simpl in Hts; discriminate | discriminate].

(** C5 (amended). Every successful answer of the system and docker
    routes has status 200 and a body with [success: true] and [data]; the
    body carries a [timestamp] for [/overview] and for no other route. *)
Theorem success_envelope (r : Revision) (route : Route) (w : World)
    (status : Z) (body : value) :
  outcome (handle r route) w = Ok (Json status body) ->
  status = 200
  /\ prop "success" body = Bool true
  /\ has_key "data" body = true
  /\ (has_key "timestamp" body = true <-> route = GetOverview).
Proof.
  intros H. destruct route as [| | | | | | id | id query]; simpl in H.
  - apply overview_reply in H. destruct H as [data [Hdata [-> ->]]].
    split; [reflexivity |].
    split; [reflexivity |].
    split; [now apply has_data |].
    split; reflexivity.
  - unfold cpu in H. plain H getCpuMetrics_defined.
  - unfold memory in H. plain H getMemoryMetrics_defined.
  - unfold disk in H. plain H getDiskMetrics_defined.
  - unfold network in H. plain H getNetworkMetrics_defined.
  - unfold containers in H. plain H (listContainers_defined r).
  - unfold container_stats in H. plain H (getContainerStats_defined r id).
  - unfold container_logs in H. cbv zeta in H.
    plain H (getContainerLogs_defined r id
               {| lines := Some match q_lines query with
                                | Some text => parseInt text
                                | None => hundred
                                end;
                  since := q_since query; until := q_until query |}).
Qed.

Lemma success_envelope_witness :
  (has_key "timestamp"
     (Obj [("success", Bool true); ("data", Arr [])]) = true <-> GetContainers = GetOverview)
  /\ prop "success" (Obj [("success", Bool true); ("data", Arr [])]) = Bool true.
Proof.
  destruct (success_envelope Guarded GetContainers (world healthy false []) 200
              (Obj [("success", Bool true); ("data", Arr [])]) eq_refl)
    as [_ [Hsuccess [_ Hts]]].
  split; [exact Hts | exact Hsuccess].
Defined.

Example overview_reply_has_timestamp :
  match outcome (handle Guarded GetOverview) (world healthy true []) with
  | Ok (Json status body) => status = 200 /\ has_key "timestamp" body = true
  | _ => False
  end.
Proof. split; reflexivity. Qed.

End RouteFacts.

(** ** Traces of the adapters *)

Module TraceFacts.
Import Observe Views Frame.

Lemma polls_app (t1 t2 : list Event) : polls (t1 ++ t2) = polls t1 ++ polls t2.
Proof.
  induction t1 as [| e t1 IH]; simpl; [reflexivity |].
  destruct e; simpl; now rewrite ?IH.
Qed.

Lemma with_trace_nil (w : World) : with_trace (trace w ++ []) w = w.
Proof. destruct w; unfold with_trace; simpl. now rewrite app_nil_r. Qed.

Lemma docker_run {A : Type} (c : DockerCall) (answer : Sources -> Result A) (w : World) :
  docker c answer w = (answer (sources w), with_trace (trace w ++ [DockerCalled c]) w).
Proof.
  unfold docker, bind, emit, gets, await; simpl.
  now destruct (answer (sources w)).
Qed.

Lemma constant_ret {A : Type} (a : A) : constant (ret a).
Proof. exists (Ok a). reflexivity. Qed.

Lemma constant_throw {A : Type} (e : Error) : constant (@throw A e).
Proof. exists (Throw e). reflexivity. Qed.

Lemma constant_bind {A B : Type} (m : M A) (k : A -> M B) :
  constant m -> (forall a, constant (k a)) -> constant (bind m k).
Proof.
  intros [r Hm] Hk. destruct r as [a | e].
  - destruct (Hk a) as [r' Hka]. exists r'. intros w. unfold bind.
    now rewrite Hm, Hka.
  - exists (Throw e). intros w. unfold bind. now rewrite Hm.
Qed.

Lemma constant_mapM {A B : Type} (f : A -> M B) (l : list A) :
  (forall x, constant (f x)) -> constant (mapM f l).
Proof.
  intros Hf. induction l as [| x l IH]; simpl.
  - apply constant_ret.
  - apply constant_bind; [apply Hf | intros y].
    apply constant_bind; [exact IH | intros ys]. apply constant_ret.
Qed.

Lemma constant_toISOString (x : num) : constant (toISOString x).
Proof.
  unfold toISOString. destruct (Date.time_value x);
    [apply constant_ret | apply constant_throw].
Qed.

Lemma constant_describe (c : RawContainer) : constant (DockerCommon.describe c).
Proof.
  unfold DockerCommon.describe.
  apply constant_bind; [destruct (Names c); [apply constant_throw | apply constant_ret] |].
  intros name. apply constant_bind; [apply constant_toISOString |].
  intros created. apply constant_bind; [| intros started; apply constant_ret].
  destruct (String.eqb (State c) "running"); [| apply constant_ret].
  apply constant_bind; [apply constant_toISOString | intros s; apply constant_ret].
Qed.

Lemma constant_after {A : Type} (m : M A) (w : World) : constant m -> after m w = w.
Proof. intros [r Hm]. unfold after. now rewrite Hm. Qed.

Lemma constant_outcome {A : Type} (m : M A) (w w' : World) :
  constant m -> outcome m w = outcome m w'.
Proof. intros [r Hm]. unfold outcome. now rewrite !Hm. Qed.

(** The rendering of the listing, once dockerode has answered. *)
Lemma constant_rendering (containers : list RawContainer) :
  constant (let! described := mapM DockerCommon.describe containers in
            ret (Arr described)).
Proof.
  apply constant_bind; [| intros described; apply constant_ret].
  apply constant_mapM. apply constant_describe.
Qed.

Lemma list_body_after (w : World) :
  after DockerCommon.list_body w =
  with_trace (trace w ++ [DockerCalled docker_listContainers]) w.
Proof.
  unfold after, DockerCommon.list_body. unfold bind at 1. rewrite docker_run.
  destruct (listContainers_ (sources w)) as [containers | e]; [| reflexivity].
  apply (constant_after _ _ (constant_rendering containers)).
Qed.

Lemma list_body_outcome (w w' : World) :
  listContainers_ (sources w) = listContainers_ (sources w') ->
  outcome DockerCommon.list_body w = outcome DockerCommon.list_body w'.
Proof.
  intros Hs. unfold outcome, DockerCommon.list_body. unfold bind at 1 3.
  rewrite !docker_run, Hs.
  destruct (listContainers_ (sources w')) as [containers | e]; [| reflexivity].
  apply (constant_outcome _ _ _ (constant_rendering containers)).
Qed.

Lemma stats_body_after (id : string) (w : World) :
  after (DockerCommon.stats_body id) w =
  with_trace (trace w ++ [DockerCalled (docker_stats id)]) w.
Proof.
  unfold after, DockerCommon.stats_body, bind. rewrite docker_run.
  now destruct (stats_ (sources w) id).
Qed.

Lemma log_line_entry (line : string) (w : World) :
  non_blank line = true ->
  DockerCommon.log_line line w = (Ok (log_entry line), w).
Proof.
  intros Hline. unfold DockerCommon.log_line, bind.
  assert (Hstamp : Str.nonempty (substring 0 30 line) = true).
  { destruct line as [| c rest]; [discriminate | reflexivity]. }
  now rewrite Hstamp.
Qed.

Lemma log_lines_entries (lines : list string) (w : World) :
  forallb non_blank lines = true ->
  mapM DockerCommon.log_line lines w = (Ok (map log_entry lines), w).
Proof.
  induction lines as [| line lines IH]; simpl; [reflexivity |].
  intros H. apply andb_true_iff in H as [Hline Hlines].
  unfold bind. rewrite (log_line_entry _ _ Hline), (IH Hlines). reflexivity.
Qed.

Lemma filter_all {A : Type} (p : A -> bool) (l : list A) :
  forallb p (List.filter p l) = true.
Proof.
  induction l as [| x l IH]; simpl; [reflexivity |].
  destruct (p x) eqn:Hx; simpl; [now rewrite Hx |]; exact IH.
Qed.

Lemma logs_body_run (id : string) (options : LogOptions) (w : World) (text : string) :
  logs_ (sources w) id = Ok text ->
  DockerCommon.logs_body id options w =
  (Ok (Obj [("logs", Arr (map log_entry (List.filter non_blank (Str.split_lines text))));
            ("totalLines",
             Num (length_of (List.filter non_blank (Str.split_lines text))))]),
   with_trace (trace w ++ [DockerCalled (docker_logs id (or_num (lines options) hundred))]) w).
Proof.
  intros Htext. unfold DockerCommon.logs_body. unfold bind at 1.
  rewrite docker_run, Htext. unfold bind.
  fold non_blank.
  change (fun line : string => Str.nonempty (Str.trim line)) with non_blank.
  rewrite log_lines_entries by apply filter_all.
  unfold ret, length_of. now rewrite length_map.
Qed.

Lemma logs_body_after (id : string) (options : LogOptions) (w : World) :
  after (DockerCommon.logs_body id options) w =
  with_trace (trace w ++ [DockerCalled (docker_logs id (or_num (lines options) hundred))]) w.
Proof.
  destruct (logs_ (sources w) id) as [text | e] eqn:Htext.
  - unfold after. now rewrite (logs_body_run _ _ _ _ Htext).
  - unfold after, DockerCommon.logs_body. unfold bind at 1.
    rewrite docker_run, Htext. reflexivity.
Qed.

(** A [try] block that makes one call, followed by a handler that logs
    and returns. *)
Lemma guarded_polls {A : Type} (body : M A) (text : string) (fallback : A)
    (call : Event) (w : World) :
  after body w = with_trace (trace w ++ [call]) w ->
  polls (trace (after (try_catch body
                         (fun error => let! _ := logger Err text in ret fallback)) w))
  = polls (trace w) ++ polls [call].
Proof.
  unfold after, try_catch. destruct (body w) as [[a | e] w1]; simpl; intros ->; simpl.
  - apply polls_app.
  - rewrite !polls_app. simpl. now rewrite app_nil_r.
Qed.

Lemma rethrowing_polls {A : Type} (body : M A) (text : string) (call : Event) (w : World) :
  after body w = with_trace (trace w ++ [call]) w ->
  polls (trace (after (try_catch body
                         (fun error => let! _ := logger Err text in throw error)) w))
  = polls (trace w) ++ polls [call].
Proof.
  unfold after, try_catch. destruct (body w) as [[a | e] w1]; simpl; intros ->; simpl.
  - apply polls_app.
  - rewrite !polls_app. simpl. now rewrite app_nil_r.
Qed.

Lemma listing_polls (r : Revision) (w : World) :
  polls (trace (after (listContainers (dockerMonitor r)) w)) =
  polls (trace w) ++
  (if listing_called r w then [DockerCalled docker_listContainers] else []).
Proof.
  destruct r; simpl.
  - unfold DockerMonitor.listContainers. unfold after at 1, bind at 1, gets at 1.
    destruct (dockerAvailable w); simpl.
    + apply (guarded_polls _ _ _ _ _ (list_body_after w)).
    + rewrite polls_app. reflexivity.
  - apply (rethrowing_polls _ _ _ _ (list_body_after w)).
Qed.

Lemma stats_polls (id : string) (w : World) :
  polls (trace (after (DockerMonitor.getContainerStats id) w)) =
  polls (trace w) ++
  (if dockerAvailable w then [DockerCalled (docker_stats id)] else []).
Proof.
  unfold DockerMonitor.getContainerStats. unfold after at 1, bind at 1, gets at 1.
  destruct (dockerAvailable w); simpl.
  - apply (guarded_polls _ _ _ _ _ (stats_body_after id w)).
  - rewrite polls_app. reflexivity.
Qed.

Lemma logs_polls (id : string) (options : LogOptions) (w : World) :
  polls (trace (after (DockerMonitor.getContainerLogs id options) w)) =
  polls (trace w) ++
  (if dockerAvailable w
   then [DockerCalled (docker_logs id (or_num (lines options) hundred))]
   else []).
Proof.
  unfold DockerMonitor.getContainerLogs. unfold after at 1, bind at 1, gets at 1.
  destruct (dockerAvailable w); simpl.
  - apply (guarded_polls _ _ _ _ _ (logs_body_after id options w)).
  - rewrite polls_app. reflexivity.
Qed.

(** The outcome of a [try] block with a handler that either returns or
    rethrows depends on the outcome of the block alone. *)
Lemma listing_outcome (r : Revision) (w w' : World) :
  sources w' = sources w -> dockerAvailable w' = dockerAvailable w ->
  outcome (listContainers (dockerMonitor r)) w' =
  outcome (listContainers (dockerMonitor r)) w.
Proof.
  intros Hs Ha.
  assert (Hbody : outcome DockerCommon.list_body w' = outcome DockerCommon.list_body w).
  { apply list_body_outcome. now rewrite Hs. }
  unfold outcome in *. destruct r; simpl.
  - unfold DockerMonitor.listContainers, bind, gets. rewrite Ha.
    destruct (dockerAvailable w); simpl; [| reflexivity].
    unfold try_catch.
    destruct (DockerCommon.list_body w') as [[a' | e'] w1'];
      destruct (DockerCommon.list_body w) as [[a | e] w1]; simpl in *;
      congruence.
  - unfold DockerMonitorStrict.listContainers, try_catch.
    destruct (DockerCommon.list_body w') as [[a' | e'] w1'];
      destruct (DockerCommon.list_body w) as [[a | e] w1]; simpl in *;
      congruence.
Qed.

End TraceFacts.

(** ** The Docker monitor *)

Module DockerFacts.
Import Observe Views Samples MoreSamples TraceFacts.

(** X1. Each operation of the guarded monitor makes exactly one call into
    dockerode when the runtime is marked available and none when it is
    not, whatever the call answers. *)
Theorem guarded_monitor_calls (w : World) (id : string) (options : LogOptions) :
  polls (trace (after DockerMonitor.listContainers w)) =
    polls (trace w) ++
    (if dockerAvailable w then [DockerCalled docker_listContainers] else [])
  /\ polls (trace (after (DockerMonitor.getContainerStats id) w)) =
       polls (trace w) ++
       (if dockerAvailable w then [DockerCalled (docker_stats id)] else [])
  /\ polls (trace (after (DockerMonitor.getContainerLogs id options) w)) =
       polls (trace w) ++
       (if dockerAvailable w
        then [DockerCalled (docker_logs id (or_num (lines options) hundred))]
        else []).
Proof.
  split; [apply (listing_polls Guarded) | split; [apply stats_polls | apply logs_polls]].
Qed.

Lemma describe_renders (c : RawContainer) :
  describable c = true ->
  exists v, (forall w, DockerCommon.describe c w = (Ok v, w)) /\ renders c v.
Proof.
  unfold describable, DockerCommon.describe, toISOString. intros H.
  apply andb_true_iff in H as [H Hstarted]. apply andb_true_iff in H as [Hname Hcreated].
  destruct (Names c) as [| first names]; [discriminate |].
  destruct (Date.time_value (mul (Created c) thousand)) as [t |]; [| discriminate].
  destruct (String.eqb (State c) "running") eqn:Hrun; simpl in Hstarted.
  - destruct (Date.time_value (to_number (StartedAt c))) as [t' |]; [| discriminate].
    eexists. split; [intros w; reflexivity |].
    repeat split.
  - eexists. split; [intros w; reflexivity |].
    repeat split.
Qed.

Lemma mapM_renders (containers : list RawContainer) :
  forallb describable containers = true ->
  exists l, (forall w, mapM DockerCommon.describe containers w = (Ok l, w))
            /\ Forall2 renders containers l.
Proof.
  induction containers as [| c containers IH]; simpl.
  - intros _. exists []. split; [reflexivity | constructor].
  - intros H. apply andb_true_iff in H as [Hc Hrest].
    destruct (describe_renders c Hc) as [v [Hv Hr]].
    destruct (IH Hrest) as [l [Hl Hrs]].
    exists (v :: l). split; [| now constructor].
    intros w. unfold bind. now rewrite Hv, Hl.
Qed.

(** X2. When every listed entry can be rendered, the listing has one
    object per container, in the order of the runtime, each with the
    twelve-character id, the container's [State] as ["status"] and its
    [Status] as ["state"]. *)
Theorem listing_renders_each (r : Revision) (w : World) (containers : list RawContainer) :
  listContainers_ (sources w) = Ok containers ->
  forallb describable containers = true ->
  listing_called r w = true ->
  exists l, outcome (listContainers (dockerMonitor r)) w = Ok (Arr l)
            /\ Forall2 renders containers l.
Proof.
  intros Hs Hall Hcalled.
  destruct (mapM_renders containers Hall) as [l [Hl Hrs]].
  exists l. split; [| exact Hrs].
  assert (Hbody : DockerCommon.list_body w =
                  (Ok (Arr l),
                   with_trace (trace w ++ [DockerCalled docker_listContainers]) w)).
  { unfold DockerCommon.list_body. unfold bind at 1. rewrite docker_run, Hs.
    unfold bind. now rewrite Hl. }
  destruct r; simpl in *.
  - unfold outcome, DockerMonitor.listContainers, bind, gets. rewrite Hcalled; simpl.
    unfold try_catch. now rewrite Hbody.
  - unfold outcome, DockerMonitorStrict.listContainers, try_catch. now rewrite Hbody.
Qed.

Lemma listing_renders_each_witness :
  exists l, outcome DockerMonitor.listContainers (world healthy true []) = Ok (Arr l)
            /\ length l = 1%nat.
Proof.
  destruct (listing_renders_each Guarded (world healthy true []) _ eq_refl eq_refl eq_refl)
    as [l [Hl Hrs]].
  exists l. split; [exact Hl |].
  apply Forall2_length in Hrs. now rewrite <- Hrs.
Defined.

Lemma describe_running_throws (c : RawContainer) :
  State c = "running" -> StartedAt c = None ->
  exists e, forall w, DockerCommon.describe c w = (Throw e, w).
Proof.
  intros Hstate Hstarted. unfold DockerCommon.describe, toISOString.
  rewrite Hstate, Hstarted. simpl.
  destruct (Names c) as [| first names]; [eexists; reflexivity |].
  destruct (Date.time_value (mul (Created c) thousand)) as [t |];
    eexists; reflexivity.
Qed.

Lemma mapM_throws {A B : Type} (f : A -> M B) (l : list A) (x : A) :
  (forall y, constant (f y)) ->
  In x l ->
  (exists e, forall w, f x w = (Throw e, w)) ->
  exists e, forall w, mapM f l w = (Throw e, w).
Proof.
  intros Hf Hin Hx. induction l as [| y l IH]; [destruct Hin |].
  simpl. destruct (Hf y) as [[b | e] Hy].
  - destruct Hin as [-> | Hin].
    + destruct Hx as [e Hx]. specialize (Hx (world healthy true [])).
      rewrite Hy in Hx. discriminate.
    + destruct (IH Hin) as [e He]. exists e. intros w. unfold bind.
      now rewrite Hy, He.
  - exists e. intros w. unfold bind. now rewrite Hy.
Qed.

(** X3. A listed container in state ["running"] that carries no
    [StartedAt] makes the rendering throw: the guarded monitor then
    answers with the empty list and the unguarded one rethrows. *)
Theorem running_container_hides_listing
    (w : World) (containers : list RawContainer) (c : RawContainer) :
  listContainers_ (sources w) = Ok containers ->
  In c containers -> State c = "running" -> StartedAt c = None ->
  outcome DockerMonitor.listContainers w = Ok (Arr [])
  /\ exists e, outcome DockerMonitorStrict.listContainers w = Throw e.
Proof.
  intros Hs Hin Hstate Hstarted.
  destruct (mapM_throws DockerCommon.describe containers c constant_describe Hin
              (describe_running_throws c Hstate Hstarted)) as [e He].
  assert (Hbody : DockerCommon.list_body w =
                  (Throw e,
                   with_trace (trace w ++ [DockerCalled docker_listContainers]) w)).
  { unfold DockerCommon.list_body. unfold bind at 1. rewrite docker_run, Hs.
    unfold bind. now rewrite He. }
  split.
  - unfold outcome, DockerMonitor.listContainers, bind, gets.
    destruct (dockerAvailable w); simpl; [| reflexivity].
    unfold try_catch. now rewrite Hbody.
  - exists e. unfold outcome, DockerMonitorStrict.listContainers, try_catch.
    now rewrite Hbody.
Qed.

Lemma running_container_hides_listing_witness :
  outcome DockerMonitor.listContainers (world one_running true []) = Ok (Arr [])
  /\ exists e, outcome DockerMonitorStrict.listContainers (world one_running true [])
               = Throw e.
Proof.
  apply (running_container_hides_listing (world one_running true []) [running_web]
           running_web eq_refl (or_introl eq_refl) eq_refl eq_refl).
Defined.

(** X4. When dockerode hands over the log text, the monitor reports one
    entry per line that is not blank, made of the first thirty characters
    and the trimmed rest of the line, and [totalLines] is the number of
    those entries; the clock is never consulted. *)
Theorem logs_entries (r : Revision) (id : string) (options : LogOptions)
    (w : World) (text : string) :
  logs_ (sources w) id = Ok text ->
  listing_called r w = true ->
  outcome (getContainerLogs (dockerMonitor r) id options) w =
  Ok (Obj [("logs", Arr (map log_entry (List.filter non_blank (Str.split_lines text))));
           ("totalLines",
            Num (length_of (List.filter non_blank (Str.split_lines text))))]).
Proof.
  intros Htext Hcalled. destruct r; simpl in *.
  - unfold outcome, DockerMonitor.getContainerLogs, bind, gets. rewrite Hcalled; simpl.
    unfold try_catch. now rewrite (logs_body_run _ _ _ _ Htext).
  - unfold outcome, DockerMonitorStrict.getContainerLogs, try_catch.
    now rewrite (logs_body_run _ _ _ _ Htext).
Qed.

Lemma logs_entries_witness :
  prop "totalLines"
    match outcome (DockerMonitor.getContainerLogs "web"
                     {| lines := None; since := Undefined; until := Undefined |})
                  (world healthy true []) with
    | Ok v => v
    | Throw _ => Undefined
    end = Num (num_of_Z 1).
Proof.
  rewrite (logs_entries Guarded "web" _ (world healthy true []) _ eq_refl eq_refl).
  reflexivity.
Defined.

(** X5. A sample without memory counters, networks and block I/O list
    gets the memory, network and io sections of the all-zero stats object;
    without the system CPU counter its CPU usage is 0 and its [system]
    figure is [NaN]. *)
Theorem absent_counters (stats : RawStats) :
  mem_usage (memory_stats stats) = None ->
  mem_limit (memory_stats stats) = None ->
  networks stats = None ->
  io_service_bytes_recursive (blkio_stats stats) = None ->
  system_cpu_usage (cpu_stats stats) = None ->
  let formatted := Stats.formatContainerStats stats in
  prop "memory" formatted = prop "memory" DockerMonitor.emptyStats
  /\ prop "network" formatted = prop "network" DockerMonitor.emptyStats
  /\ prop "io" formatted = prop "io" DockerMonitor.emptyStats
  /\ prop "cpu" formatted = Obj [("usage", Num zero); ("system", Num NaN)].
Proof.
  intros Hu Hl Hn Hio Hsys formatted. subst formatted.
  unfold Stats.formatContainerStats, Stats.blkio_bytes, Stats.cpuUsage,
    Stats.systemDelta, Stats.calculateNetworkStats. simpl.
  rewrite Hu, Hl, Hn, Hio, Hsys. repeat split.
Qed.

Lemma absent_counters_witness :
  prop "cpu" (Stats.formatContainerStats stopped_sample)
  = Obj [("usage", Num zero); ("system", Num NaN)].
Proof.
  apply (absent_counters stopped_sample eq_refl eq_refl eq_refl eq_refl eq_refl).
Defined.

Lemma or_num_clean (o : optnum) : clean (Num (or_num o zero)).
Proof.
  unfold clean, or_num. eexists. split; [reflexivity |].
  destruct o as [x |]; [| now right].
  destruct (truthy x) eqn:Hx; [now left | now right].
Qed.

(** X6. Whatever the sample, the memory usage and limit and the io read
    and write figures of the formatted stats are numbers other than [NaN]
    and [-0]. *)
Theorem stats_counters_clean (stats : RawStats) :
  let formatted := Stats.formatContainerStats stats in
  clean (prop "usage" (prop "memory" formatted))
  /\ clean (prop "limit" (prop "memory" formatted))
  /\ clean (prop "read" (prop "io" formatted))
  /\ clean (prop "write" (prop "io" formatted)).
Proof.
  assert (Hio : forall o b, clean (Num (Stats.blkio_bytes o b))).
  { intros o b. unfold Stats.blkio_bytes.
    destruct (io_service_bytes_recursive b) as [items |];
      [| exists zero; split; [reflexivity | now right]].
    destruct (JS.find _ items) as [item |];
      [apply or_num_clean | exists zero; split; [reflexivity | now right]]. }
  simpl. repeat split; try apply or_num_clean; apply Hio.
Qed.

End DockerFacts.

(** ** The system monitor *)

Module SystemFacts.
Import Observe Views Samples MoreSamples TraceFacts AdapterFacts.

Lemma overview_trace (w : World) :
  trace (after SystemMonitor.getSystemOverview w) =
  trace w ++ five_probes ++
  match outcome SystemMonitor.getSystemOverview w with
  | Ok _ => []
  | Throw _ => [Log Err "Failed to get system overview:"]
  end
  /\ clients (after SystemMonitor.getSystemOverview w) = clients w
  /\ store (after SystemMonitor.getSystemOverview w) = store w.
Proof.
  unfold after, outcome, SystemMonitor.getSystemOverview, try_catch, bind.
  repeat (rewrite promise_all_run, si_run; simpl).
  rewrite si_run; simpl.
  destruct (currentLoad_ (sources w)) as [cpu | e1];
    destruct (mem_ (sources w)) as [mem | e2];
    destruct (fsSize_ (sources w)) as [disk | e3];
    destruct (osInfo_ (sources w)) as [load | e4];
    destruct (cpuTemperature_ (sources w)) as [temp | e5];
    simpl; rewrite <- ?app_assoc; simpl; repeat split.
Qed.

(** X7. The system overview calls its five probes, each once and in the
    same order, whatever they answer; it calls nothing else, leaves the
    registry and the cache alone, logs one error exactly when it fails, and
    it fails exactly when one of the probes rejects. *)
Theorem overview_polls_five (w : World) :
  trace (after SystemMonitor.getSystemOverview w) =
  trace w ++ five_probes ++
  match outcome SystemMonitor.getSystemOverview w with
  | Ok _ => []
  | Throw _ => [Log Err "Failed to get system overview:"]
  end
  /\ clients (after SystemMonitor.getSystemOverview w) = clients w
  /\ store (after SystemMonitor.getSystemOverview w) = store w
  /\ (system_source_fails (sources w) <->
      exists e, outcome SystemMonitor.getSystemOverview w = Throw e).
Proof.
  destruct (overview_trace w) as [Htrace [Hclients Hstore]].
  split; [exact Htrace | split; [exact Hclients | split; [exact Hstore |]]].
  split; [apply overview_rethrows |].
  intros [e He]. unfold system_source_fails.
  revert He. unfold outcome, SystemMonitor.getSystemOverview, try_catch, bind.
  repeat (rewrite promise_all_run, si_run; simpl).
  rewrite si_run; simpl.
  destruct (currentLoad_ (sources w)) as [cpu | e1]; [| eauto].
  destruct (mem_ (sources w)) as [mem | e2]; [| eauto].
  destruct (fsSize_ (sources w)) as [disk | e3]; [| eauto].
  destruct (osInfo_ (sources w)) as [load | e4]; [| eauto 6].
  destruct (cpuTemperature_ (sources w)) as [temp | e5]; [| eauto 7].
  simpl. discriminate.
Qed.

(** X8. The network metrics await their two probes one after the other:
    when the statistics probe rejects, the connections probe is not called
    and the error is the one thrown.  The disk and CPU metrics start all
    their probes at once and so call every one of them whatever the
    answers. *)
Theorem metrics_probe_order (w : World) :
  (forall e, networkStats_ (sources w) = Throw e ->
     outcome SystemMonitor.getNetworkMetrics w = Throw e
     /\ trace (after SystemMonitor.getNetworkMetrics w) =
        trace w ++ [SiCalled si_networkStats])
  /\ trace (after SystemMonitor.getDiskMetrics w) =
     trace w ++ [SiCalled si_fsSize; SiCalled si_disksIO]
  /\ trace (after SystemMonitor.getCpuMetrics w) =
     trace w ++ [SiCalled si_currentLoad; SiCalled si_cpuTemperature;
                 SiCalled si_cpuCurrentSpeed].
Proof.
  split; [| split].
  - intros e He.
    unfold outcome, after, SystemMonitor.getNetworkMetrics. unfold bind at 1 3.
    rewrite si_run, He. split; reflexivity.
  - unfold after, SystemMonitor.getDiskMetrics, bind.
    rewrite promise_all_run, !si_run; simpl.
    destruct (fsSize_ (sources w)); destruct (disksIO_ (sources w));
      simpl; rewrite <- ?app_assoc; reflexivity.
  - unfold after, SystemMonitor.getCpuMetrics, bind.
    repeat (rewrite promise_all_run, si_run; simpl). rewrite si_run; simpl.
    destruct (currentLoad_ (sources w)); destruct (cpuTemperature_ (sources w));
      destruct (cpuCurrentSpeed_ (sources w));
      simpl; rewrite <- ?app_assoc; reflexivity.
Qed.

Lemma metrics_probe_order_witness :
  outcome SystemMonitor.getNetworkMetrics (world net_down true []) = Throw boom
  /\ trace (after SystemMonitor.getNetworkMetrics (world net_down true [])) =
     [SiCalled si_networkStats].
Proof.
  apply (proj1 (metrics_probe_order (world net_down true [])) boom eq_refl).
Defined.

Lemma eq_zero_is_zero (x : num) : SFeqb x zero = true -> exists s, x = S754_zero s.
Proof. destruct x as [s | s | | s m e]; try destruct s; cbv; try congruence; eauto. Qed.

(** X9. Whatever the list of filesystems, the four figures of the disk
    section of the overview are numbers other than [NaN] and [-0]; the
    per-filesystem usage of the disk metrics, which has no fallback, is
    [NaN] for a filesystem of size zero with nothing used. *)
Theorem disk_figures_clean (disks : list FsEntry) :
  (clean (prop "total" (Disk.aggregateDiskStats disks))
   /\ clean (prop "used" (Disk.aggregateDiskStats disks))
   /\ clean (prop "free" (Disk.aggregateDiskStats disks))
   /\ clean (prop "usage" (Disk.aggregateDiskStats disks)))
  /\ (forall d, SFeqb (size d) zero = true -> SFeqb (used d) zero = true ->
        prop "usage" (SystemMonitor.filesystem d) = Num NaN).
Proof.
  split.
  - simpl. repeat split; try apply DockerFacts.or_num_clean.
    apply (DockerFacts.or_num_clean (Some (Disk.usage_ratio (Disk.root_of disks)))).
  - intros d Hsize Hused.
    destruct (eq_zero_is_zero _ Hsize) as [s1 H1].
    destruct (eq_zero_is_zero _ Hused) as [s2 H2].
    unfold SystemMonitor.filesystem. simpl. rewrite H1, H2.
    destruct s1, s2; reflexivity.
Qed.

Lemma disk_figures_clean_witness :
  prop "usage" (SystemMonitor.filesystem empty_fs) = Num NaN
  /\ prop "usage" (Disk.aggregateDiskStats [empty_fs]) = Num zero.
Proof.
  split; [| reflexivity].
  apply (proj2 (disk_figures_clean [empty_fs]) empty_fs); reflexivity.
Defined.

End SystemFacts.

(** ** The broadcast timer and the registry, continued *)

Module TickFacts.
Import Observe Views Samples MoreSamples Frame RegistryFacts AdapterFacts
  BroadcastFacts TraceFacts WebSocketService.

Lemma polls_of_sent (message : value) (cs : list nat) :
  polls (map (fun c => Sent c message) cs) = [].
Proof. induction cs as [| c cs IH]; simpl; [reflexivity | exact IH]. Qed.

(** One tick on a non-empty registry, in terms of its two polls. *)
Lemma tick_run (r : Revision) (w : World) :
  clients w <> [] ->
  tick r w =
  let w1 := after SystemMonitor.getSystemOverview w in
  let w2 := after (listContainers (dockerMonitor r)) w1 in
  match outcome SystemMonitor.getSystemOverview w,
        outcome (listContainers (dockerMonitor r)) w1 with
  | Ok systemData, Ok dockerData =>
      broadcast (envelope (Date.iso (clock w2)) systemData dockerData) w2
  | _, _ => logger Err "Failed to broadcast metrics:" w2
  end.
Proof.
  intros Hne. destruct (clients w) as [| c cs] eqn:Hcs; [contradiction |].
  unfold tick, bind at 1, gets at 1. rewrite Hcs.
  unfold try_catch, poll_and_broadcast. unfold bind at 1.
  rewrite promise_all_run. unfold outcome, after.
  destruct (SystemMonitor.getSystemOverview w) as [rs w1]; simpl.
  destruct (listContainers (dockerMonitor r) w1) as [rd w2]; simpl.
  destruct rs as [systemData | e]; destruct rd as [dockerData | e']; try reflexivity.
  unfold bind, now_iso, gets. now rewrite broadcast_run.
Qed.

(** The two polls of a tick leave the registry, the sockets, the clock and
    the messages sent as they were. *)
Lemma polls_same_process (r : Revision) (w : World) :
  same_process w
    (after (listContainers (dockerMonitor r)) (after SystemMonitor.getSystemOverview w)).
Proof.
  pose proof (same_process_after SystemMonitor.getSystemOverview w
                (fun B f => getSystemOverview_quiet f)) as H1.
  pose proof (same_process_after (listContainers (dockerMonitor r))
                (after SystemMonitor.getSystemOverview w)
                (fun B f Hf => listContainers_quiet f r Hf)) as H2.
  unfold same_process in *.
  destruct H1 as [A1 [B1 [C1 [D1 [E1 F1]]]]]. destruct H2 as [A2 [B2 [C2 [D2 [E2 F2]]]]].
  repeat split; congruence.
Qed.

Lemma listing_after_overview (r : Revision) (w : World) :
  outcome (listContainers (dockerMonitor r)) (after SystemMonitor.getSystemOverview w) =
  outcome (listContainers (dockerMonitor r)) w.
Proof.
  destruct (same_process_after SystemMonitor.getSystemOverview w
              (fun B f => getSystemOverview_quiet f)) as [_ [_ [_ [Hs [Ha _]]]]].
  now apply listing_outcome.
Qed.

(** X10. On a tick with at least one subscriber, the message goes out
    exactly when both the system overview and the container listing
    succeed: then every open subscriber is sent the envelope of the two
    results, stamped with the time of the tick, and the registry keeps the
    open subscribers only.  When either of them fails nothing is sent, the
    registry is left as it was and the failure is logged. *)
Theorem tick_delivery (r : Revision) (w : World) :
  clients w <> [] ->
  match outcome SystemMonitor.getSystemOverview w,
        outcome (listContainers (dockerMonitor r)) w with
  | Ok systemData, Ok dockerData =>
      sends (trace (after (tick r) w)) =
      sends (trace w) ++
      map (fun c => (c, JSON.stringify
                          (envelope (Date.iso (clock w)) systemData dockerData)))
          (open_clients w)
      /\ clients (after (tick r) w) = open_clients w
  | _, _ =>
      sends (trace (after (tick r) w)) = sends (trace w)
      /\ clients (after (tick r) w) = clients w
      /\ In (Log Err "Failed to broadcast metrics:") (trace (after (tick r) w))
  end.
Proof.
  intros Hne.
  pose proof (f_equal snd (tick_run r w Hne)) as Hrun. cbv zeta in Hrun.
  change (snd (tick r w)) with (after (tick r) w) in Hrun.
  rewrite listing_after_overview in Hrun.
  pose proof (polls_same_process r w) as Hsame.
  pose proof (same_process_open _ _ Hsame) as Hopen.
  destruct Hsame as [Hc [_ [Hk [_ [_ Hs]]]]].
  set (w2 := after (listContainers (dockerMonitor r))
                   (after SystemMonitor.getSystemOverview w)) in *.
  assert (Hlog : sends (trace (snd (logger Err "Failed to broadcast metrics:" w2)))
                 = sends (trace w)
                 /\ clients (snd (logger Err "Failed to broadcast metrics:" w2)) = clients w
                 /\ In (Log Err "Failed to broadcast metrics:")
                       (trace (snd (logger Err "Failed to broadcast metrics:" w2)))).
  { simpl. rewrite sends_app; simpl. rewrite app_nil_r.
    split; [exact Hs | split; [exact Hc |]].
    apply in_or_app. right. now left. }
  destruct (outcome SystemMonitor.getSystemOverview w) as [systemData | e];
    destruct (outcome (listContainers (dockerMonitor r)) w) as [dockerData | e'];
    rewrite Hrun; try exact Hlog.
  rewrite broadcast_run. simpl.
  rewrite sends_app, sends_of_sent, Hopen, Hs, Hk. split; reflexivity.
Qed.

Lemma tick_delivery_witness :
  sends (trace (after (tick Rethrowing) (world docker_down true [1%nat; 2%nat]))) = []
  /\ clients (after (tick Rethrowing) (world docker_down true [1%nat; 2%nat]))
     = [1%nat; 2%nat].
Proof.
  assert (Hne : clients (world docker_down true [1%nat; 2%nat]) <> []) by discriminate.
  pose proof (tick_delivery Rethrowing _ Hne) as H.
  vm_compute in H. destruct H as [Hs [Hc _]].
  split; [exact Hs | exact Hc].
Defined.

(** X11. A tick with at least one subscriber calls the five probes of the
    system overview and then, unless the guarded monitor has marked the
    runtime unavailable, the listing of the runtime, each once; the listing
    is called even when a probe of the overview has failed. *)
Theorem tick_polls (r : Revision) (w : World) :
  clients w <> [] ->
  polls (trace (after (tick r) w)) =
  polls (trace w) ++ five_probes ++
  (if listing_called r w then [DockerCalled docker_listContainers] else []).
Proof.
  intros Hne.
  pose proof (f_equal snd (tick_run r w Hne)) as Hrun. cbv zeta in Hrun.
  change (snd (tick r w)) with (after (tick r) w) in Hrun.
  pose proof (listing_polls r (after SystemMonitor.getSystemOverview w)) as Hl.
  destruct (SystemFacts.overview_trace w) as [Ht _].
  assert (Ha : listing_called r (after SystemMonitor.getSystemOverview w)
               = listing_called r w).
  { destruct r; [| reflexivity]. simpl.
    apply (getSystemOverview_quiet dockerAvailable quiet_dockerAvailable). }
  rewrite Ha, Ht in Hl.
  assert (Hp : polls (trace (after (listContainers (dockerMonitor r))
                                   (after SystemMonitor.getSystemOverview w))) =
               polls (trace w) ++ five_probes ++
               (if listing_called r w then [DockerCalled docker_listContainers] else [])).
  { rewrite Hl, !polls_app.
    destruct (outcome SystemMonitor.getSystemOverview w); simpl;
      rewrite ?app_nil_r, <- ?app_assoc; reflexivity. }
  set (w2 := after (listContainers (dockerMonitor r))
                   (after SystemMonitor.getSystemOverview w)) in *.
  assert (Hlog : polls (trace (snd (logger Err "Failed to broadcast metrics:" w2)))
                 = polls (trace w2)).
  { simpl. rewrite polls_app. simpl. apply app_nil_r. }
  destruct (outcome SystemMonitor.getSystemOverview w) as [systemData | e];
    [destruct (outcome (listContainers (dockerMonitor r))
                 (after SystemMonitor.getSystemOverview w)) as [dockerData | e'] |];
    rewrite Hrun, ?Hlog; try exact Hp.
  rewrite broadcast_run. simpl. rewrite polls_app, polls_of_sent, app_nil_r. exact Hp.
Qed.

Lemma tick_polls_witness :
  polls (trace (after (tick Guarded) (world mem_down true [1%nat]))) =
  five_probes ++ [DockerCalled docker_listContainers].
Proof.
  assert (Hne : clients (world mem_down true [1%nat]) <> []) by discriminate.
  exact (tick_polls Guarded _ Hne).
Defined.

End TickFacts.

(** ** Subscribers joining and leaving *)

Module LifecycleFacts.
Import Observe Views Samples MoreSamples Frame RegistryFacts BroadcastFacts TickFacts
  WebSocketService.

Lemma skipn_length_app {A : Type} (l k : list A) : skipn (length l) (l ++ k) = k.
Proof. induction l as [| x l IH]; simpl; [reflexivity | exact IH]. Qed.

Lemma delivered_broadcast (data : value) (w : World) :
  delivered (broadcast data) w =
  map (fun c => (c, JSON.stringify data)) (open_clients w).
Proof.
  unfold delivered, after. rewrite broadcast_run. simpl.
  rewrite sends_app, sends_of_sent. apply skipn_length_app.
Qed.

Lemma has_false_not_In (c : nat) (cs : list nat) : has c cs = false -> ~ In c cs.
Proof. intros H Hin. rewrite (has_In _ _ Hin) in H. discriminate. Qed.

Lemma In_add (ws : nat) (cs : list nat) : In ws (add ws cs).
Proof.
  unfold add. destruct (has ws cs) eqn:H.
  - now apply has_true_In.
  - apply in_or_app. right. now left.
Qed.

Lemma NoDup_snoc {A : Type} (x : A) (l : list A) :
  List.NoDup l -> ~ In x l -> List.NoDup (l ++ [x]).
Proof.
  induction l as [| y l IH]; simpl; intros Hl Hx.
  - constructor; [intros [] | constructor].
  - inversion Hl as [| ? ? Hy Hl']; subst. constructor.
    + intros Hin. apply in_app_or in Hin as [Hin | [-> | []]]; [contradiction |].
      apply Hx. now left.
    + apply IH; [exact Hl' |]. intros Hin. apply Hx. now right.
Qed.

Lemma add_NoDup (ws : nat) (cs : list nat) : List.NoDup cs -> List.NoDup (add ws cs).
Proof.
  intros Hcs. unfold add. destruct (has ws cs) eqn:H; [exact Hcs |].
  apply NoDup_snoc; [exact Hcs | now apply has_false_not_In].
Qed.

Lemma remove_NoDup (ws : nat) (cs : list nat) :
  List.NoDup cs -> List.NoDup (remove ws cs).
Proof. intros Hcs. unfold remove. now apply List.NoDup_filter. Qed.

Lemma open_NoDup (w : World) : List.NoDup (clients w) -> List.NoDup (open_clients w).
Proof. intros Hcs. unfold open_clients. now apply List.NoDup_filter. Qed.

Lemma tick_clients (r : Revision) (w : World) :
  clients (after (tick r) w) = clients w \/ clients (after (tick r) w) = open_clients w.
Proof.
  destruct (clients w) as [| c cs] eqn:Hcs.
  - left. unfold after, tick, bind, gets. now rewrite Hcs.
  - assert (Hne : clients w <> []) by (rewrite Hcs; discriminate).
    pose proof (f_equal snd (tick_run r w Hne)) as Hrun. cbv zeta in Hrun.
    change (snd (tick r w)) with (after (tick r) w) in Hrun.
    pose proof (polls_same_process r w) as Hsame.
    pose proof (same_process_open _ _ Hsame) as Hopen.
    destruct Hsame as [Hc _]. rewrite <- Hcs.
    destruct (outcome SystemMonitor.getSystemOverview w);
      [destruct (outcome (listContainers (dockerMonitor r))
                   (after SystemMonitor.getSystemOverview w)) |];
      rewrite Hrun; try (left; exact Hc).
    right. rewrite broadcast_run. exact Hopen.
Qed.

(** X12. The registry never holds a subscriber twice: connecting,
    closing, a socket error, a broadcast and a tick all keep it free of
    duplicates, and one broadcast sends no subscriber more than one
    message. *)
Theorem registry_no_duplicates (w : World) :
  List.NoDup (clients w) ->
  (forall ws, List.NoDup (clients (after (on_connection ws) w)))
  /\ (forall ws, List.NoDup (clients (after (on_close ws) w)))
  /\ (forall ws, List.NoDup (clients (after (on_error ws) w)))
  /\ (forall data, List.NoDup (clients (after (broadcast data) w)))
  /\ (forall r, List.NoDup (clients (after (tick r) w)))
  /\ (forall data, List.NoDup (map fst (delivered (broadcast data) w))).
Proof.
  intros Hcs. repeat split.
  - intros ws. now apply add_NoDup.
  - intros ws. now apply remove_NoDup.
  - intros ws. now apply remove_NoDup.
  - intros data. unfold after. rewrite broadcast_run. now apply open_NoDup.
  - intros r. destruct (tick_clients r w) as [-> | ->];
      [exact Hcs | now apply open_NoDup].
  - intros data. rewrite delivered_broadcast, map_map. simpl.
    rewrite map_id. now apply open_NoDup.
Qed.

Lemma registry_no_duplicates_witness :
  List.NoDup (clients (after (on_connection 1%nat) (world healthy true [1%nat; 2%nat]))).
Proof.
  assert (H : List.NoDup (clients (world healthy true [1%nat; 2%nat]))).
  { simpl. repeat constructor; simpl; intuition discriminate. }
  exact (proj1 (registry_no_duplicates _ H) 1%nat).
Defined.

(** X13. A subscriber that connects with an open socket is sent the next
    broadcast; connecting the same socket again changes nothing; a
    subscriber whose socket closes or reports an error is sent nothing by
    the next broadcast, while the others stay registered. *)
Theorem subscription_lifecycle (ws : nat) (data : value) (w : World) :
  (readyState w ws = OPEN ->
   In (ws, JSON.stringify data)
      (delivered (broadcast data) (after (on_connection ws) w)))
  /\ clients (after (on_connection ws) (after (on_connection ws) w)) =
     clients (after (on_connection ws) w)
  /\ (forall m, ~ In (ws, m) (delivered (broadcast data) (after (on_close ws) w)))
  /\ (forall m, ~ In (ws, m) (delivered (broadcast data) (after (on_error ws) w)))
  /\ (forall c, c <> ws ->
        (In c (clients (after (on_close ws) w)) <-> In c (clients w))
        /\ (In c (clients (after (on_error ws) w)) <-> In c (clients w))
        /\ (In c (clients (after (on_connection ws) w)) <-> In c (clients w))).
Proof.
  assert (Hgone : forall w1 m, ~ In ws (clients w1) ->
                    ~ In (ws, m) (delivered (broadcast data) w1)).
  { intros w1 m Hout Hin. rewrite delivered_broadcast in Hin.
    apply in_map_iff in Hin as [c [Heq Hin]]. inversion Heq; subst.
    apply Hout. unfold open_clients in Hin. now apply filter_In in Hin as [Hin _]. }
  assert (Hother : forall c, c <> ws -> In c (remove ws (clients w)) <-> In c (clients w)).
  { intros c Hne. unfold remove. rewrite filter_In.
    destruct (Nat.eqb_spec c ws); [contradiction |]. simpl. intuition. }
  split; [| split; [| split; [| split]]].
  - intros Hopen. rewrite delivered_broadcast. apply in_map_iff. exists ws.
    split; [reflexivity |]. unfold open_clients. apply filter_In. split.
    + apply In_add.
    + simpl. now rewrite Hopen.
  - simpl. unfold add at 1. now rewrite (has_In _ _ (In_add ws (clients w))).
  - intros m. apply Hgone. apply remove_not_In.
  - intros m. apply Hgone. apply remove_not_In.
  - intros c Hne. split; [now apply Hother | split; [now apply Hother |]].
    simpl. unfold add. destruct (has ws (clients w)); [reflexivity |].
    rewrite in_app_iff. simpl. intuition congruence.
Qed.

Lemma subscription_lifecycle_witness :
  In (1%nat, JSON.stringify (Str "m"))
     (delivered (broadcast (Str "m"))
                (after (on_connection 1%nat) (world healthy true []))).
Proof.
  apply (proj1 (subscription_lifecycle 1%nat (Str "m") (world healthy true []))).
  reflexivity.
Defined.

(** X14. After a broadcast every registered subscriber has an open
    socket, so a second broadcast right after it removes nobody and
    reaches the same subscribers. *)
Theorem broadcast_settles (data data' : value) (w : World) :
  let w' := after (broadcast data) w in
  (forall c, In c (clients w') -> readyState w' c = OPEN)
  /\ clients (after (broadcast data') w') = clients w'
  /\ map fst (delivered (broadcast data') w') = map fst (delivered (broadcast data) w).
Proof.
  intros w'. subst w'.
  assert (Hopen : open_clients (after (broadcast data) w) = open_clients w).
  { unfold after. rewrite broadcast_run. unfold open_clients at 1. simpl.
    unfold open_clients. rewrite filter_twice. apply filter_ext. intros c.
    apply andb_diag. }
  split; [| split].
  - intros c Hin. unfold after in *. rewrite broadcast_run in *. simpl in *.
    unfold open_clients in Hin. apply filter_In in Hin as [_ Hc].
    destruct (readyState w c); simpl in Hc; congruence.
  - unfold after at 1. rewrite broadcast_run. simpl. rewrite Hopen.
    unfold after. now rewrite broadcast_run.
  - rewrite !delivered_broadcast, !map_map. simpl. now rewrite Hopen.
Qed.

End LifecycleFacts.

(** ** The route handlers *)

Module HandlerFacts.
Import Observe Views Samples MoreSamples Frame AdapterFacts TraceFacts Routes.

(** A handler of the form [try { res.json({success, data}) } catch { next }]. *)
Lemma plain_run (adapter : M value) (w : World) :
  try_catch
    (let! data := adapter in
     ret (res_json (Obj [("success", Bool true); ("data", data)])))
    (fun error => ret (NextError error)) w =
  (Ok (match outcome adapter w with
       | Ok data => success_reply data
       | Throw e => NextError e
       end), after adapter w).
Proof.
  unfold try_catch, bind, outcome, after, ret, success_reply.
  now destruct (adapter w) as [[data | e] w1].
Qed.

Lemma plain_run_after (adapter : M value) (w : World) :
  snd (try_catch
         (let! data := adapter in
          ret (res_json (Obj [("success", Bool true); ("data", data)])))
         (fun error => ret (NextError error)) w) = after adapter w.
Proof. now rewrite plain_run. Qed.

Lemma handle_run (r : Revision) (route : Route) (w : World) :
  route <> GetOverview ->
  handle r route w =
  (Ok (match outcome (adapter_of r route) w with
       | Ok data => success_reply data
       | Throw e => NextError e
       end), after (adapter_of r route) w).
Proof.
  intros Hne. destruct route; try contradiction; simpl; apply plain_run.
Qed.

Lemma handle_outcome (r : Revision) (route : Route) (w : World) :
  route <> GetOverview ->
  outcome (handle r route) w =
  Ok (match outcome (adapter_of r route) w with
      | Ok data => success_reply data
      | Throw e => NextError e
      end).
Proof. intros Hne. unfold outcome at 1. now rewrite handle_run. Qed.

Lemma handle_after (r : Revision) (route : Route) (w : World) :
  route <> GetOverview ->
  after (handle r route) w = after (adapter_of r route) w.
Proof. intros Hne. unfold after at 1. now rewrite handle_run. Qed.

Lemma overview_total (w : World) : exists reply, outcome overview w = Ok reply.
Proof.
  unfold outcome, overview, try_catch.
  match goal with
  | |- context [match ?body w with _ => _ end] =>
      destruct (body w) as [[reply | e] w1]; eexists; reflexivity
  end.
Qed.

Lemma guarded_unavailable (route : Route) (w : World) :
  container_route route = true -> dockerAvailable w = false ->
  outcome (adapter_of Guarded route) w = Ok (empty_answer route).
Proof.
  intros Hroute Hdown. destruct route; try discriminate; simpl;
    unfold outcome, DockerMonitor.listContainers, DockerMonitor.getContainerStats,
      DockerMonitor.getContainerLogs, bind, gets; now rewrite Hdown.
Qed.

Lemma guarded_total (route : Route) (w : World) :
  container_route route = true ->
  exists data, outcome (adapter_of Guarded route) w = Ok data.
Proof.
  intros Hroute. destruct route; try discriminate; simpl.
  - apply guarded_list_total.
  - apply guarded_stats_total.
  - apply guarded_logs_total.
Qed.

Lemma guarded_unavailable_polls (route : Route) (w : World) :
  container_route route = true -> dockerAvailable w = false ->
  polls (trace (after (adapter_of Guarded route) w)) = polls (trace w).
Proof.
  intros Hroute Hdown. destruct route; try discriminate; simpl.
  - rewrite (listing_polls Guarded). simpl. rewrite Hdown. apply app_nil_r.
  - rewrite stats_polls, Hdown. apply app_nil_r.
  - rewrite logs_polls, Hdown. apply app_nil_r.
Qed.

(** X15. With the guarded monitor, the three routes of the container
    router always answer 200 with [success: true], whatever the state of
    the runtime; when the runtime is marked unavailable the data is the
    empty list, the all-zero stats or the empty logs, and dockerode is not
    called. *)
Theorem guarded_container_routes (route : Route) (w : World) :
  container_route route = true ->
  (exists data, outcome (handle Guarded route) w = Ok (success_reply data))
  /\ (dockerAvailable w = false ->
      outcome (handle Guarded route) w = Ok (success_reply (empty_answer route))
      /\ polls (trace (after (handle Guarded route) w)) = polls (trace w)).
Proof.
  intros Hroute.
  assert (Hne : route <> GetOverview) by (intros ->; discriminate).
  rewrite !(handle_outcome Guarded route w Hne), (handle_after Guarded route w Hne).
  split.
  - destruct (guarded_total route w Hroute) as [data ->]. now exists data.
  - intros Hdown. rewrite (guarded_unavailable route w Hroute Hdown).
    split; [reflexivity |]. now apply guarded_unavailable_polls.
Qed.

Lemma guarded_container_routes_witness :
  outcome (handle Guarded (GetContainerStats "web")) (world healthy false []) =
  Ok (success_reply DockerMonitor.emptyStats).
Proof.
  apply (proj2 (guarded_container_routes (GetContainerStats "web")
                  (world healthy false []) eq_refl)).
  reflexivity.
Defined.

(** X16. No handler of the system and container routers rejects: each
    either answers or calls [next].  On every route but [/overview] the
    handler calls [next] exactly when its adapter throws, with the error
    the adapter threw, and otherwise answers with what the adapter
    returned; the handler does nothing beyond what its adapter does. *)
Theorem handlers_forward_errors (r : Revision) (route : Route) (w : World) :
  (exists reply, outcome (handle r route) w = Ok reply)
  /\ (route <> GetOverview ->
      (forall e, outcome (adapter_of r route) w = Throw e <->
                 outcome (handle r route) w = Ok (NextError e))
      /\ (forall data, outcome (adapter_of r route) w = Ok data ->
                       outcome (handle r route) w = Ok (success_reply data))
      /\ after (handle r route) w = after (adapter_of r route) w).
Proof.
  split.
  - destruct route; try apply overview_total;
      (rewrite handle_outcome by discriminate; eexists; reflexivity).
  - intros Hne.
    split; [| split; [| now apply handle_after]]; intros x;
      rewrite (handle_outcome r route w Hne).
    + destruct (outcome (adapter_of r route) w) as [data | e'];
        unfold success_reply, res_json; split; intros H; congruence.
    + intros ->. reflexivity.
Qed.

Lemma handlers_forward_errors_witness :
  outcome (handle Rethrowing GetContainers) (world docker_down true []) =
  Ok (NextError boom).
Proof.
  destruct (handlers_forward_errors Rethrowing GetContainers
              (world docker_down true [])) as [_ H].
  destruct H as [H _]; [discriminate |].
  apply H. reflexivity.
Defined.

End HandlerFacts.

(** ** The cached overview, the logs query and the status route *)

Module OverviewFacts.
Import Observe Views Samples MoreSamples Frame AdapterFacts TraceFacts Routes.

Lemma overview_truthy (w : World) (data : value) :
  outcome SystemMonitor.getSystemOverview w = Ok data -> truthy_value data = true.
Proof.
  unfold outcome, SystemMonitor.getSystemOverview, try_catch, bind.
  repeat (rewrite promise_all_run, si_run; simpl).
  rewrite si_run; simpl.
  destruct (currentLoad_ (sources w)) as [cpu | e1];
    destruct (mem_ (sources w)) as [mem | e2];
    destruct (fsSize_ (sources w)) as [disk | e3];
    destruct (osInfo_ (sources w)) as [load | e4];
    destruct (cpuTemperature_ (sources w)) as [temp | e5];
    simpl; intros H; try discriminate.
  injection H as <-. reflexivity.
Qed.

(** A request that finds nothing in the cache. *)
Lemma overview_miss (w : World) :
  outcome (CacheService.get "system:overview") w = Ok Undefined ->
  overview w =
  let w1 := after SystemMonitor.getSystemOverview w in
  match outcome SystemMonitor.getSystemOverview w with
  | Ok data =>
      (Ok (res_json (Obj [("success", Bool true); ("data", data);
                          ("timestamp", Str (Date.iso (clock w)))])),
       with_store (<[ "system:overview" := overview_entry data w ]> (store w1)) w1)
  | Throw e => (Ok (NextError e), w1)
  end.
Proof.
  intros Hmiss. unfold overview, try_catch. unfold bind at 1.
  destruct (RouteFacts.cache_get_pure "system:overview" w) as [cached Hget].
  unfold outcome in Hmiss. rewrite Hget in Hmiss. simpl in Hmiss.
  injection Hmiss as ->. rewrite Hget. simpl.
  pose proof (getSystemOverview_quiet clock quiet_clock w) as Hclock.
  unfold bind, outcome, after in *.
  destruct (SystemMonitor.getSystemOverview w) as [[data | e] w1]; simpl in *;
    [| reflexivity].
  unfold now_iso, gets, ret, CacheService.set, NodeCache.set, overview_entry. simpl.
  now rewrite Hclock.
Qed.

(** X17. A request for [/overview] that finds nothing in the cache
    stores the overview it computes for 30 seconds: a request made within
    that time is answered with the stored overview and its own timestamp,
    without a call to any probe and without a change to the world; a
    request made later calls the five probes again.  (The store is
    node-cache, modelled with absolute expiry times.) *)
Theorem overview_served_from_cache (w : World) (data : value) (dt : Z) :
  outcome (CacheService.get "system:overview") w = Ok Undefined ->
  outcome SystemMonitor.getSystemOverview w = Ok data ->
  let w2 := elapse dt (after overview w) in
  (dt <= 30 * 1000 ->
   overview w2 =
   (Ok (res_json (Obj [("success", Bool true); ("data", data);
                       ("timestamp", Str (Date.iso (clock w + dt)))])), w2))
  /\ (30 * 1000 < dt ->
      polls (trace (after overview w2)) = polls (trace w2) ++ five_probes).
Proof.
  intros Hmiss Hok w2.
  pose proof (overview_truthy w data Hok) as Htruthy.
  pose proof (getSystemOverview_quiet clock quiet_clock w) as Hclock.
  assert (Hw2 : w2 = elapse dt
                  (with_store (<[ "system:overview" := overview_entry data w ]>
                                 (store (after SystemMonitor.getSystemOverview w)))
                              (after SystemMonitor.getSystemOverview w))).
  { subst w2. unfold after at 1. rewrite (overview_miss w Hmiss). cbv zeta.
    now rewrite Hok. }
  clearbody w2.
  assert (Hstore : store w2 !! "system:overview" = Some (overview_entry data w)).
  { rewrite Hw2. simpl. apply lookup_insert_eq. }
  assert (Hnow : clock w2 = clock w + dt).
  { rewrite Hw2. simpl. now rewrite Hclock. }
  split.
  - intros Hdt. unfold overview, try_catch. unfold bind at 1.
    unfold CacheService.get, NodeCache.get. unfold bind at 1.
    rewrite Hstore, Hnow. simpl.
    replace (clock w + dt <=? clock w + 30 * NodeCache.ttl_unit) with true
      by (symmetry; apply Z.leb_le; unfold NodeCache.ttl_unit; lia).
    unfold ret, bind. rewrite Htruthy. simpl.
    unfold now_iso, gets. now rewrite Hnow.
  - intros Hdt.
    assert (Hmiss2 : outcome (CacheService.get "system:overview") w2 = Ok Undefined).
    { unfold outcome, CacheService.get, NodeCache.get, bind.
      rewrite Hstore, Hnow. simpl.
      replace (clock w + dt <=? clock w + 30 * NodeCache.ttl_unit) with false
        by (symmetry; apply Z.leb_gt; unfold NodeCache.ttl_unit; lia).
      reflexivity. }
    unfold after at 1. rewrite (overview_miss w2 Hmiss2). cbv zeta.
    destruct (SystemFacts.overview_trace w2) as [Ht _].
    destruct (outcome SystemMonitor.getSystemOverview w2); simpl;
      rewrite Ht, !polls_app; simpl; now rewrite ?app_nil_r.
Qed.

Lemma overview_served_from_cache_witness :
  polls (trace (after overview (elapse 29000 (after overview (world healthy true [])))))
  = five_probes.
Proof.
  assert (H : outcome SystemMonitor.getSystemOverview (world healthy true []) = Ok
                (Obj [("hostname", Str "raspberrypi");
                      ("uptime", Undefined);
                      ("loadAverage", Arr [Undefined; Undefined; Undefined]);
                      ("cpu", Obj [("usage", Num (num_of_Z 25));
                                   ("cores", Num (num_of_Z 2));
                                   ("temperature", Num zero)]);
                      ("memory", Obj [("total", Num (num_of_Z 8000));
                                      ("used", Num (num_of_Z 2000));
                                      ("free", Num (num_of_Z 6000));
                                      ("usage", Num (num_of_Z 25))]);
                      ("disk", Obj [("total", Num (num_of_Z 8000));
                                    ("used", Num (num_of_Z 2000));
                                    ("free", Num (num_of_Z 6000));
                                    ("usage", Num (num_of_Z 25))])]))
    by reflexivity.
  destruct (overview_served_from_cache (world healthy true []) _ 29000 eq_refl H)
    as [Hhit _].
  unfold after at 1. rewrite Hhit by lia. reflexivity.
Defined.

End OverviewFacts.

(** ** The logs query and the status route *)

Module QueryFacts.
Import Observe Views Samples MoreSamples Frame AdapterFacts TraceFacts HandlerFacts Routes.

Lemma or_num_truthy (o : optnum) (d : num) : truthy d = true -> truthy (or_num o d) = true.
Proof.
  intros Hd. unfold or_num. destruct o as [x |]; [| exact Hd].
  destruct (truthy x) eqn:Hx; [exact Hx | exact Hd].
Qed.

(** X18. The logs route asks dockerode for a number of lines that is
    never zero nor [NaN]: the [lines] parameter read by [parseInt] when
    that gives a usable number, and 100 when the parameter is absent, is
    not a number or is zero. *)
Theorem logs_route_tail (id : string) (query : LogsQuery) (w : World) :
  dockerAvailable w = true ->
  polls (trace (after (handle Guarded (GetContainerLogs id query)) w)) =
  polls (trace w) ++ [DockerCalled (docker_logs id (requested_tail query))]
  /\ truthy (requested_tail query) = true
  /\ (q_lines query = None -> requested_tail query = hundred)
  /\ (forall text, q_lines query = Some text ->
        requested_tail query =
        if truthy (parseInt text) then parseInt text else hundred).
Proof.
  intros Hup. split; [| split; [| split]].
  - unfold after, handle, container_logs. cbv zeta. rewrite plain_run_after.
    simpl. rewrite logs_polls, Hup. reflexivity.
  - now apply or_num_truthy.
  - intros Hnone. unfold requested_tail, requested_lines. now rewrite Hnone.
  - intros text Hsome. unfold requested_tail, requested_lines. now rewrite Hsome.
Qed.

Lemma logs_route_tail_witness :
  let zero_lines := {| q_lines := Some "0"; q_since := Undefined; q_until := Undefined |} in
  let some_lines := {| q_lines := Some " 250"; q_since := Undefined; q_until := Undefined |} in
  let no_number := {| q_lines := Some "all"; q_since := Undefined; q_until := Undefined |} in
  polls (trace (after (handle Guarded (GetContainerLogs "web" zero_lines))
                      (world healthy true []))) =
  [DockerCalled (docker_logs "web" hundred)]
  /\ requested_tail some_lines = num_of_Z 250
  /\ requested_tail no_number = hundred.
Proof.
  intros zero_lines some_lines no_number.
  split; [| split].
  - apply (proj1 (logs_route_tail "web" zero_lines (world healthy true []) eq_refl)).
  - reflexivity.
  - reflexivity.
Defined.

Lemma status_run (enabled : bool) (w : World) :
  DockerStatus.status enabled w =
  let probed :=
    if dockerAvailable w
    then match outcome DockerMonitor.listContainers w with
         | Ok containers =>
             [("containers", Health.length_value containers); ("healthy", Bool true)]
         | Throw e => [("healthy", Bool false); ("error", Str (err_message e))]
         end
    else [] in
  (Ok (res_json (Obj [
         ("success", Bool true);
         ("data", Obj ([("available", Bool (dockerAvailable w));
                        ("enabled", Bool enabled);
                        ("socketPath", Str "/var/run/docker.sock");
                        ("timestamp", Str (Date.iso (clock w)))] ++ probed))])),
   if dockerAvailable w then after DockerMonitor.listContainers w else w).
Proof.
  unfold DockerStatus.status, try_catch, bind, now_iso, gets, outcome, after, ret.
  destruct (dockerAvailable w); [| reflexivity].
  simpl. now destruct (DockerMonitor.listContainers w) as [[containers | e] w1].
Qed.

(** X19. The status route of the container router always answers 200
    with [success: true], the availability flag of the monitor and the
    time of the request.  When the runtime is available it lists the
    containers once and reports [healthy: true]: the guarded monitor never
    throws, so [healthy: false] and [error] are never reported.  When the
    runtime is unavailable dockerode is not called and neither [healthy]
    nor [containers] is reported. *)
Theorem status_route (enabled : bool) (w : World) :
  exists body,
    outcome (DockerStatus.status enabled) w = Ok (Json 200 body)
    /\ prop "success" body = Bool true
    /\ prop "available" (prop "data" body) = Bool (dockerAvailable w)
    /\ prop "enabled" (prop "data" body) = Bool enabled
    /\ prop "timestamp" (prop "data" body) = Str (Date.iso (clock w))
    /\ has_key "error" (prop "data" body) = false
    /\ (if dockerAvailable w
        then prop "healthy" (prop "data" body) = Bool true
             /\ polls (trace (after (DockerStatus.status enabled) w)) =
                polls (trace w) ++ [DockerCalled docker_listContainers]
        else has_key "healthy" (prop "data" body) = false
             /\ has_key "containers" (prop "data" body) = false
             /\ after (DockerStatus.status enabled) w = w).
Proof.
  pose proof (status_run enabled w) as Hrun. cbv zeta in Hrun.
  unfold outcome, after. rewrite Hrun. simpl.
  destruct (dockerAvailable w) eqn:Hup.
  - pose proof (listing_polls Guarded w) as Hpolls. simpl in Hpolls. rewrite Hup in Hpolls.
    destruct (guarded_list_total w) as [containers Hlist]. rewrite Hlist.
    eexists. split; [reflexivity |].
    destruct (Health.length_value containers) as [| | b | n | t | items | fields]; simpl;
      try destruct (JSON.finite n); try destruct n; simpl;
      repeat split; try reflexivity; exact Hpolls.
  - eexists. split; [reflexivity |]. simpl. repeat split.
Qed.

End QueryFacts.

(** ** The health route *)

Module HealthFacts.
Import Observe Views Samples MoreSamples Frame AdapterFacts TraceFacts Routes.

Lemma overview_throws_fails (w : World) (e : Error) :
  outcome SystemMonitor.getSystemOverview w = Throw e -> system_source_fails (sources w).
Proof.
  unfold system_source_fails, outcome, SystemMonitor.getSystemOverview, try_catch, bind.
  repeat (rewrite promise_all_run, si_run; simpl).
  rewrite si_run; simpl.
  destruct (currentLoad_ (sources w)) as [cpu | e1]; [| eauto].
  destruct (mem_ (sources w)) as [mem | e2]; [| eauto].
  destruct (fsSize_ (sources w)) as [disk | e3]; [| eauto].
  destruct (osInfo_ (sources w)) as [load | e4]; [| eauto 6].
  destruct (cpuTemperature_ (sources w)) as [temp | e5]; [| eauto 7].
  simpl. discriminate.
Qed.

Lemma checkSystemService_run (w : World) :
  Health.checkSystemService w =
  (Ok (match outcome SystemMonitor.getSystemOverview w with
       | Ok _ => Obj [("status", Str "healthy")]
       | Throw e => Obj [("status", Str "unhealthy"); ("error", Str (err_message e))]
       end), after SystemMonitor.getSystemOverview w).
Proof.
  unfold Health.checkSystemService, try_catch, bind, outcome, after, ret.
  now destruct (SystemMonitor.getSystemOverview w) as [[data | e] w1].
Qed.

Lemma checkDockerService_plain_run (r : Revision) (w : World) :
  Health.checkDockerService_plain r w =
  (Ok (match outcome (listContainers (dockerMonitor r)) w with
       | Ok _ => Obj [("status", Str "healthy")]
       | Throw e => Obj [("status", Str "unhealthy"); ("error", Str (err_message e))]
       end), after (listContainers (dockerMonitor r)) w).
Proof.
  unfold Health.checkDockerService_plain, try_catch, bind, outcome, after, ret.
  now destruct (listContainers (dockerMonitor r) w) as [[data | e] w1].
Qed.

Lemma checkDockerService_run (w : World) :
  Health.checkDockerService w =
  (Ok (match outcome DockerMonitor.listContainers w with
       | Ok containers =>
           if dockerAvailable w
           then Obj [("status", Str "healthy");
                     ("containers", Health.length_value containers);
                     ("available", Bool true)]
           else Obj [("status", Str "unavailable");
                     ("message", Str "Docker daemon is not accessible or not running");
                     ("containers", Arr [])]
       | Throw e => Obj [("status", Str "unhealthy"); ("error", Str (err_message e));
                         ("available", Bool false)]
       end), after DockerMonitor.listContainers w).
Proof.
  pose proof (listContainers_quiet dockerAvailable Guarded quiet_dockerAvailable w) as Hsame.
  simpl in Hsame.
  unfold Health.checkDockerService, try_catch, bind, gets, outcome, after, ret in *.
  destruct (DockerMonitor.listContainers w) as [[data | e] w1]; simpl in *;
    [| reflexivity].
  rewrite Hsame. now destruct (dockerAvailable w).
Qed.

Lemma get_after_set (k : string) (v : value) (T : N) (w : World) :
  let w1 := with_store
              (<[ k := {| entry_value := v;
                          expiry := clock w + Z.of_N T * NodeCache.ttl_unit |} ]> (store w))
              w in
  CacheService.get k w1 = (Ok v, w1).
Proof.
  unfold CacheService.get, bind, NodeCache.get; simpl.
  rewrite lookup_insert_eq; simpl.
  destruct (Z.leb_spec (clock w) (clock w + Z.of_N T * NodeCache.ttl_unit));
    [reflexivity | unfold NodeCache.ttl_unit in *; lia].
Qed.

Lemma checkCacheService_run (w : World) :
  Health.checkCacheService w =
  (Ok (Obj [("status", Str "healthy")]),
   with_store (<[ "health:test" :=
                  {| entry_value := Str "ok"; expiry := clock w + 1 * NodeCache.ttl_unit |} ]>
                 (store w)) w).
Proof.
  pose proof (get_after_set "health:test" (Str "ok") 1%N w) as Hget. cbv zeta in Hget.
  unfold Health.checkCacheService, try_catch. unfold bind at 1.
  unfold CacheService.set, NodeCache.set. unfold bind at 1.
  rewrite Hget. reflexivity.
Qed.

(** The health route, in terms of the reports of its three checks. *)
Lemma health_run (v : Health.Variant) (uptime : num) (version : option string)
    (w : World) :
  exists docker w3,
    (let w1 := after SystemMonitor.getSystemOverview w in
     match v with
     | Health.Plain r => fst (Health.checkDockerService_plain r w1)
     | Health.Aware => fst (Health.checkDockerService w1)
     end = Ok docker)
    /\ trace w3 =
       trace (after (match v with
                     | Health.Plain r => listContainers (dockerMonitor r)
                     | Health.Aware => DockerMonitor.listContainers
                     end) (after SystemMonitor.getSystemOverview w))
    /\ Health.health v uptime version w =
       (let system := match outcome SystemMonitor.getSystemOverview w with
                      | Ok _ => Obj [("status", Str "healthy")]
                      | Throw e => Obj [("status", Str "unhealthy");
                                        ("error", Str (err_message e))]
                      end in
        let cache := Obj [("status", Str "healthy")] in
        (Ok (res_json (Obj [
           ("status", Str (if existsb Health.unhealthy [system; docker; cache]
                           then "degraded" else "healthy"));
           ("timestamp", Str (Date.iso (clock w)));
           ("uptime", Num uptime);
           ("version", Str (match version with
                            | Some text => if Str.nonempty text then text else "1.0.0"
                            | None => "1.0.0"
                            end));
           ("services", Obj [("system", system); ("docker", docker); ("cache", cache)])
         ])), w3)).
Proof.
  pose proof (getSystemOverview_quiet clock quiet_clock w) as Hc1.
  set (w1 := after SystemMonitor.getSystemOverview w) in *.
  assert (Hc2 : forall r, clock (after (listContainers (dockerMonitor r)) w1) = clock w).
  { intros r. rewrite <- Hc1. apply (listContainers_quiet clock r quiet_clock). }
  unfold Health.health. unfold bind at 1.
  rewrite promise_all_run, checkSystemService_run. fold w1.
  rewrite promise_all_run.
  destruct v as [r |]; simpl Health.checkDocker.
  - rewrite checkDockerService_plain_run, checkCacheService_run.
    eexists. eexists. split; [reflexivity |]. split; [|
    destruct (outcome SystemMonitor.getSystemOverview w);
      destruct (outcome (listContainers (dockerMonitor r)) w1);
      unfold bind, now_iso, gets, ret; simpl; rewrite Hc2; reflexivity].
    reflexivity.
  - rewrite checkDockerService_run, checkCacheService_run.
    specialize (Hc2 Guarded). simpl in Hc2.
    eexists. eexists. split; [reflexivity |]. split; [|
    destruct (outcome SystemMonitor.getSystemOverview w);
      destruct (outcome DockerMonitor.listContainers w1);
      unfold bind, now_iso, gets, ret; simpl; rewrite Hc2; reflexivity].
    reflexivity.
Qed.

Lemma system_fails_dec (w : World) :
  (system_source_fails (sources w)
   /\ exists e, outcome SystemMonitor.getSystemOverview w = Throw e)
  \/ (~ system_source_fails (sources w)
      /\ exists data, outcome SystemMonitor.getSystemOverview w = Ok data).
Proof.
  destruct (outcome SystemMonitor.getSystemOverview w) as [data | e] eqn:Hs.
  - right. split; [| now exists data].
    intros Hf. apply overview_rethrows in Hf as [e He]. congruence.
  - left. split; [now apply (overview_throws_fails w e) | now exists e].
Qed.

(** X20. The health route always answers 200.  With the guarded monitor,
    in either revision of the route, the overall status is [degraded]
    exactly when a probe of the system overview fails and [healthy]
    otherwise: the container runtime being down or unreachable never
    degrades it.  The revision that looks at the availability flag reports
    the runtime as [unavailable] when the flag is off; the cache check is
    always [healthy]. *)
Theorem health_survives_docker_outage (v : Health.Variant) (uptime : num)
    (version : option string) (w : World) :
  v <> Health.Plain Rethrowing ->
  exists body,
    outcome (Health.health v uptime version) w = Ok (Json 200 body)
    /\ (prop "status" body = Str "degraded" <-> system_source_fails (sources w))
    /\ (prop "status" body = Str "healthy" <-> ~ system_source_fails (sources w))
    /\ (service_status "system" body = Str "unhealthy"
        <-> system_source_fails (sources w))
    /\ service_status "docker" body =
       Str (match v with
            | Health.Aware => if dockerAvailable w then "healthy" else "unavailable"
            | Health.Plain _ => "healthy"
            end)
    /\ service_status "cache" body = Str "healthy"
    /\ prop "timestamp" body = Str (Date.iso (clock w)).
Proof.
  intros Hv.
  destruct (health_run v uptime version w) as [docker [w3 [Hd [_ Hrun]]]].
  cbv zeta in Hd, Hrun. unfold outcome at 1. rewrite Hrun. clear Hrun. simpl fst.
  pose proof (TickFacts.listing_after_overview Guarded w) as Hsame. simpl in Hsame.
  destruct (guarded_list_total w) as [containers Hlist].
  rewrite <- Hsame in Hlist.
  pose proof (getSystemOverview_quiet dockerAvailable quiet_dockerAvailable w) as Hflag.
  assert (Hdocker : (v = Health.Plain Guarded /\ docker = Obj [("status", Str "healthy")])
                    \/ (v = Health.Aware /\ dockerAvailable w = true
                        /\ docker = Obj [("status", Str "healthy");
                                         ("containers", Health.length_value containers);
                                         ("available", Bool true)])
                    \/ (v = Health.Aware /\ dockerAvailable w = false
                        /\ docker = Obj [("status", Str "unavailable");
                                         ("message",
                                          Str "Docker daemon is not accessible or not running");
                                         ("containers", Arr [])])).
  { destruct v as [[|] |]; [| contradiction |].
    - left. rewrite checkDockerService_plain_run in Hd. simpl in Hd.
      rewrite Hlist in Hd. split; congruence.
    - right. rewrite checkDockerService_run in Hd. simpl in Hd.
      rewrite Hlist, Hflag in Hd.
      destruct (dockerAvailable w); [left | right]; repeat split; congruence. }
  destruct (system_fails_dec w) as [[Hyes [e He]] | [Hno [data Hdata]]].
  - rewrite He.
    destruct Hdocker as [[-> ->] | [[-> [Hup ->]] | [-> [Hup ->]]]];
      try rewrite Hup; (eexists; split; [reflexivity |]);
      simpl; repeat split; intros; try reflexivity; try assumption;
        try discriminate; try contradiction.
  - rewrite Hdata.
    destruct Hdocker as [[-> ->] | [[-> [Hup ->]] | [-> [Hup ->]]]];
      try rewrite Hup; (eexists; split; [reflexivity |]);
      simpl; repeat split; intros; try reflexivity; try assumption;
        try discriminate; try contradiction.
Qed.

Lemma health_survives_docker_outage_witness :
  exists body,
    outcome (Health.health Health.Aware (num_of_Z 12) None) (world docker_down false [])
    = Ok (Json 200 body)
    /\ prop "status" body = Str "healthy"
    /\ service_status "docker" body = Str "unavailable".
Proof.
  assert (Hv : Health.Aware <> Health.Plain Rethrowing) by discriminate.
  destruct (health_survives_docker_outage Health.Aware (num_of_Z 12) None
              (world docker_down false []) Hv)
    as [body [Hrun [_ [Hhealthy [_ [Hdocker _]]]]]].
  exists body. split; [exact Hrun | split; [| exact Hdocker]].
  apply Hhealthy. intros [[e H] | [[e H] | [[e H] | [[e H] | [e H]]]]]; discriminate.
Defined.

(** X21. With the monitor that rethrows, the first revision of the
    health route reports the container runtime as [unhealthy], with the
    message of the error, whenever the listing fails, and the overall
    status is [degraded] exactly when a probe of the system overview or
    the listing fails. *)
Theorem health_with_rethrowing_monitor (uptime : num) (version : option string)
    (w : World) :
  exists body,
    outcome (Health.health (Health.Plain Rethrowing) uptime version) w
    = Ok (Json 200 body)
    /\ (forall e, outcome DockerMonitorStrict.listContainers w = Throw e ->
          service_status "docker" body = Str "unhealthy"
          /\ prop "error" (prop "docker" (prop "services" body)) = Str (err_message e)
          /\ prop "status" body = Str "degraded")
    /\ (prop "status" body = Str "degraded" <->
        system_source_fails (sources w)
        \/ exists e, outcome DockerMonitorStrict.listContainers w = Throw e).
Proof.
  destruct (health_run (Health.Plain Rethrowing) uptime version w)
    as [docker [w3 [Hd [_ Hrun]]]].
  cbv zeta in Hd, Hrun. unfold outcome at 1. rewrite Hrun. clear Hrun. simpl fst.
  rewrite checkDockerService_plain_run in Hd. simpl in Hd.
  pose proof (TickFacts.listing_after_overview Rethrowing w) as Hsame. simpl in Hsame.
  rewrite Hsame in Hd. clear Hsame.
  assert (Hsys : (system_source_fails (sources w)
                  /\ exists e, outcome SystemMonitor.getSystemOverview w = Throw e)
                 \/ (~ system_source_fails (sources w)
                     /\ exists data, outcome SystemMonitor.getSystemOverview w = Ok data))
    by apply system_fails_dec.
  destruct (outcome DockerMonitorStrict.listContainers w) as [listed | e'];
    injection Hd as <-;
    destruct Hsys as [[Hyes [e ->]] | [Hno [data ->]]];
    (eexists; split; [reflexivity |]); simpl; (split; [intros e0 He0 | split; intros H]);
    try discriminate; try reflexivity; eauto.
  - destruct H as [H | [e0 H]]; [contradiction | discriminate].
  - injection He0 as <-. repeat split.
  - injection He0 as <-. repeat split.
Qed.

Lemma health_with_rethrowing_monitor_witness :
  exists body,
    outcome (Health.health (Health.Plain Rethrowing) (num_of_Z 12) None)
            (world docker_down true [])
    = Ok (Json 200 body)
    /\ prop "status" body = Str "degraded".
Proof.
  destruct (health_with_rethrowing_monitor (num_of_Z 12) None (world docker_down true []))
    as [body [Hrun [Hthrow _]]].
  exists body. split; [exact Hrun |].
  apply (Hthrow boom). reflexivity.
Defined.

End HealthFacts.

(** ** The error handler *)

Module ErrorFacts.
Import Observe Views Samples MoreSamples Routes ErrorHandler.

Ltac run_handler :=
  unfold outcome, after, errorHandler, basic, categorised, dockerAware, categorise,
    internal, answer, message_value, bind, logger, emit, now_iso, gets, ret.

Ltac split_conditions :=
  repeat match goal with
         | |- context [match status ?err with _ => _ end] => destruct (status err)
         | |- context [if ?c then _ else _] => destruct c eqn:?
         end.

Lemma prop_skip (k k' : string) (v : value) (rest : list (string * value)) :
  String.eqb k k' = false ->
  prop k (JSON.stringify (Obj ((k', v) :: rest))) = prop k (JSON.stringify (Obj rest)).
Proof. intros H. destruct v; simpl; now rewrite ?H. Qed.

Lemma has_key_skip (k k' : string) (v : value) (rest : list (string * value)) :
  String.eqb k k' = false ->
  has_key k (JSON.stringify (Obj ((k', v) :: rest))) =
  has_key k (JSON.stringify (Obj rest)).
Proof. intros H. destruct v; simpl; now rewrite ?H. Qed.

(** X22. In production no answer of the error handler carries the stack
    of the error, and the [message] of an answer, when there is one, is
    one of three fixed sentences: the message of the error itself is only
    ever sent as the [details] of a validation error. *)
Theorem production_hides_internals (r : Revision) (err : Failure) (w : World) :
  exists s body,
    outcome (errorHandler r true err) w = Ok (Json s body)
    /\ In (prop "message" body) canned_messages
    /\ prop "stack" body = Undefined
    /\ (prop "details" body <> Undefined -> name err = "ValidationError").
Proof.
  run_handler. cbn [negb].
  destruct r; destruct (message err); split_conditions; simpl;
    (eexists; eexists; split; [reflexivity |]);
    unfold canned_messages; simpl;
    repeat split; intros; auto 6; try congruence;
    try (now apply String.eqb_eq).
Qed.

(** X23. An error whose code is [ENOENT] is answered 404 "Resource not
    found" by every revision of the handler, unless it is a validation
    error: a missing Docker socket, whose error has that code, therefore
    never gets the 503 answer the last revision has for it, and that
    answer is only given to errors with another code. *)
Theorem missing_file_is_404 (r : Revision) (production : bool) (err : Failure)
    (w : World) :
  has_code "ENOENT" err = true ->
  name err <> "ValidationError" ->
  exists body,
    outcome (errorHandler r production err) w = Ok (Json 404 body)
    /\ prop "error" body = Str "Resource not found"
    /\ has_key "message" body = false.
Proof.
  intros Hcode Hname. apply String.eqb_neq in Hname.
  run_handler. rewrite Hname, Hcode. cbn [orb].
  destruct r; split_conditions; simpl; eexists; repeat split.
Qed.

Lemma missing_file_is_404_witness :
  exists body,
    outcome (errorHandler DockerAware true socket_missing) (world healthy true [])
    = Ok (Json 404 body)
    /\ prop "error" body = Str "Resource not found".
Proof.
  assert (Hname : name socket_missing <> "ValidationError") by discriminate.
  destruct (missing_file_is_404 DockerAware true socket_missing (world healthy true [])
              eq_refl Hname) as [body [Hrun [Herror _]]].
  exists body. split; [exact Hrun | exact Herror].
Defined.

(** X24. The error handler always answers, with status 400, 404, 503 or,
    failing those, 500 in the first revision and the status of the error
    (500 when it has none) in the later ones.  The answer always names an
    [error]; it carries the time of the answer in the later revisions and
    no timestamp in the first.  Handling an error only writes to the log:
    the registry, the cache and the messages sent are left alone. *)
Theorem error_answers (r : Revision) (production : bool) (err : Failure) (w : World) :
  exists s body,
    outcome (errorHandler r production err) w = Ok (Json s body)
    /\ (s = 400 \/ s = 404 \/ s = 503
        \/ s = match r with Basic => 500 | _ => status_or_500 err end)
    /\ (name err = "ValidationError" -> s = 400)
    /\ (exists text, prop "error" body = Str text)
    /\ match r with
       | Basic => has_key "timestamp" body = false
       | _ => prop "timestamp" body = Str (Date.iso (clock w))
       end
    /\ clients (after (errorHandler r production err) w) = clients w
    /\ store (after (errorHandler r production err) w) = store w
    /\ sends (trace (after (errorHandler r production err) w)) = sends (trace w)
    /\ polls (trace (after (errorHandler r production err) w)) = polls (trace w).
Proof.
  unfold outcome, after, errorHandler, basic, categorised, dockerAware, categorise,
    internal, answer, bind, logger, emit, now_iso, gets, ret.
  destruct r; split_conditions; cbn [fst snd];
    (eexists; eexists; split; [reflexivity |]);
    (split; [tauto |]);
    (split; [first [reflexivity | intros Hn;
       match goal with
       | H : String.eqb (name err) "ValidationError" = false |- _ =>
           apply String.eqb_neq in H; contradiction
       end] |]);
    (split; [eexists; reflexivity |]);
    (split; [rewrite ?prop_skip, ?has_key_skip by reflexivity; reflexivity |]);
    simpl; rewrite ?Frame.sends_app, ?TraceFacts.polls_app; simpl; rewrite ?app_nil_r;
    repeat split.
Qed.

End ErrorFacts.

(** ** The [/api] mount *)

Module AppFacts.
Import Observe Views Samples MoreSamples Routes Auth AuthFacts.

Lemma admitted_header (key header : string) :
  authMiddleware (Some key) (Some header) = Next ->
  key <> EmptyString /\ header = ("Bearer " ++ key)%string.
Proof.
  unfold authMiddleware.
  destruct key as [| k key]; [discriminate |].
  destruct header as [| h header]; [discriminate |].
  destruct (String.prefix "Bearer " (String h header)) eqn:Hprefix; simpl;
    [| discriminate].
  destruct (String.eqb (Str.from 7 (String h header)) (String k key)) eqn:Htoken; simpl;
    [| discriminate].
  intros _. split; [discriminate |].
  apply String.eqb_eq in Htoken. rewrite <- Htoken. now apply bearer_prefix.
Qed.

Lemma bearer_is_admitted (key : string) :
  key <> EmptyString ->
  authMiddleware (Some key) (Some ("Bearer " ++ key)%string) = Next.
Proof.
  intros Hkey. unfold authMiddleware.
  destruct key as [| k key]; [contradiction |].
  change (Some ("Bearer " ++ String k key)%string)
    with (Some (String "B" ("earer " ++ String k key)%string)).
  cbv iota beta.
  change (String "B" ("earer " ++ String k key)%string)
    with ("Bearer " ++ String k key)%string.
  rewrite prefix_of_bearer, token_of_bearer, String.eqb_refl. reflexivity.
Qed.

(** X25. Behind the [/api] mount a handler runs only for a request whose
    authorization header is [Bearer ] followed by the configured, non-empty
    key, and then it runs as it would unmounted.  Any other request is
    answered by the middleware with 401, or 500 when no key is configured,
    and an [error] text; the handler is not run, so no probe is called and
    nothing is cached. *)
Theorem api_gate (apiKey authHeader : option string) (handler : M Reply) (w : World) :
  (forall key, apiKey = Some key -> key <> EmptyString ->
     authHeader = Some ("Bearer " ++ key)%string ->
     App.api apiKey authHeader handler w = handler w)
  /\ ((forall key, apiKey = Some key -> key <> EmptyString ->
         authHeader <> Some ("Bearer " ++ key)%string) ->
      exists s body,
        App.api apiKey authHeader handler w = (Ok (Json s body), w)
        /\ (s = 401 \/ s = 500)
        /\ (s = 500 <-> apiKey = None \/ apiKey = Some EmptyString)
        /\ exists text, prop "error" body = Str text).
Proof.
  split.
  - intros key -> Hkey ->. unfold App.api. now rewrite bearer_is_admitted.
  - intros Hother. unfold App.api.
    destruct (authMiddleware apiKey authHeader) as [s body |] eqn:Hauth.
    + exists s, (JSON.stringify body). split; [reflexivity |].
      unfold authMiddleware in Hauth.
      destruct apiKey as [[| k key] |];
        [injection Hauth as <- <-; simpl; intuition (eauto; discriminate) | |
         injection Hauth as <- <-; simpl; intuition (eauto; discriminate)].
      destruct authHeader as [[| h header] |];
        [injection Hauth as <- <-; simpl; intuition (eauto; discriminate) | |
         injection Hauth as <- <-; simpl; intuition (eauto; discriminate)].
      destruct (negb (String.prefix "Bearer " (String h header)));
        [injection Hauth as <- <-; simpl; intuition (eauto; discriminate) |].
      destruct (negb (String.eqb (Str.from 7 (String h header)) (String k key)));
        [injection Hauth as <- <-; simpl; intuition (eauto; discriminate) | discriminate].
    + exfalso. destruct apiKey as [key |]; [| discriminate].
      destruct authHeader as [header |]; [| now destruct key].
      apply admitted_header in Hauth as [Hkey ->].
      now apply (Hother key).
Qed.

Lemma api_gate_witness :
  (exists s body,
     App.api (Some "s3cret") (Some "Bearer wrong") (handle Guarded GetOverview)
             (world healthy true [])
     = (Ok (Json s body), world healthy true [])
     /\ (s = 401 \/ s = 500))
  /\ App.api (Some "s3cret") (Some "Bearer s3cret") (handle Guarded GetCpu)
             (world healthy true [])
     = handle Guarded GetCpu (world healthy true []).
Proof.
  destruct (api_gate (Some "s3cret") (Some "Bearer s3cret") (handle Guarded GetCpu)
              (world healthy true [])) as [Hrun _].
  destruct (api_gate (Some "s3cret") (Some "Bearer wrong") (handle Guarded GetOverview)
              (world healthy true [])) as [_ Hstop].
  split.
  - destruct Hstop as [s [body [Hrun' [Hs _]]]].
    + intros key Hkey _. injection Hkey as <-. discriminate.
    + exists s, body. split; [exact Hrun' | exact Hs].
  - apply (Hrun "s3cret"); [reflexivity | discriminate | reflexivity].
Defined.

End AppFacts.
